(** * TerraInsight: livability scoring, alert evaluation and storage queries

    A shallow embedding of the server side of the TerraInsight dashboard
    ([server/services/livabilityCalculator.ts], the alert service, the
    database storage and [server/routes.ts]) together with the properties
    of its specification.

    JavaScript numbers are IEEE 754 binary64 values.  They are modelled by
    [spec_float] with the operations of the Standard Library's [SpecFloat]
    instantiated at precision 53 and maximal exponent 1024, so additions,
    products and quotients round exactly as they do in the program.

    Every numeric column of the schema is a [real].  A number written to
    such a column, or compared with it in a query, is cast to single
    precision, which raises when the number is out of range, and a
    stored number is read back as the binary64 value of its shortest
    decimal.  Storage methods therefore may raise, and the handlers
    answer 500 from their [catch] when one does. *)

From Stdlib Require Import ZArith QArith Bool List String Lia Permutation Sorted.
From Stdlib Require Import SpecFloat.
Import ListNotations.

Local Open Scope string_scope.
Local Open Scope list_scope.
Local Open Scope Z_scope.

Set Warnings "-register-all".

(* ================================================================== *)
(** * JavaScript numbers *)
(* ================================================================== *)

Module Js.

Definition prec : Z := 53.
Definition emax : Z := 1024.

(** A JavaScript [number]. *)
Definition number : Type := spec_float.

Definition NaN : number := S754_nan.
Definition Infinity : number := S754_infinity false.
Definition NegInfinity : number := S754_infinity true.

(** Arithmetic operators [+], [-], [*] and [/]. *)
Definition add : number -> number -> number := SFadd prec emax.
Definition sub : number -> number -> number := SFsub prec emax.
Definition mul : number -> number -> number := SFmul prec emax.
Definition div : number -> number -> number := SFdiv prec emax.

(** Relational operators: [le a b] is [a <= b], [ge a b] is [a >= b],
    [lt a b] is [a < b] and [gt a b] is [a > b].  Each is false as soon
    as an operand is NaN. *)
Definition le (a b : number) : bool := SFleb a b.
Definition lt (a b : number) : bool := SFltb a b.
Definition ge (a b : number) : bool := SFleb b a.
Definition gt (a b : number) : bool := SFltb b a.

(** An integer literal. *)
Definition int (z : Z) : number := binary_normalize prec emax z 0 false.

(** A decimal literal [n / 10^d], e.g. [dec 35 2] for [0.35]: the
    correctly rounded quotient of two exactly represented integers is
    the binary64 value nearest to the decimal. *)
Definition dec (n : Z) (d : Z) : number := div (int n) (int (10 ^ d)).

Definition isNaN (x : number) : bool :=
  match x with S754_nan => true | _ => false end.

Definition isFinite (x : number) : bool :=
  match x with
  | S754_nan | S754_infinity _ => false
  | _ => true
  end.

(** [ToBoolean] on a number: zero (of either sign) and NaN are falsy. *)
Definition truthy (x : number) : bool :=
  match x with
  | S754_zero _ | S754_nan => false
  | _ => true
  end.

(** [a || b] on two numbers. *)
Definition or (a b : number) : number := if truthy a then a else b.

(** [a || b] when [a] may be [undefined] or [null]. *)
Definition or_opt (a : option number) (b : number) : number :=
  match a with
  | Some x => or x b
  | None => b
  end.

(** [Math.min(a, b)]: NaN if an operand is NaN, and -0 below +0. *)
Definition Math_min (a b : number) : number :=
  match a, b with
  | S754_nan, _ | _, S754_nan => S754_nan
  | S754_zero sa, S754_zero sb => S754_zero (sa || sb)
  | _, _ => if lt b a then b else a
  end.

(** [Math.round(x)]: the nearest integer, a tie going towards
    +Infinity; non-finite and integral values are returned unchanged,
    and a value that rounds to zero keeps the sign of [x]. *)
Definition Math_round (x : number) : number :=
  match x with
  | S754_finite s m e =>
      if 0 <=? e then x
      else
        let k := - e in
        let n := (2 * cond_Zopp s (Zpos m) + 2 ^ k) / 2 ^ (k + 1) in
        if n =? 0 then S754_zero s else binary_normalize prec emax n 0 false
  | _ => x
  end.

(** The rational number a finite value stands for. *)
Definition exact (x : number) : option Q :=
  match x with
  | S754_zero _ => Some 0%Q
  | S754_finite s m e =>
      Some (inject_Z (cond_Zopp s (Zpos m)) * Qpower 2 e)%Q
  | _ => None
  end.

(** The mantissa of a finite value fits in 53 bits. *)
Definition small (x : number) : Prop :=
  match x with
  | S754_finite _ m _ => Zpos m < 2 ^ prec
  | _ => True
  end.

(** The outcome of rounding a non-negative mantissa: a zero, an infinity
    or a finite value of the given sign with a 53-bit mantissa. *)
Inductive rounded (s : bool) : number -> Prop :=
| rounded_zero : rounded s (S754_zero s)
| rounded_infinity : rounded s (S754_infinity s)
| rounded_finite (m : positive) (e : Z) :
    Zpos m < 2 ^ prec -> rounded s (S754_finite s m e).

(** The value is a well-formed binary64 datum: the mantissa of a finite
    value is canonical for its exponent. *)
Definition wf (x : number) : bool := valid_binary prec emax x.

End Js.

Definition number : Type := Js.number.

(* ================================================================== *)
(** * The [real] type of the database *)
(* ================================================================== *)

(** Every numeric column of the schema is [real], PostgreSQL's single
    precision type.  A number reaches the database as the text of
    [Number.prototype.toString], the shortest decimal that reads back as
    the same binary64 value; the database parses the text to the nearest
    single precision value and raises when a non-zero text rounds to
    zero or a finite one to infinity.  A stored value comes back as its
    shortest decimal in single precision, which the driver parses with
    [parseFloat]. *)

Module Pg.

(** The value [m * 2^e] as a fraction. *)
Definition numerator (m : positive) (e : Z) : Z :=
  if 0 <=? e then Zpos m * 2 ^ e else Zpos m.

Definition denominator (e : Z) : Z :=
  if 0 <=? e then 1 else 2 ^ (- e).

(** [10^p <= N / D]. *)
Definition pow10_le (p N D : Z) : bool :=
  if 0 <=? p then 10 ^ p * D <=? N else D <=? N * 10 ^ (- p).

Fixpoint lower10 (fuel : nat) (p N D : Z) : Z :=
  match fuel with
  | O => p
  | S f => if pow10_le p N D then p else lower10 f (p - 1) N D
  end.

Fixpoint raise10 (fuel : nat) (p N D : Z) : Z :=
  match fuel with
  | O => p
  | S f => if pow10_le (p + 1) N D then raise10 f (p + 1) N D else p
  end.

(** The decimal exponent of [N / D]: the [p] with
    [10^p <= N / D < 10^(p+1)], found from the binary one. *)
Definition log10 (N D : Z) : Z :=
  let guess := (Z.log2 N - Z.log2 D) * 30103 / 100000 in
  raise10 4 (lower10 4 guess N D) N D.

(** The decimal [s * 10^t] read in a binary format: the nearest value,
    a tie going to the even mantissa. *)
Definition of_decimal (prec emax : Z) (neg : bool) (s t : Z) : spec_float :=
  if 0 <=? t then
    binary_normalize prec emax (cond_Zopp neg (s * 10 ^ t)) 0 neg
  else
    SFdiv prec emax (S754_finite neg (Z.to_pos s) 0)
      (S754_finite false (Z.to_pos (10 ^ (- t))) 0).

(** The shortest decimal that reads back as [m * 2^e] in the format,
    tried with [k], [k + 1], ... digits: of the two [k]-digit decimals
    around the value, the one that reads back; if both do, the nearer
    one, and the even one when they are equally near. *)
Fixpoint shortest_from (fuel : nat) (k : Z) (prec emax : Z) (m : positive)
  (e p : Z) : Z * Z :=
  let N := numerator m e in
  let D := denominator e in
  let t := p - k + 1 in
  let lo := if 0 <=? t then N / (D * 10 ^ t) else (N * 10 ^ (- t)) / D in
  let hi := lo + 1 in
  let reads_back s :=
    match of_decimal prec emax false s t with
    | S754_finite _ m' e' => Pos.eqb m m' && (e =? e')
    | _ => false
    end in
  let lo_is_nearer :=
    match (if 0 <=? t
           then Z.compare (2 * N) ((2 * lo + 1) * 10 ^ t * D)
           else Z.compare (2 * N * 10 ^ (- t)) ((2 * lo + 1) * D)) with
    | Lt => true
    | Eq => Z.even lo
    | Gt => false
    end in
  match reads_back lo, reads_back hi with
  | true, true => if lo_is_nearer then (lo, t) else (hi, t)
  | true, false => (lo, t)
  | false, true => (hi, t)
  | false, false =>
      match fuel with
      | O => (lo, t)
      | S f => shortest_from f (k + 1) prec emax m e p
      end
  end.

(** The digits [(s, t)] of the shortest decimal [s * 10^t] of a finite
    value: 17 digits always suffice in binary64 and 9 in single
    precision. *)
Definition digits (prec emax : Z) (m : positive) (e : Z) : Z * Z :=
  shortest_from 20 1 prec emax m e (log10 (numerator m e) (denominator e)).

(** What the database makes of the number [x] sent for a [real] column
    or compared with one: [String(x)] parsed in single precision (24
    bits, exponents up to 128).  [String(-0)] is ["0"]; ["NaN"] and
    ["Infinity"] are values of [real]; [None] is the error "out of
    range for type real". *)
Definition real_in (x : number) : option spec_float :=
  match x with
  | S754_nan => Some S754_nan
  | S754_infinity s => Some (S754_infinity s)
  | S754_zero _ => Some (S754_zero false)
  | S754_finite s m e =>
      let (d, t) := digits Js.prec Js.emax m e in
      match of_decimal 24 128 s d t with
      | S754_finite s' m' e' => Some (S754_finite s' m' e')
      | _ => None
      end
  end.

(** The number the application reads for a stored single precision
    value: [parseFloat] of its shortest decimal. *)
Definition real_out (r : spec_float) : number :=
  match r with
  | S754_finite s m e =>
      let (d, t) := digits 24 128 m e in of_decimal Js.prec Js.emax s d t
  | _ => r
  end.

(** The number [x] as a [real] column holds it and returns it: 10.1 for
    10.10000001, 74.666664 for 74.66666666666667, an error for 1e39. *)
Definition real (x : number) : option number :=
  option_map real_out (real_in x).

(** A nullable [real] column: [null] stays [null]. *)
Definition nullable (x : option number) : option (option number) :=
  match x with
  | Some v => option_map Some (real v)
  | None => Some None
  end.

End Pg.

(** Sequencing of steps that may fail. *)
Definition option_bind {A B : Type} (o : option A) (f : A -> option B)
  : option B :=
  match o with
  | Some a => f a
  | None => None
  end.

Notation "x <- e ;; k" := (option_bind e (fun x => k))
  (at level 61, e at next level, right associativity).

(* ================================================================== *)
(** * JavaScript arrays *)
(* ================================================================== *)

Module JsArray.

(** One insertion of [Array.prototype.sort(comparator)]: the sort is
    stable, and [comparator(x, y) > 0] is what puts [y] before [x]. *)
Fixpoint sort_insert {A : Type} (comparator : A -> A -> number) (x : A)
  (sorted : list A) : list A :=
  match sorted with
  | [] => [x]
  | y :: rest =>
      if Js.gt (comparator x y) (Js.int 0)
      then y :: sort_insert comparator x rest
      else x :: sorted
  end.

(** [array.sort(comparator)], for a comparator that is consistent on the
    elements of the array. *)
Definition sort {A : Type} (comparator : A -> A -> number) (array : list A)
  : list A :=
  fold_right (sort_insert comparator) [] array.

(** [array.map((element, index) => f(element, index))], the indices
    starting at [start]. *)
Fixpoint mapi_from {A B : Type} (f : A -> nat -> B) (start : nat)
  (array : list A) : list B :=
  match array with
  | [] => []
  | element :: rest => f element start :: mapi_from f (S start) rest
  end.

Definition mapi {A B : Type} (f : A -> nat -> B) (array : list A) : list B :=
  mapi_from f 0%nat array.

(** [array.slice(0, n)]. *)
Definition slice0 {A : Type} (n : nat) (array : list A) : list A :=
  firstn n array.

End JsArray.

(* ================================================================== *)
(** * Text and JSON values *)
(* ================================================================== *)

(** A template literal: literal text interleaved with numbers, which are
    rendered either by [String(n)] or by [n.toFixed(d)]. *)
Inductive piece : Type :=
| Lit (s : string)
| Num (n : number)
| Fixed (n : number) (digits : nat).

Definition text : Type := list piece.

(** A JSON payload ([jsonb] columns, recommendation objects). *)
Inductive Json : Type :=
| JNull
| JBool (b : bool)
| JNum (n : number)
| JStr (s : string)
| JArr (l : list Json)
| JObj (fields : list (string * Json)).

Definition strings (l : list string) : Json := JArr (map JStr l).

(** The rendered text is the empty string: numbers never render empty. *)
Definition is_empty_text (t : text) : bool :=
  forallb (fun p => match p with Lit s => String.eqb s "" | _ => false end) t.

(** [s || t] for a possibly undefined text [s]: the empty string is
    falsy. *)
Definition text_or (s : option text) (t : text) : text :=
  match s with
  | Some x => if is_empty_text x then t else x
  | None => t
  end.

(** The same for a plain string [s]. *)
Definition str_or (s : option string) (t : text) : text :=
  text_or (option_map (fun x => [Lit x]) s) t.

(* ================================================================== *)
(** * Rows of the schema ([shared/schema.ts]) *)
(* ================================================================== *)

(** A [timestamp] column, in milliseconds since the epoch. *)
Definition Date : Type := Z.

Module AirQualityData.
Record t : Type := mk {
  id : string;
  latitude : number;
  longitude : number;
  aqi : number;
  pm25 : option number;
  pm10 : option number;
  ozone : option number;
  no2 : option number;
  so2 : option number;
  source : string;
  timestamp : Date;
  metadata : Json
}.
End AirQualityData.

Module WaterSecurityData.
Record t : Type := mk {
  id : string;
  latitude : number;
  longitude : number;
  waterStressLevel : number;
  precipitationLevel : option number;
  groundwaterLevel : option number;
  floodRisk : option number;
  source : string;
  timestamp : Date;
  metadata : Json
}.
End WaterSecurityData.

Module GreenSpaceData.
Record t : Type := mk {
  id : string;
  latitude : number;
  longitude : number;
  ndvi : number;
  vegetationCoverage : option number;
  greenSpaceType : option string;
  source : string;
  timestamp : Date;
  metadata : Json
}.
End GreenSpaceData.

Module InsertLivabilityScore.
Record t : Type := mk {
  latitude : number;
  longitude : number;
  airQualityScore : number;
  waterSecurityScore : number;
  greenSpaceScore : number;
  overallScore : number;
  location : text
}.
End InsertLivabilityScore.

Module LiveabilityScore.
Record t : Type := mk {
  id : string;
  timestamp : Date;
  values : InsertLivabilityScore.t
}.
End LiveabilityScore.

Module InsertEnvironmentalAlert.
Record t : Type := mk {
  type : string;
  category : string;
  title : string;
  message : text;
  latitude : number;
  longitude : number;
  location : text;
  severity : number;
  isActive : bool;
  actionable : bool;
  recommendations : Json
}.
End InsertEnvironmentalAlert.

Module EnvironmentalAlert.
Record t : Type := mk {
  id : string;
  timestamp : Date;
  values : InsertEnvironmentalAlert.t
}.
End EnvironmentalAlert.

(** The insert schemas of the readings: a row without [id] and
    [timestamp]. *)
Module InsertAirQualityData.
Record t : Type := mk {
  latitude : number;
  longitude : number;
  aqi : number;
  pm25 : option number;
  pm10 : option number;
  ozone : option number;
  no2 : option number;
  so2 : option number;
  source : string;
  metadata : Json
}.
End InsertAirQualityData.

Module InsertWaterSecurityData.
Record t : Type := mk {
  latitude : number;
  longitude : number;
  waterStressLevel : number;
  precipitationLevel : option number;
  groundwaterLevel : option number;
  floodRisk : option number;
  source : string;
  metadata : Json
}.
End InsertWaterSecurityData.

Module InsertGreenSpaceData.
Record t : Type := mk {
  latitude : number;
  longitude : number;
  ndvi : number;
  vegetationCoverage : option number;
  greenSpaceType : option string;
  source : string;
  metadata : Json
}.
End InsertGreenSpaceData.

(** The readings the data service hands to the routes
    ([nasaDataService.ts]); their [timestamp] is an ISO string. *)
Module NasaData.

Record AirQualityReading : Type := mkAir {
  a_latitude : number;
  a_longitude : number;
  aqi : number;
  pm25 : option number;
  pm10 : option number;
  ozone : option number;
  no2 : option number;
  so2 : option number;
  a_source : string;
  a_timestamp : string
}.

Record WaterSecurityReading : Type := mkWater {
  w_latitude : number;
  w_longitude : number;
  waterStressLevel : number;
  precipitationLevel : option number;
  groundwaterLevel : option number;
  floodRisk : option number;
  w_source : string;
  w_timestamp : string
}.

Record GreenSpaceReading : Type := mkGreen {
  g_latitude : number;
  g_longitude : number;
  ndvi : number;
  vegetationCoverage : option number;
  greenSpaceType : option string;
  g_source : string;
  g_timestamp : string
}.

(** The result of [fetchAllEnvironmentalData]. *)
Record t : Type := mk {
  airQuality : list AirQualityReading;
  waterSecurity : list WaterSecurityReading;
  greenSpace : list GreenSpaceReading
}.

End NasaData.

(* ================================================================== *)
(** * The livability calculator ([livabilityCalculator.ts]) *)
(* ================================================================== *)

Module LiveabilityCalculator.

Record LiveabilityMetrics : Type := Metrics {
  airQuality : number;
  waterSecurity : number;
  greenSpace : number
}.

Record Factor : Type := mkFactor {
  weight : number;
  normalizedValue : number;
  contribution : number
}.

Record Factors : Type := mkFactors {
  airQualityFactor : Factor;
  waterSecurityFactor : Factor;
  greenSpaceFactor : Factor
}.

Record LiveabilityResult : Type := mkResult {
  airQualityScore : number;
  waterSecurityScore : number;
  greenSpaceScore : number;
  overallScore : number;
  factors : Factors
}.

(** [weights]: 40% air quality, 35% water security, 25% green space. *)
Record Weights : Type := mkWeights {
  w_airQuality : number;
  w_waterSecurity : number;
  w_greenSpace : number
}.

Definition weights : Weights :=
  {| w_airQuality := Js.dec 4 1;
     w_waterSecurity := Js.dec 35 2;
     w_greenSpace := Js.dec 25 2 |}.

(** [referenceValues]: the bucket boundaries of each metric. *)
Record Reference : Type := mkReference {
  excellent : number;
  good : number;
  moderate : number;
  poor : number;
  veryPoor : number
}.

Definition ref_airQuality : Reference :=
  {| excellent := Js.int 0; good := Js.int 50; moderate := Js.int 100;
     poor := Js.int 200; veryPoor := Js.int 300 |}.

Definition ref_waterSecurity : Reference :=
  {| excellent := Js.int 0; good := Js.int 20; moderate := Js.int 40;
     poor := Js.int 60; veryPoor := Js.int 80 |}.

Definition ref_greenSpace : Reference :=
  {| excellent := Js.int 80; good := Js.int 60; moderate := Js.int 40;
     poor := Js.int 20; veryPoor := Js.int 10 |}.

Definition normalizeAirQuality (aqi : number) : number :=
  if Js.le aqi (excellent ref_airQuality) then Js.int 100
  else if Js.le aqi (good ref_airQuality) then Js.int 85
  else if Js.le aqi (moderate ref_airQuality) then Js.int 60
  else if Js.le aqi (poor ref_airQuality) then Js.int 35
  else if Js.le aqi (veryPoor ref_airQuality) then Js.int 15
  else Js.int 5.

Definition normalizeWaterSecurity (stressLevel : number) : number :=
  if Js.le stressLevel (excellent ref_waterSecurity) then Js.int 100
  else if Js.le stressLevel (good ref_waterSecurity) then Js.int 80
  else if Js.le stressLevel (moderate ref_waterSecurity) then Js.int 60
  else if Js.le stressLevel (poor ref_waterSecurity) then Js.int 40
  else if Js.le stressLevel (veryPoor ref_waterSecurity) then Js.int 20
  else Js.int 10.

Definition normalizeGreenSpace (coverage : number) : number :=
  if Js.ge coverage (excellent ref_greenSpace) then Js.int 100
  else if Js.ge coverage (good ref_greenSpace) then Js.int 80
  else if Js.ge coverage (moderate ref_greenSpace) then Js.int 60
  else if Js.ge coverage (poor ref_greenSpace) then Js.int 40
  else if Js.ge coverage (veryPoor ref_greenSpace) then Js.int 20
  else Js.int 10.

Definition calculateLivabilityScore (metrics : LiveabilityMetrics)
  : LiveabilityResult :=
  let airQualityScore := normalizeAirQuality (airQuality metrics) in
  let waterSecurityScore := normalizeWaterSecurity (waterSecurity metrics) in
  let greenSpaceScore := normalizeGreenSpace (greenSpace metrics) in
  let airQualityContribution :=
    Js.mul airQualityScore (w_airQuality weights) in
  let waterSecurityContribution :=
    Js.mul waterSecurityScore (w_waterSecurity weights) in
  let greenSpaceContribution :=
    Js.mul greenSpaceScore (w_greenSpace weights) in
  let overallScore :=
    Js.Math_round
      (Js.add (Js.add airQualityContribution waterSecurityContribution)
              greenSpaceContribution) in
  {| airQualityScore := Js.Math_round airQualityScore;
     waterSecurityScore := Js.Math_round waterSecurityScore;
     greenSpaceScore := Js.Math_round greenSpaceScore;
     overallScore := overallScore;
     factors :=
       {| airQualityFactor :=
            {| weight := w_airQuality weights;
               normalizedValue := airQualityScore;
               contribution := airQualityContribution |};
          waterSecurityFactor :=
            {| weight := w_waterSecurity weights;
               normalizedValue := waterSecurityScore;
               contribution := waterSecurityContribution |};
          greenSpaceFactor :=
            {| weight := w_greenSpace weights;
               normalizedValue := greenSpaceScore;
               contribution := greenSpaceContribution |} |} |}.

Record Category : Type := mkCategory {
  category : string;
  description : string;
  color : string
}.

Definition getLivabilityCategory (score : number) : Category :=
  if Js.ge score (Js.int 85) then
    {| category := "Excellent";
       description := "Outstanding environmental conditions";
       color := "green" |}
  else if Js.ge score (Js.int 70) then
    {| category := "Good";
       description := "Generally favorable environmental conditions";
       color := "lightgreen" |}
  else if Js.ge score (Js.int 55) then
    {| category := "Moderate";
       description :=
         "Acceptable environmental conditions with some concerns";
       color := "yellow" |}
  else if Js.ge score (Js.int 40) then
    {| category := "Poor";
       description := "Environmental conditions need improvement";
       color := "orange" |}
  else
    {| category := "Very Poor";
       description :=
         "Significant environmental concerns requiring action";
       color := "red" |}.

(** [factors.reduce((min, factor) => factor.score < min.score ? factor : min)]
    over a non-empty array: the first minimum wins. *)
Definition weakest (first : string * number) (rest : list (string * number))
  : string * number :=
  fold_left (fun mn factor => if Js.lt (snd factor) (snd mn) then factor else mn)
            rest first.

Definition generateRecommendations (result : LiveabilityResult) : list string :=
  let air :=
    if Js.lt (airQualityScore result) (Js.int 60) then
      ["Implement traffic reduction measures in high-pollution areas";
       "Increase monitoring of industrial emissions";
       "Promote public transportation and electric vehicle adoption"]
    else [] in
  let water :=
    if Js.lt (waterSecurityScore result) (Js.int 60) then
      ["Improve water conservation and efficiency programs";
       "Invest in flood protection infrastructure";
       "Enhance groundwater monitoring and management"]
    else [] in
  let green :=
    if Js.lt (greenSpaceScore result) (Js.int 60) then
      ["Expand urban parks and green corridors";
       "Implement green building requirements";
       "Create community gardens and green roofs";
       "Protect existing natural areas from development"]
    else [] in
  let weakestFactor :=
    weakest ("air quality", airQualityScore result)
            [("water security", waterSecurityScore result);
             ("green space", greenSpaceScore result)] in
  let priority :=
    if Js.lt (snd weakestFactor) (Js.int 50) then
      [("Priority focus needed on " ++ fst weakestFactor ++ " improvements")%string]
    else [] in
  air ++ water ++ green ++ priority.

Record Location : Type := mkLocation {
  name : string;
  metrics : LiveabilityMetrics
}.

Record Ranked : Type := mkRanked {
  r_name : string;
  r_result : LiveabilityResult;
  ranking : number
}.

(** The comparator of the regional ranking:
    [b.result.overallScore - a.result.overallScore]. *)
Definition byOverallScore (a b : string * LiveabilityResult) : number :=
  Js.sub (overallScore (snd b)) (overallScore (snd a)).

Definition calculateRegionalLivability (locations : list Location)
  : list Ranked :=
  let results :=
    map (fun location =>
           (name location, calculateLivabilityScore (metrics location)))
        locations in
  let results := JsArray.sort byOverallScore results in
  JsArray.mapi
    (fun result index =>
       {| r_name := fst result;
          r_result := snd result;
          ranking := Js.add (Js.int (Z.of_nat index)) (Js.int 1) |})
    results.

End LiveabilityCalculator.

(* ================================================================== *)
(** * The alert service *)
(* ================================================================== *)

Module AlertService.

Record Levels : Type := mkLevels {
  warning : number;
  danger : number
}.

Record AlertThresholds : Type := mkThresholds {
  th_airQuality : Levels;
  th_waterSecurity : Levels;
  th_greenSpace : Levels;
  th_floodRisk : Levels
}.

Record EnvironmentalData : Type := mkData {
  airQuality : option (list AirQualityData.t);
  waterSecurity : option (list WaterSecurityData.t);
  greenSpace : option (list GreenSpaceData.t);
  location : option text;
  latitude : option number;
  longitude : option number
}.

Definition Alert : Type := InsertEnvironmentalAlert.t.

(** The [thresholds] the service is created with. *)
Definition thresholds : AlertThresholds :=
  {| th_airQuality := {| warning := Js.int 100; danger := Js.int 150 |};
     th_waterSecurity := {| warning := Js.int 60; danger := Js.int 80 |};
     th_greenSpace := {| warning := Js.int 30; danger := Js.int 15 |};
     th_floodRisk := {| warning := Js.int 40; danger := Js.int 70 |} |}.

(** The label [context.location || `${lat.toFixed(3)}, ${lon.toFixed(3)}`]. *)
Definition place (context : EnvironmentalData) (lat lon : number) : text :=
  text_or (location context) [Fixed lat 3; Lit ", "; Fixed lon 3].

Section Recommendations.

(** The remote text generation: the outcome of the [try] block of each
    [generate...Recommendations] method (building the prompt, the chat
    completion request and [JSON.parse] of the reply), [None] when the
    block throws. *)
Variable airCompletion : AirQualityData.t -> string -> option Json.
Variable waterCompletion : WaterSecurityData.t -> string -> option Json.
Variable greenCompletion : GreenSpaceData.t -> string -> option Json.

Definition generateAirQualityRecommendations
  (data : AirQualityData.t) (severity : string) : Json :=
  match airCompletion data severity with
  | Some reply => reply
  | None =>
      JObj [("immediate",
             strings ["Limit outdoor activities"; "Close windows";
                      "Use air purifiers"]);
            ("shortTerm",
             strings ["Monitor air quality daily";
                      "Report to environmental authorities"]);
            ("longTerm",
             strings ["Support clean air initiatives";
                      "Reduce vehicle emissions"])]
  end.

Definition generateWaterSecurityRecommendations
  (data : WaterSecurityData.t) (severity : string) : Json :=
  match waterCompletion data severity with
  | Some reply => reply
  | None =>
      JObj [("conservation",
             strings ["Reduce water usage"; "Fix leaks promptly";
                      "Install water-efficient fixtures"]);
            ("infrastructure",
             strings ["Improve water storage";
                      "Upgrade distribution systems"]);
            ("emergency",
             strings ["Prepare water reserves"; "Monitor supply levels"])]
  end.

Definition generateGreenSpaceRecommendations
  (data : GreenSpaceData.t) (severity : string) : Json :=
  match greenCompletion data severity with
  | Some reply => reply
  | None =>
      JObj [("planning",
             strings ["Increase park space"; "Create green corridors";
                      "Mandate green building standards"]);
            ("community",
             strings ["Start community gardens"; "Plant street trees";
                      "Create green roofs"]);
            ("policy",
             strings ["Protect existing green space";
                      "Require environmental impact assessments"])]
  end.

(** The alert literal shared by every rule: [isActive] and
    [actionable] are always [true]. *)
Definition alert (type category title : string) (message : text)
  (context : EnvironmentalData) (lat lon : number)
  (severity : number) (recommendations : Json) : Alert :=
  {| InsertEnvironmentalAlert.type := type;
     InsertEnvironmentalAlert.category := category;
     InsertEnvironmentalAlert.title := title;
     InsertEnvironmentalAlert.message := message;
     InsertEnvironmentalAlert.latitude := Js.or_opt (latitude context) lat;
     InsertEnvironmentalAlert.longitude := Js.or_opt (longitude context) lon;
     InsertEnvironmentalAlert.location := place context lat lon;
     InsertEnvironmentalAlert.severity := severity;
     InsertEnvironmentalAlert.isActive := true;
     InsertEnvironmentalAlert.actionable := true;
     InsertEnvironmentalAlert.recommendations := recommendations |}.

Variable th : AlertThresholds.

(** ** Air quality *)

(** The first statement of [analyzeAirQuality]: the level of the latest
    reading against the danger and warning thresholds. *)
Definition airLevelAlerts (latest : AirQualityData.t)
  (context : EnvironmentalData) : list Alert :=
  let aqi := AirQualityData.aqi latest in
  let lat := AirQualityData.latitude latest in
  let lon := AirQualityData.longitude latest in
  if Js.ge aqi (danger (th_airQuality th)) then
    [alert "danger" "air_quality" "Unhealthy Air Quality Detected"
       [Lit "AQI level of "; Num aqi;
        Lit " exceeds safe limits. Immediate action recommended for sensitive individuals."]
       context lat lon
       (Js.Math_min (Js.int 100)
          (Js.mul (Js.div aqi (danger (th_airQuality th))) (Js.int 70)))
       (generateAirQualityRecommendations latest "danger")]
  else if Js.ge aqi (warning (th_airQuality th)) then
    [alert "warning" "air_quality" "Moderate Air Quality Alert"
       [Lit "AQI level of "; Num aqi;
        Lit " may affect sensitive individuals. Consider limiting outdoor activities."]
       context lat lon
       (Js.Math_min (Js.int 100)
          (Js.mul (Js.div aqi (warning (th_airQuality th))) (Js.int 50)))
       (generateAirQualityRecommendations latest "warning")]
  else [].

(** Its second statement: the rapid deterioration check, which needs
    [airData.length >= 2]. *)
Definition airTrendAlerts (latest : AirQualityData.t)
  (rest : list AirQualityData.t) (context : EnvironmentalData)
  : list Alert :=
  match rest with
  | previous :: _ =>
      let aqiChange :=
        Js.sub (AirQualityData.aqi latest) (AirQualityData.aqi previous) in
      if Js.gt aqiChange (Js.int 50) then
        [alert "warning" "air_quality" "Rapid Air Quality Deterioration"
           [Lit "Air quality index increased by "; Num aqiChange;
            Lit " points in the last reading. Monitor conditions closely."]
           context
           (AirQualityData.latitude latest)
           (AirQualityData.longitude latest)
           (Js.Math_min (Js.int 100)
              (Js.mul (Js.div aqiChange (Js.int 50)) (Js.int 40)))
           (JObj [("trend", JStr "deteriorating");
                  ("actions",
                   strings ["Monitor air quality frequently";
                            "Prepare for potential restrictions"])])]
      else []
  | [] => []
  end.

(** [analyzeAirQuality]; [None] stands for the [TypeError] raised by
    [airData[0].aqi] on an empty array. *)
Definition analyzeAirQuality (airData : list AirQualityData.t)
  (context : EnvironmentalData) : option (list Alert) :=
  match airData with
  | [] => None
  | latest :: rest =>
      Some (airLevelAlerts latest context
            ++ airTrendAlerts latest rest context)
  end.

(** ** Water security *)

(** The water stress statement of [analyzeWaterSecurity]. *)
Definition waterStressAlerts (latest : WaterSecurityData.t)
  (context : EnvironmentalData) : list Alert :=
  let stress := WaterSecurityData.waterStressLevel latest in
  let lat := WaterSecurityData.latitude latest in
  let lon := WaterSecurityData.longitude latest in
  if Js.ge stress (danger (th_waterSecurity th)) then
    [alert "danger" "water_security" "Critical Water Stress Level"
       [Lit "Water stress at "; Fixed stress 1;
        Lit "% indicates severe water scarcity risk."]
       context lat lon
       (Js.Math_min (Js.int 100)
          (Js.mul (Js.div stress (Js.int 100)) (Js.int 80)))
       (generateWaterSecurityRecommendations latest "danger")]
  else if Js.ge stress (warning (th_waterSecurity th)) then
    [alert "warning" "water_security" "Elevated Water Stress"
       [Lit "Water stress level of "; Fixed stress 1;
        Lit "% requires conservation measures."]
       context lat lon
       (Js.Math_min (Js.int 100)
          (Js.mul (Js.div stress (Js.int 100)) (Js.int 60)))
       (generateWaterSecurityRecommendations latest "warning")]
  else [].

(** The flood risk statement.  A [null] flood risk is falsy in both
    conditions [latest.floodRisk && latest.floodRisk >= ...]. *)
Definition floodRiskAlerts (latest : WaterSecurityData.t)
  (context : EnvironmentalData) : list Alert :=
  let lat := WaterSecurityData.latitude latest in
  let lon := WaterSecurityData.longitude latest in
  match WaterSecurityData.floodRisk latest with
  | None => []
  | Some floodRisk =>
      if Js.truthy floodRisk && Js.ge floodRisk (danger (th_floodRisk th))
      then
        [alert "danger" "water_security" "High Flood Risk Alert"
           [Lit "Flood risk at "; Fixed floodRisk 1;
            Lit "% indicates potential flooding conditions."]
           context lat lon
           (Js.Math_min (Js.int 100)
              (Js.mul (Js.div floodRisk (Js.int 100)) (Js.int 75)))
           (JObj [("emergency", JBool true);
                  ("actions",
                   strings ["Monitor weather conditions";
                            "Prepare evacuation routes";
                            "Secure property"])])]
      else if Js.truthy floodRisk
              && Js.ge floodRisk (warning (th_floodRisk th))
      then
        [alert "warning" "water_security" "Moderate Flood Risk"
           [Lit "Flood risk at "; Fixed floodRisk 1;
            Lit "% warrants preparation measures."]
           context lat lon
           (Js.Math_min (Js.int 100)
              (Js.mul (Js.div floodRisk (Js.int 100)) (Js.int 50)))
           (JObj [("preparedness", JBool true);
                  ("actions",
                   strings ["Review emergency plans";
                            "Check drainage systems"])])]
      else []
  end.

Definition analyzeWaterSecurity (waterData : list WaterSecurityData.t)
  (context : EnvironmentalData) : option (list Alert) :=
  match waterData with
  | [] => None
  | latest :: _ =>
      Some (waterStressAlerts latest context
            ++ floodRiskAlerts latest context)
  end.

(** ** Green space *)

(** [latest.vegetationCoverage || (latest.ndvi * 100)]. *)
Definition vegCoverage (latest : GreenSpaceData.t) : number :=
  Js.or_opt (GreenSpaceData.vegetationCoverage latest)
            (Js.mul (GreenSpaceData.ndvi latest) (Js.int 100)).

Definition greenAlerts (latest : GreenSpaceData.t)
  (context : EnvironmentalData) : list Alert :=
  let vegCoverage := vegCoverage latest in
  let lat := GreenSpaceData.latitude latest in
  let lon := GreenSpaceData.longitude latest in
  if Js.le vegCoverage (danger (th_greenSpace th)) then
    [alert "danger" "green_space" "Critical Green Space Deficiency"
       [Lit "Vegetation coverage at "; Fixed vegCoverage 1;
        Lit "% is critically low and affects air quality and livability."]
       context lat lon
       (Js.Math_min (Js.int 100)
          (Js.mul
             (Js.div (Js.sub (danger (th_greenSpace th)) vegCoverage)
                     (danger (th_greenSpace th)))
             (Js.int 70)))
       (generateGreenSpaceRecommendations latest "danger")]
  else if Js.le vegCoverage (warning (th_greenSpace th)) then
    [alert "warning" "green_space" "Low Green Space Coverage"
       [Lit "Vegetation coverage at "; Fixed vegCoverage 1;
        Lit "% is below recommended levels for urban areas."]
       context lat lon
       (Js.Math_min (Js.int 100)
          (Js.mul
             (Js.div (Js.sub (warning (th_greenSpace th)) vegCoverage)
                     (warning (th_greenSpace th)))
             (Js.int 50)))
       (generateGreenSpaceRecommendations latest "warning")]
  else [].

Definition analyzeGreenSpace (greenData : list GreenSpaceData.t)
  (context : EnvironmentalData) : option (list Alert) :=
  match greenData with
  | [] => None
  | latest :: _ => Some (greenAlerts latest context)
  end.

(** ** All categories *)

(** One block of [generateAlerts]: a category is analysed when its
    array is present and non-empty, and an exception of the analysis
    propagates. *)
Definition analyzed {A : Type}
  (analyze : list A -> EnvironmentalData -> option (list Alert))
  (readings : option (list A)) (data : EnvironmentalData)
  : option (list Alert) :=
  match readings with
  | Some ((_ :: _) as l) => analyze l data
  | _ => Some []
  end.

Definition generateAlerts (data : EnvironmentalData)
  : option (list Alert) :=
  match analyzed analyzeAirQuality (airQuality data) data with
  | None => None
  | Some airAlerts =>
      match analyzed analyzeWaterSecurity (waterSecurity data) data with
      | None => None
      | Some waterAlerts =>
          match analyzed analyzeGreenSpace (greenSpace data) data with
          | None => None
          | Some greenAlerts =>
              Some (airAlerts ++ waterAlerts ++ greenAlerts)
          end
      end
  end.

End Recommendations.

End AlertService.

(* ================================================================== *)
(** * The database storage *)
(* ================================================================== *)

Module Storage.

(** The tables; a row inserted last is at the end of its list.  A row
    holds the values of its [real] columns as the application reads
    them back. *)
Record Database : Type := mkDatabase {
  airQualityData : list AirQualityData.t;
  waterSecurityData : list WaterSecurityData.t;
  greenSpaceData : list GreenSpaceData.t;
  livabilityScores : list LiveabilityScore.t;
  environmentalAlerts : list EnvironmentalAlert.t
}.

(** A storage method: it reads the database and returns its new state. *)
Definition DB (A : Type) : Type := Database -> A * Database.

Definition ret {A : Type} (a : A) : DB A := fun db => (a, db).

Definition bind {A B : Type} (c : DB A) (k : A -> DB B) : DB B :=
  fun db => let (a, db') := c db in k a db'.

Definition query {A : Type} (q : Database -> A) : DB A :=
  fun db => (q db, db).

(** A storage method that may raise: [None] is the exception, and the
    database is as the statements before it left it. *)
Definition Try (A : Type) : Type := Database -> option A * Database.

Definition succeed {A : Type} (a : A) : Try A := fun db => (Some a, db).

Definition raise {A : Type} : Try A := fun db => (None, db).

Definition andThen {A B : Type} (c : Try A) (k : A -> Try B) : Try B :=
  fun db =>
    match c db with
    | (Some a, db') => k a db'
    | (None, db') => (None, db')
    end.

(** A query: it raises or returns, and writes nothing. *)
Definition tryQuery {A : Type} (q : Database -> option A) : Try A :=
  fun db => (q db, db).

(** [try { body } catch (error) { handler }]. *)
Definition catch {A : Type} (body : Try A) (handler : DB A) : DB A :=
  fun db =>
    match body db with
    | (Some a, db') => (a, db')
    | (None, db') => handler db'
    end.

(** The order of the database on a [real] column: NaN is equal to NaN
    and above every other value. *)
Definition column_le (a b : number) : bool :=
  if Js.isNaN b then true else if Js.isNaN a then false else Js.le a b.

(** ** Query builder *)

Section Select.
Context {Row : Type}.

Definition Condition : Type := Row -> bool.

(** [gte(column, value)] and [lte(column, value)] on a [real] column.
    The parameter takes the type of the column: the database casts
    [value] to [real], which raises when it is out of range, and
    compares in the order of [real].  Reading back keeps that order, so
    the comparison is made on the values as read back. *)
Definition gte (column : Row -> number) (value : number)
  : option Condition :=
  option_map (fun bound row => column_le bound (column row)) (Pg.real value).

Definition lte (column : Row -> number) (value : number)
  : option Condition :=
  option_map (fun bound row => column_le (column row) bound) (Pg.real value).

Fixpoint and_ (conditions : list (option Condition)) : option Condition :=
  match conditions with
  | [] => Some (fun _ => true)
  | condition :: more =>
      match condition, and_ more with
      | Some c, Some rest => Some (fun row => c row && rest row)
      | _, _ => None
      end
  end.

(** [ORDER BY column DESC], as a stable insertion sort. *)
Fixpoint insert_desc (column : Row -> Date) (row : Row) (sorted : list Row)
  : list Row :=
  match sorted with
  | [] => [row]
  | r :: rest =>
      if column r <=? column row then row :: sorted
      else r :: insert_desc column row rest
  end.

Definition orderBy_desc (column : Row -> Date) (rows : list Row)
  : list Row :=
  fold_right (insert_desc column) [] rows.

(** Rows in descending order of [column]. *)
Definition descending (column : Row -> Date) : list Row -> Prop :=
  StronglySorted (fun a b => column b <= column a).

(** [select().from(table).where(condition).orderBy(desc(column))]; it
    raises when a parameter of the condition does. *)
Definition select_where_orderBy_desc (table : list Row)
  (condition : option Condition) (column : Row -> Date)
  : option (list Row) :=
  option_map (fun c => orderBy_desc column (filter c table)) condition.
End Select.

(** The default [radius] of the location queries. *)
Definition defaultRadius : number := Js.dec 1 1.

Definition radius_or_default (radius : option number) : number :=
  match radius with
  | Some r => r
  | None => defaultRadius
  end.

Definition getAirQualityDataByLocation (lat lon : number)
  (radius : option number) (db : Database)
  : option (list AirQualityData.t) :=
  let radius := radius_or_default radius in
  select_where_orderBy_desc (airQualityData db)
    (and_ [gte AirQualityData.latitude (Js.sub lat radius);
           lte AirQualityData.latitude (Js.add lat radius);
           gte AirQualityData.longitude (Js.sub lon radius);
           lte AirQualityData.longitude (Js.add lon radius)])
    AirQualityData.timestamp.

Definition getWaterSecurityDataByLocation (lat lon : number)
  (radius : option number) (db : Database)
  : option (list WaterSecurityData.t) :=
  let radius := radius_or_default radius in
  select_where_orderBy_desc (waterSecurityData db)
    (and_ [gte WaterSecurityData.latitude (Js.sub lat radius);
           lte WaterSecurityData.latitude (Js.add lat radius);
           gte WaterSecurityData.longitude (Js.sub lon radius);
           lte WaterSecurityData.longitude (Js.add lon radius)])
    WaterSecurityData.timestamp.

Definition getGreenSpaceDataByLocation (lat lon : number)
  (radius : option number) (db : Database)
  : option (list GreenSpaceData.t) :=
  let radius := radius_or_default radius in
  select_where_orderBy_desc (greenSpaceData db)
    (and_ [gte GreenSpaceData.latitude (Js.sub lat radius);
           lte GreenSpaceData.latitude (Js.add lat radius);
           gte GreenSpaceData.longitude (Js.sub lon radius);
           lte GreenSpaceData.longitude (Js.add lon radius)])
    GreenSpaceData.timestamp.

(** ** Inserting rows *)

(** The row that [insert(...).values(score).returning()] stores and
    returns: the database fills in the [id] and [timestamp] defaults,
    given here as [uuid] ([gen_random_uuid()]) and [stamp] ([now()]),
    and casts every number to [real]; there is no row when a number is
    out of range. *)
Definition livabilityScoreRow (uuid : string) (stamp : Date)
  (score : InsertLivabilityScore.t) : option LiveabilityScore.t :=
  latitude <- Pg.real (InsertLivabilityScore.latitude score);;
  longitude <- Pg.real (InsertLivabilityScore.longitude score);;
  airQualityScore <- Pg.real (InsertLivabilityScore.airQualityScore score);;
  waterSecurityScore <-
    Pg.real (InsertLivabilityScore.waterSecurityScore score);;
  greenSpaceScore <- Pg.real (InsertLivabilityScore.greenSpaceScore score);;
  overallScore <- Pg.real (InsertLivabilityScore.overallScore score);;
  Some (LiveabilityScore.mk uuid stamp
          (InsertLivabilityScore.mk latitude longitude airQualityScore
             waterSecurityScore greenSpaceScore overallScore
             (InsertLivabilityScore.location score))).

Definition environmentalAlertRow (uuid : string) (stamp : Date)
  (alert : InsertEnvironmentalAlert.t) : option EnvironmentalAlert.t :=
  latitude <- Pg.real (InsertEnvironmentalAlert.latitude alert);;
  longitude <- Pg.real (InsertEnvironmentalAlert.longitude alert);;
  severity <- Pg.real (InsertEnvironmentalAlert.severity alert);;
  Some (EnvironmentalAlert.mk uuid stamp
          (InsertEnvironmentalAlert.mk
             (InsertEnvironmentalAlert.type alert)
             (InsertEnvironmentalAlert.category alert)
             (InsertEnvironmentalAlert.title alert)
             (InsertEnvironmentalAlert.message alert)
             latitude longitude
             (InsertEnvironmentalAlert.location alert)
             severity
             (InsertEnvironmentalAlert.isActive alert)
             (InsertEnvironmentalAlert.actionable alert)
             (InsertEnvironmentalAlert.recommendations alert))).

Definition airQualityRow (uuid : string) (stamp : Date)
  (data : InsertAirQualityData.t) : option AirQualityData.t :=
  latitude <- Pg.real (InsertAirQualityData.latitude data);;
  longitude <- Pg.real (InsertAirQualityData.longitude data);;
  aqi <- Pg.real (InsertAirQualityData.aqi data);;
  pm25 <- Pg.nullable (InsertAirQualityData.pm25 data);;
  pm10 <- Pg.nullable (InsertAirQualityData.pm10 data);;
  ozone <- Pg.nullable (InsertAirQualityData.ozone data);;
  no2 <- Pg.nullable (InsertAirQualityData.no2 data);;
  so2 <- Pg.nullable (InsertAirQualityData.so2 data);;
  Some (AirQualityData.mk uuid latitude longitude aqi pm25 pm10 ozone no2
          so2 (InsertAirQualityData.source data) stamp
          (InsertAirQualityData.metadata data)).

Definition waterSecurityRow (uuid : string) (stamp : Date)
  (data : InsertWaterSecurityData.t) : option WaterSecurityData.t :=
  latitude <- Pg.real (InsertWaterSecurityData.latitude data);;
  longitude <- Pg.real (InsertWaterSecurityData.longitude data);;
  waterStressLevel <-
    Pg.real (InsertWaterSecurityData.waterStressLevel data);;
  precipitationLevel <-
    Pg.nullable (InsertWaterSecurityData.precipitationLevel data);;
  groundwaterLevel <-
    Pg.nullable (InsertWaterSecurityData.groundwaterLevel data);;
  floodRisk <- Pg.nullable (InsertWaterSecurityData.floodRisk data);;
  Some (WaterSecurityData.mk uuid latitude longitude waterStressLevel
          precipitationLevel groundwaterLevel floodRisk
          (InsertWaterSecurityData.source data) stamp
          (InsertWaterSecurityData.metadata data)).

Definition greenSpaceRow (uuid : string) (stamp : Date)
  (data : InsertGreenSpaceData.t) : option GreenSpaceData.t :=
  latitude <- Pg.real (InsertGreenSpaceData.latitude data);;
  longitude <- Pg.real (InsertGreenSpaceData.longitude data);;
  ndvi <- Pg.real (InsertGreenSpaceData.ndvi data);;
  vegetationCoverage <-
    Pg.nullable (InsertGreenSpaceData.vegetationCoverage data);;
  Some (GreenSpaceData.mk uuid latitude longitude ndvi vegetationCoverage
          (InsertGreenSpaceData.greenSpaceType data)
          (InsertGreenSpaceData.source data) stamp
          (InsertGreenSpaceData.metadata data)).

(** An insertion: when the row is refused the statement raises and the
    table is as before. *)
Definition insertLivabilityScore (uuid : string) (stamp : Date)
  (score : InsertLivabilityScore.t) : Try LiveabilityScore.t :=
  fun db =>
    match livabilityScoreRow uuid stamp score with
    | None => (None, db)
    | Some result =>
        (Some result,
         {| airQualityData := airQualityData db;
            waterSecurityData := waterSecurityData db;
            greenSpaceData := greenSpaceData db;
            livabilityScores := livabilityScores db ++ [result];
            environmentalAlerts := environmentalAlerts db |})
    end.

Definition insertEnvironmentalAlert (uuid : string) (stamp : Date)
  (alert : InsertEnvironmentalAlert.t) : Try EnvironmentalAlert.t :=
  fun db =>
    match environmentalAlertRow uuid stamp alert with
    | None => (None, db)
    | Some result =>
        (Some result,
         {| airQualityData := airQualityData db;
            waterSecurityData := waterSecurityData db;
            greenSpaceData := greenSpaceData db;
            livabilityScores := livabilityScores db;
            environmentalAlerts := environmentalAlerts db ++ [result] |})
    end.

Definition insertAirQualityData (uuid : string) (stamp : Date)
  (data : InsertAirQualityData.t) : Try AirQualityData.t :=
  fun db =>
    match airQualityRow uuid stamp data with
    | None => (None, db)
    | Some result =>
        (Some result,
         {| airQualityData := airQualityData db ++ [result];
            waterSecurityData := waterSecurityData db;
            greenSpaceData := greenSpaceData db;
            livabilityScores := livabilityScores db;
            environmentalAlerts := environmentalAlerts db |})
    end.

Definition insertWaterSecurityData (uuid : string) (stamp : Date)
  (data : InsertWaterSecurityData.t) : Try WaterSecurityData.t :=
  fun db =>
    match waterSecurityRow uuid stamp data with
    | None => (None, db)
    | Some result =>
        (Some result,
         {| airQualityData := airQualityData db;
            waterSecurityData := waterSecurityData db ++ [result];
            greenSpaceData := greenSpaceData db;
            livabilityScores := livabilityScores db;
            environmentalAlerts := environmentalAlerts db |})
    end.

Definition insertGreenSpaceData (uuid : string) (stamp : Date)
  (data : InsertGreenSpaceData.t) : Try GreenSpaceData.t :=
  fun db =>
    match greenSpaceRow uuid stamp data with
    | None => (None, db)
    | Some result =>
        (Some result,
         {| airQualityData := airQualityData db;
            waterSecurityData := waterSecurityData db;
            greenSpaceData := greenSpaceData db ++ [result];
            livabilityScores := livabilityScores db;
            environmentalAlerts := environmentalAlerts db |})
    end.

(** ** Recent readings *)

Record RecentData : Type := mkRecent {
  recentAirQuality : list AirQualityData.t;
  recentWaterSecurity : list WaterSecurityData.t;
  recentGreenSpace : list GreenSpaceData.t
}.

Section Clock.

(** [hoursBefore d h] is the instant of [d.setHours(d.getHours() - h)],
    which the local time zone of the server determines. *)
Variable hoursBefore : Date -> Z -> Date.

(** [getRecentEnvironmentalData(lat, lon, hours)] when [new Date()]
    reads [now]: the three location queries with the default radius,
    then the rows with [timestamp >= cutoffTime]; it raises when one of
    the queries does. *)
Definition getRecentEnvironmentalData (now : Date) (lat lon : number)
  (hours : option Z) : Try RecentData :=
  let hours := match hours with Some h => h | None => 24 end in
  let cutoffTime := hoursBefore now hours in
  tryQuery (fun db =>
    airQuality <- getAirQualityDataByLocation lat lon None db;;
    waterSecurity <- getWaterSecurityDataByLocation lat lon None db;;
    greenSpace <- getGreenSpaceDataByLocation lat lon None db;;
    Some {| recentAirQuality :=
              filter (fun d => cutoffTime <=? AirQualityData.timestamp d)
                     airQuality;
            recentWaterSecurity :=
              filter (fun d => cutoffTime <=? WaterSecurityData.timestamp d)
                     waterSecurity;
            recentGreenSpace :=
              filter (fun d => cutoffTime <=? GreenSpaceData.timestamp d)
                     greenSpace |}).

End Clock.

(** ** Scores and alerts *)

(** The radius of the livability score lookup. *)
Definition scoreRadius : number := Js.dec 1 2.

(** [getLivabilityScoreByLocation]: the query with [limit(1)], of which
    [const [score] = ...] takes the first row if there is one. *)
Definition getLivabilityScoreByLocation (lat lon : number) (db : Database)
  : option (option LiveabilityScore.t) :=
  option_map (fun rows => hd_error (firstn 1 rows))
    (select_where_orderBy_desc (livabilityScores db)
       (and_ [gte (fun s => InsertLivabilityScore.latitude
                              (LiveabilityScore.values s))
                  (Js.sub lat scoreRadius);
              lte (fun s => InsertLivabilityScore.latitude
                              (LiveabilityScore.values s))
                  (Js.add lat scoreRadius);
              gte (fun s => InsertLivabilityScore.longitude
                              (LiveabilityScore.values s))
                  (Js.sub lon scoreRadius);
              lte (fun s => InsertLivabilityScore.longitude
                              (LiveabilityScore.values s))
                  (Js.add lon scoreRadius)])
       LiveabilityScore.timestamp).

(** [ORDER BY] with several keys, as a stable insertion sort:
    [before a b] tells that [a] may come before [b]. *)
Fixpoint insert_by {Row : Type} (before : Row -> Row -> bool) (row : Row)
  (sorted : list Row) : list Row :=
  match sorted with
  | [] => [row]
  | r :: rest =>
      if before row r then row :: sorted
      else r :: insert_by before row rest
  end.

Definition orderBy {Row : Type} (before : Row -> Row -> bool)
  (rows : list Row) : list Row :=
  fold_right (insert_by before) [] rows.

(** [desc(severity), desc(timestamp)]: the higher severity first and,
    at equal severity, the later alert first. *)
Definition severity_then_time (a b : EnvironmentalAlert.t) : bool :=
  let sa := InsertEnvironmentalAlert.severity (EnvironmentalAlert.values a) in
  let sb := InsertEnvironmentalAlert.severity (EnvironmentalAlert.values b) in
  if negb (column_le sa sb) then true
  else if negb (column_le sb sa) then false
  else EnvironmentalAlert.timestamp b <=? EnvironmentalAlert.timestamp a.

(** [getActiveAlerts]: [where(eq(isActive, true))] and the order above. *)
Definition getActiveAlerts (db : Database) : list EnvironmentalAlert.t :=
  orderBy severity_then_time
    (filter (fun a => Bool.eqb (InsertEnvironmentalAlert.isActive
                                  (EnvironmentalAlert.values a)) true)
            (environmentalAlerts db)).

End Storage.

(* ================================================================== *)
(** * The HTTP routes ([server/routes.ts]) *)
(* ================================================================== *)

Module Routes.
Import Storage.

Inductive Body : Type :=
| ErrorBody (error : string)
| LivabilityBody (result : LiveabilityCalculator.LiveabilityResult)
    (category : LiveabilityCalculator.Category)
    (recommendations : list string) (id : string) (timestamp : Date)
| AlertsBody (alerts : list EnvironmentalAlert.t)
| DismissBody (success : bool) (message : string).

Record Response : Type := mkResponse {
  status : Z;
  body : Body
}.

(** [res.json(body)] answers with status 200. *)
Definition json (body : Body) : Response :=
  {| status := 200; body := body |}.

(** [res.status(code).json(body)]. *)
Definition status_json (code : Z) (body : Body) : Response :=
  {| status := code; body := body |}.

(** What a request observes of its environment: the clock read by
    [new Date()], and the [id] and [timestamp] defaults the database
    gives to the k-th row the request inserts. *)
Record Environment : Type := mkEnvironment {
  clock : Date;
  fresh : nat -> string * Date
}.

Section Handlers.

Variable parseFloat : string -> number.
Variable hoursBefore : Date -> Z -> Date.
Variable airCompletion : AirQualityData.t -> string -> option Json.
Variable waterCompletion : WaterSecurityData.t -> string -> option Json.
Variable greenCompletion : GreenSpaceData.t -> string -> option Json.

(** [rows.reduce((sum, d) => sum + value(d), 0) / rows.length]. *)
Definition average {Row : Type} (value : Row -> number) (rows : list Row)
  : number :=
  Js.div (fold_left (fun sum d => Js.add sum (value d)) rows (Js.int 0))
         (Js.int (Z.of_nat (List.length rows))).

Definition isEmpty {Row : Type} (rows : list Row) : bool :=
  Z.of_nat (List.length rows) =? 0.

(** [GET /api/livability/:lat/:lon]: the body of the [try] block, then
    the [catch] that answers 500 when a storage call raised. *)
Definition getLivability (env : Environment) (latParam lonParam : string)
  (locationQuery : option string) : DB Response :=
  let lat := parseFloat latParam in
  let lon := parseFloat lonParam in
  catch
    (if Js.isNaN lat || Js.isNaN lon then
       succeed (status_json 400 (ErrorBody "Invalid coordinates"))
     else
       andThen
         (getRecentEnvironmentalData hoursBefore (clock env) lat lon
            (Some 24))
         (fun envData =>
       if isEmpty (recentAirQuality envData)
          || isEmpty (recentWaterSecurity envData)
          || isEmpty (recentGreenSpace envData)
       then
         succeed
           (status_json 404
              (ErrorBody
                 "Insufficient environmental data for livability calculation"))
       else
         let avgAirQuality :=
           average AirQualityData.aqi (recentAirQuality envData) in
         let avgWaterStress :=
           average WaterSecurityData.waterStressLevel
                   (recentWaterSecurity envData) in
         let avgGreenSpace :=
           average AlertService.vegCoverage (recentGreenSpace envData) in
         let livabilityResult :=
           LiveabilityCalculator.calculateLivabilityScore
             {| LiveabilityCalculator.airQuality := avgAirQuality;
                LiveabilityCalculator.waterSecurity := avgWaterStress;
                LiveabilityCalculator.greenSpace := avgGreenSpace |} in
         andThen
           (insertLivabilityScore (fst (fresh env 0%nat))
              (snd (fresh env 0%nat))
              {| InsertLivabilityScore.latitude := lat;
                 InsertLivabilityScore.longitude := lon;
                 InsertLivabilityScore.airQualityScore :=
                   LiveabilityCalculator.airQualityScore livabilityResult;
                 InsertLivabilityScore.waterSecurityScore :=
                   LiveabilityCalculator.waterSecurityScore livabilityResult;
                 InsertLivabilityScore.greenSpaceScore :=
                   LiveabilityCalculator.greenSpaceScore livabilityResult;
                 InsertLivabilityScore.overallScore :=
                   LiveabilityCalculator.overallScore livabilityResult;
                 InsertLivabilityScore.location :=
                   str_or locationQuery
                     [Fixed lat 3; Lit ", "; Fixed lon 3] |})
           (fun storedScore =>
         succeed
           (json
              (LivabilityBody livabilityResult
                 (LiveabilityCalculator.getLivabilityCategory
                    (LiveabilityCalculator.overallScore livabilityResult))
                 (LiveabilityCalculator.generateRecommendations
                    livabilityResult)
                 (LiveabilityScore.id storedScore)
                 (LiveabilityScore.timestamp storedScore))))))
    (ret (status_json 500 (ErrorBody "Failed to calculate livability score"))).

(** The loop storing the new alerts, the k-th insertion of the
    request taking the k-th defaults; an insertion that raises ends the
    loop, the alerts stored before it staying stored. *)
Fixpoint storeAlerts (env : Environment) (k : nat)
  (newAlerts : list InsertEnvironmentalAlert.t)
  : Try (list EnvironmentalAlert.t) :=
  match newAlerts with
  | [] => succeed []
  | alert :: more =>
      andThen
        (insertEnvironmentalAlert (fst (fresh env k)) (snd (fresh env k))
           alert)
        (fun stored =>
      andThen (storeAlerts env (S k) more)
        (fun storedAlerts => succeed (stored :: storedAlerts)))
  end.

(** [POST /api/alerts/generate/:lat/:lon]. *)
Definition postGenerateAlerts (env : Environment)
  (latParam lonParam : string) (locationBody : option string)
  : DB Response :=
  let lat := parseFloat latParam in
  let lon := parseFloat lonParam in
  catch
    (if Js.isNaN lat || Js.isNaN lon then
       succeed (status_json 400 (ErrorBody "Invalid coordinates"))
     else
       andThen
         (getRecentEnvironmentalData hoursBefore (clock env) lat lon
            (Some 6))
         (fun envData =>
       match
         AlertService.generateAlerts airCompletion waterCompletion
           greenCompletion AlertService.thresholds
           {| AlertService.airQuality := Some (recentAirQuality envData);
              AlertService.waterSecurity :=
                Some (recentWaterSecurity envData);
              AlertService.greenSpace := Some (recentGreenSpace envData);
              AlertService.location :=
                Some (str_or locationBody
                        [Fixed lat 3; Lit ", "; Fixed lon 3]);
              AlertService.latitude := Some lat;
              AlertService.longitude := Some lon |}
       with
       | Some newAlerts =>
           andThen (storeAlerts env 0%nat newAlerts)
             (fun storedAlerts => succeed (json (AlertsBody storedAlerts)))
       | None => raise
       end))
    (ret (status_json 500 (ErrorBody "Failed to generate alerts"))).

(** [PATCH /api/alerts/:id/dismiss]. *)
Definition patchDismissAlert (id : string) : DB Response :=
  ret (json (DismissBody true "Alert dismissed")).

End Handlers.

(** ** The other routes *)

(** The bodies of the routes that return stored data. *)
Inductive DataBody : Type :=
| DataError (error : string)
| StoredData (airQuality : list AirQualityData.t)
    (waterSecurity : list WaterSecurityData.t)
    (greenSpace : list GreenSpaceData.t)
| ActiveAlerts (alerts : list EnvironmentalAlert.t)
| AirQualityRows (data : list AirQualityData.t)
| WaterSecurityRows (data : list WaterSecurityData.t)
| GreenSpaceRows (data : list GreenSpaceData.t)
| Dashboard (location : text)
    (currentAirQuality : option AirQualityData.t)
    (currentWaterSecurity : option WaterSecurityData.t)
    (currentGreenSpace : option GreenSpaceData.t)
    (livabilityScore : option LiveabilityScore.t)
    (alerts : list EnvironmentalAlert.t)
    (historicalAirQuality : list AirQualityData.t)
    (historicalWaterSecurity : list WaterSecurityData.t)
    (historicalGreenSpace : list GreenSpaceData.t).

Record DataResponse : Type := mkDataResponse {
  data_status : Z;
  data_body : DataBody
}.

Definition data_json (body : DataBody) : DataResponse :=
  {| data_status := 200; data_body := body |}.

Definition data_status_json (code : Z) (body : DataBody) : DataResponse :=
  {| data_status := code; data_body := body |}.

Section DataHandlers.

Variable parseFloat : string -> number.
Variable hoursBefore : Date -> Z -> Date.

(** What [nasaDataService.fetchAllEnvironmentalData(lat, lon)] returns to
    the request; each of its sources answers with an empty list when it
    fails. *)
Variable fetchAllEnvironmentalData : number -> number -> NasaData.t.

(** A loop [for (const item of items) { stored.push(await insert(item)) }],
    the first insertion being the k-th of the request; an insertion that
    raises ends the loop, the rows stored before it staying stored. *)
Fixpoint storeEach {Item Row : Type}
  (insert : string -> Date -> Item -> Try Row) (env : Environment) (k : nat)
  (items : list Item) : Try (list Row) :=
  match items with
  | [] => succeed []
  | item :: more =>
      andThen (insert (fst (fresh env k)) (snd (fresh env k)) item)
        (fun stored =>
      andThen (storeEach insert env (S k) more)
        (fun storedMore => succeed (stored :: storedMore)))
  end.

Definition airValues (airData : NasaData.AirQualityReading)
  : InsertAirQualityData.t :=
  {| InsertAirQualityData.latitude := NasaData.a_latitude airData;
     InsertAirQualityData.longitude := NasaData.a_longitude airData;
     InsertAirQualityData.aqi := NasaData.aqi airData;
     InsertAirQualityData.pm25 := NasaData.pm25 airData;
     InsertAirQualityData.pm10 := NasaData.pm10 airData;
     InsertAirQualityData.ozone := NasaData.ozone airData;
     InsertAirQualityData.no2 := NasaData.no2 airData;
     InsertAirQualityData.so2 := NasaData.so2 airData;
     InsertAirQualityData.source := NasaData.a_source airData;
     InsertAirQualityData.metadata :=
       JObj [("timestamp", JStr (NasaData.a_timestamp airData))] |}.

Definition waterValues (waterData : NasaData.WaterSecurityReading)
  : InsertWaterSecurityData.t :=
  {| InsertWaterSecurityData.latitude := NasaData.w_latitude waterData;
     InsertWaterSecurityData.longitude := NasaData.w_longitude waterData;
     InsertWaterSecurityData.waterStressLevel :=
       NasaData.waterStressLevel waterData;
     InsertWaterSecurityData.precipitationLevel :=
       NasaData.precipitationLevel waterData;
     InsertWaterSecurityData.groundwaterLevel :=
       NasaData.groundwaterLevel waterData;
     InsertWaterSecurityData.floodRisk := NasaData.floodRisk waterData;
     InsertWaterSecurityData.source := NasaData.w_source waterData;
     InsertWaterSecurityData.metadata :=
       JObj [("timestamp", JStr (NasaData.w_timestamp waterData))] |}.

Definition greenValues (greenData : NasaData.GreenSpaceReading)
  : InsertGreenSpaceData.t :=
  {| InsertGreenSpaceData.latitude := NasaData.g_latitude greenData;
     InsertGreenSpaceData.longitude := NasaData.g_longitude greenData;
     InsertGreenSpaceData.ndvi := NasaData.ndvi greenData;
     InsertGreenSpaceData.vegetationCoverage :=
       NasaData.vegetationCoverage greenData;
     InsertGreenSpaceData.greenSpaceType := NasaData.greenSpaceType greenData;
     InsertGreenSpaceData.source := NasaData.g_source greenData;
     InsertGreenSpaceData.metadata :=
       JObj [("timestamp", JStr (NasaData.g_timestamp greenData))] |}.

(** [GET /api/environmental-data/:lat/:lon]. *)
Definition getEnvironmentalData (env : Environment)
  (latParam lonParam : string) : DB DataResponse :=
  let lat := parseFloat latParam in
  let lon := parseFloat lonParam in
  catch
    (if Js.isNaN lat || Js.isNaN lon then
       succeed (data_status_json 400 (DataError "Invalid coordinates"))
     else
       let nasaData := fetchAllEnvironmentalData lat lon in
       let air := map airValues (NasaData.airQuality nasaData) in
       let water := map waterValues (NasaData.waterSecurity nasaData) in
       let green := map greenValues (NasaData.greenSpace nasaData) in
       andThen (storeEach insertAirQualityData env 0%nat air)
         (fun storedAir =>
       andThen (storeEach insertWaterSecurityData env (List.length air) water)
         (fun storedWater =>
       andThen
         (storeEach insertGreenSpaceData env
            (List.length air + List.length water)%nat green)
         (fun storedGreen =>
       succeed (data_json (StoredData storedAir storedWater storedGreen))))))
    (ret (data_status_json 500
            (DataError "Failed to fetch environmental data"))).

(** [GET /api/alerts]. *)
Definition getAlerts : DB DataResponse :=
  bind (query getActiveAlerts)
    (fun activeAlerts => ret (data_json (ActiveAlerts activeAlerts))).

(** [parseFloat(req.query.radius as string) || 0.1]; [parseFloat] of a
    missing parameter is NaN. *)
Definition radiusParam (radiusQuery : option string) : number :=
  Js.or (match radiusQuery with
         | Some r => parseFloat r
         | None => Js.NaN
         end)
        (Js.dec 1 1).

(** [GET /api/air-quality/:lat/:lon]. *)
Definition getAirQuality (latParam lonParam : string)
  (radiusQuery : option string) : DB DataResponse :=
  let lat := parseFloat latParam in
  let lon := parseFloat lonParam in
  let radius := radiusParam radiusQuery in
  catch
    (if Js.isNaN lat || Js.isNaN lon then
       succeed (data_status_json 400 (DataError "Invalid coordinates"))
     else
       andThen (tryQuery (getAirQualityDataByLocation lat lon (Some radius)))
         (fun data => succeed (data_json (AirQualityRows data))))
    (ret (data_status_json 500
            (DataError "Failed to fetch air quality data"))).

(** [GET /api/water-security/:lat/:lon]. *)
Definition getWaterSecurity (latParam lonParam : string)
  (radiusQuery : option string) : DB DataResponse :=
  let lat := parseFloat latParam in
  let lon := parseFloat lonParam in
  let radius := radiusParam radiusQuery in
  catch
    (if Js.isNaN lat || Js.isNaN lon then
       succeed (data_status_json 400 (DataError "Invalid coordinates"))
     else
       andThen
         (tryQuery (getWaterSecurityDataByLocation lat lon (Some radius)))
         (fun data => succeed (data_json (WaterSecurityRows data))))
    (ret (data_status_json 500
            (DataError "Failed to fetch water security data"))).

(** [GET /api/green-space/:lat/:lon]. *)
Definition getGreenSpace (latParam lonParam : string)
  (radiusQuery : option string) : DB DataResponse :=
  let lat := parseFloat latParam in
  let lon := parseFloat lonParam in
  let radius := radiusParam radiusQuery in
  catch
    (if Js.isNaN lat || Js.isNaN lon then
       succeed (data_status_json 400 (DataError "Invalid coordinates"))
     else
       andThen (tryQuery (getGreenSpaceDataByLocation lat lon (Some radius)))
         (fun data => succeed (data_json (GreenSpaceRows data))))
    (ret (data_status_json 500
            (DataError "Failed to fetch green space data"))).

(** [rows.length > 0 ? rows[0] : null]. *)
Definition firstOrNull {Row : Type} (rows : list Row) : option Row :=
  hd_error rows.

(** [GET /api/dashboard/:lat/:lon]; the three reads of [Promise.all] do
    not write, and the route answers 500 when one of them raises. *)
Definition getDashboard (env : Environment) (latParam lonParam : string)
  : DB DataResponse :=
  let lat := parseFloat latParam in
  let lon := parseFloat lonParam in
  catch
    (if Js.isNaN lat || Js.isNaN lon then
       succeed (data_status_json 400 (DataError "Invalid coordinates"))
     else
       andThen
         (getRecentEnvironmentalData hoursBefore (clock env) lat lon
            (Some 24))
         (fun envData =>
       andThen (tryQuery (getLivabilityScoreByLocation lat lon))
         (fun livabilityScore =>
       andThen (tryQuery (fun db => Some (getActiveAlerts db)))
         (fun alerts =>
       succeed
         (data_json
            (Dashboard [Fixed lat 3; Lit ", "; Fixed lon 3]
               (firstOrNull (recentAirQuality envData))
               (firstOrNull (recentWaterSecurity envData))
               (firstOrNull (recentGreenSpace envData))
               livabilityScore
               (JsArray.slice0 10 alerts)
               (JsArray.slice0 24 (recentAirQuality envData))
               (JsArray.slice0 24 (recentWaterSecurity envData))
               (JsArray.slice0 24 (recentGreenSpace envData))))))))
    (ret (data_status_json 500 (DataError "Failed to fetch dashboard data"))).

End DataHandlers.

End Routes.

(* ================================================================== *)
(** * The dashboard page (client) *)
(* ================================================================== *)

Module DashboardPage.





(** [greenSpace.vegetationCoverage || (greenSpace.ndvi * 100)]. *)
Definition coverage (vegetationCoverage : option number) (ndvi : number)
  : number :=
  Js.or_opt vegetationCoverage (Js.mul ndvi (Js.int 100)).

End DashboardPage.

(** * The livability scorecard (client) *)

Module LiveabilityScorecard.



End LiveabilityScorecard.

(** * The environmental map (client) *)

Module EnvironmentalMap.

Record MapLayer : Type := mkLayer {
  id : string;
  name : string;
  active : bool;
  color : string
}.

(** The [updatedLayers] that [handleLayerToggle(layerId)] computes from
    [selectedLayers] and stores as the new selection. *)
Definition handleLayerToggle (layerId : string)
  (selectedLayers : list MapLayer) : list MapLayer :=
  map (fun layer =>
         if String.eqb (id layer) layerId
         then {| id := id layer; name := name layer;
                 active := negb (active layer); color := color layer |}
         else layer)
      selectedLayers.

End EnvironmentalMap.

(* ================================================================== *)
(** * Vocabulary of the specification *)
(* ================================================================== *)

(** The point [(rlat, rlon)] lies in the bounding box
    [lat - radius, lat + radius] x [lon - radius, lon + radius]. *)
Definition inBox (lat lon radius rlat rlon : number) : bool :=
  Js.le (Js.sub lat radius) rlat && Js.le rlat (Js.add lat radius)
  && (Js.le (Js.sub lon radius) rlon && Js.le rlon (Js.add lon radius)).

(** What the specification asks of an alert record: active, actionable,
    and a severity between 0 and 100. *)
Definition alert_invariant (a : InsertEnvironmentalAlert.t) : Prop :=
  InsertEnvironmentalAlert.isActive a = true
  /\ InsertEnvironmentalAlert.actionable a = true
  /\ Js.le (Js.int 0) (InsertEnvironmentalAlert.severity a) = true
  /\ Js.le (InsertEnvironmentalAlert.severity a) (Js.int 100) = true.

(** The coverage field of a green-space reading, when present, holds a
    binary64 value. *)
Definition binary64_coverage (d : GreenSpaceData.t) : bool :=
  match GreenSpaceData.vegetationCoverage d with
  | Some coverage => Js.wf coverage
  | None => true
  end.

(** ** Vocabulary of the additional properties *)

(** Structural equality of two numbers. *)
Definition same_number (x y : number) : bool :=
  match x, y with
  | S754_zero s, S754_zero s' => Bool.eqb s s'
  | S754_infinity s, S754_infinity s' => Bool.eqb s s'
  | S754_nan, S754_nan => true
  | S754_finite s m e, S754_finite s' m' e' =>
      Bool.eqb s s' && Pos.eqb m m' && Z.eqb e e'
  | _, _ => false
  end.

(** The integers [lo], [lo + 1], ... ([count] of them). *)
Definition integers (lo : Z) (count : nat) : list Z :=
  map (fun k => lo + Z.of_nat k) (seq 0 count).

(** The values the three normalizers can return. *)
Definition airScores : list number :=
  map Js.int [100; 85; 60; 35; 15; 5].

Definition waterScores : list number :=
  map Js.int [100; 80; 60; 40; 20; 10].

Definition greenScores : list number :=
  map Js.int [100; 80; 60; 40; 20; 10].

(** The overall score as a function of the three sub-scores. *)
Definition weighted (air water green : number) : number :=
  Js.Math_round
    (Js.add
       (Js.add
          (Js.mul air (LiveabilityCalculator.w_airQuality
                         LiveabilityCalculator.weights))
          (Js.mul water (LiveabilityCalculator.w_waterSecurity
                           LiveabilityCalculator.weights)))
       (Js.mul green (LiveabilityCalculator.w_greenSpace
                        LiveabilityCalculator.weights))).

(** The position of a category band, from "Very Poor" (0) to
    "Excellent" (4). *)
Definition bandRank (category : string) : nat :=
  if String.eqb category "Excellent" then 4
  else if String.eqb category "Good" then 3
  else if String.eqb category "Moderate" then 2
  else if String.eqb category "Poor" then 1
  else 0.

(** A test that holds for every triple of possible sub-scores. *)
Definition for_all_scores (test : number -> number -> number -> bool) : bool :=
  forallb (fun a =>
    forallb (fun w =>
      forallb (fun g => test a w g) greenScores) waterScores) airScores.

(** The overall score is one of the integers 8 to 100. *)
Definition integer_8_to_100 (x : number) : bool :=
  existsb (fun z => same_number x (Js.int z)) (integers 8 93).

(** An alert without its recommendations payload. *)
Definition withoutRecommendations (a : InsertEnvironmentalAlert.t)
  : InsertEnvironmentalAlert.t :=
  {| InsertEnvironmentalAlert.type := InsertEnvironmentalAlert.type a;
     InsertEnvironmentalAlert.category := InsertEnvironmentalAlert.category a;
     InsertEnvironmentalAlert.title := InsertEnvironmentalAlert.title a;
     InsertEnvironmentalAlert.message := InsertEnvironmentalAlert.message a;
     InsertEnvironmentalAlert.latitude := InsertEnvironmentalAlert.latitude a;
     InsertEnvironmentalAlert.longitude :=
       InsertEnvironmentalAlert.longitude a;
     InsertEnvironmentalAlert.location := InsertEnvironmentalAlert.location a;
     InsertEnvironmentalAlert.severity := InsertEnvironmentalAlert.severity a;
     InsertEnvironmentalAlert.isActive := InsertEnvironmentalAlert.isActive a;
     InsertEnvironmentalAlert.actionable :=
       InsertEnvironmentalAlert.actionable a;
     InsertEnvironmentalAlert.recommendations := JNull |}.

(** The type and title of the alerts of a list. *)
Definition headlines (alerts : list InsertEnvironmentalAlert.t)
  : list (string * string) :=
  map (fun a => (InsertEnvironmentalAlert.type a,
                 InsertEnvironmentalAlert.title a))
      alerts.

(** The coordinates of a stored score. *)
Definition scoreLatitude (s : LiveabilityScore.t) : number :=
  InsertLivabilityScore.latitude (LiveabilityScore.values s).

Definition scoreLongitude (s : LiveabilityScore.t) : number :=
  InsertLivabilityScore.longitude (LiveabilityScore.values s).

(** The severity and the active flag of a stored alert. *)
Definition alertSeverity (a : EnvironmentalAlert.t) : number :=
  InsertEnvironmentalAlert.severity (EnvironmentalAlert.values a).

Definition alertIsActive (a : EnvironmentalAlert.t) : bool :=
  InsertEnvironmentalAlert.isActive (EnvironmentalAlert.values a).

(** A database with rows added at the end of its tables. *)
Definition withAdded (db : Storage.Database)
  (air : list AirQualityData.t) (water : list WaterSecurityData.t)
  (green : list GreenSpaceData.t) (scores : list LiveabilityScore.t)
  (alerts : list EnvironmentalAlert.t) : Storage.Database :=
  {| Storage.airQualityData := Storage.airQualityData db ++ air;
     Storage.waterSecurityData := Storage.waterSecurityData db ++ water;
     Storage.greenSpaceData := Storage.greenSpaceData db ++ green;
     Storage.livabilityScores := Storage.livabilityScores db ++ scores;
     Storage.environmentalAlerts := Storage.environmentalAlerts db ++ alerts |}.

(** The rows a storing loop leaves in its table, the first insertion
    taking the k-th defaults of the request, and whether every item was
    stored: the loop ends at the first item the database refuses. *)
Fixpoint storedUntilFailure {Item Row : Type}
  (row : string -> Date -> Item -> option Row) (env : Routes.Environment)
  (k : nat) (items : list Item) : list Row * bool :=
  match items with
  | [] => ([], true)
  | item :: more =>
      match row (fst (Routes.fresh env k)) (snd (Routes.fresh env k)) item
      with
      | None => ([], false)
      | Some stored =>
          let (rows, complete) := storedUntilFailure row env (S k) more in
          (stored :: rows, complete)
      end
  end.

(** The box of a location query as the database takes it: the bounds
    [lat - radius], [lat + radius], [lon - radius] and [lon + radius]
    cast to [real]; there is none when a bound is out of range. *)
Record Box : Type := mkBox {
  south : number;
  north : number;
  west : number;
  east : number
}.

Definition realBox (lat lon radius : number) : option Box :=
  south <- Pg.real (Js.sub lat radius);;
  north <- Pg.real (Js.add lat radius);;
  west <- Pg.real (Js.sub lon radius);;
  east <- Pg.real (Js.add lon radius);;
  Some (mkBox south north west east).

(** The point [(rlat, rlon)] of a row lies in the box, in the order of
    [real]. *)
Definition inRealBox (box : Box) (rlat rlon : number) : bool :=
  Storage.column_le (south box) rlat && Storage.column_le rlat (north box)
  && (Storage.column_le (west box) rlon && Storage.column_le rlon (east box)).

(** The readings of a table inside a box and not before [cutoff]. *)
Definition recentIn {Row : Type} (latitude longitude : Row -> number)
  (timestamp : Row -> Date) (box : Box) (cutoff : Date)
  (table : list Row) : list Row :=
  filter (fun row =>
            inRealBox box (latitude row) (longitude row)
            && (cutoff <=? timestamp row))
         table.

(* ================================================================== *)
(** * Sample data *)
(* ================================================================== *)

Section Samples.
Import AlertService Storage Routes.

(** The remote text generation being unavailable, the fixed
    recommendations are used. *)
Definition offline {Row : Type} : Row -> string -> option Json :=
  fun _ _ => None.

Definition airReading (aqi : number) (stamp : Date) : AirQualityData.t :=
  AirQualityData.mk "a" (Js.int 10) (Js.int 10) aqi None None None None
    None "local" stamp JNull.

Definition waterReading (stress : number) (flood : option number)
  (stamp : Date) : WaterSecurityData.t :=
  WaterSecurityData.mk "w" (Js.int 10) (Js.int 10) stress None None flood
    "local" stamp JNull.

Definition greenReading (ndvi : number) (coverage : option number)
  (stamp : Date) : GreenSpaceData.t :=
  GreenSpaceData.mk "g" (Js.int 10) (Js.int 10) ndvi coverage None "local"
    stamp JNull.

Definition noContext : EnvironmentalData :=
  mkData None None None None None None.

Definition sampleData : EnvironmentalData :=
  {| airQuality := Some [airReading (Js.int 160) 2; airReading (Js.int 90) 1];
     waterSecurity := Some [waterReading (Js.int 85) (Some (Js.int 75)) 2];
     greenSpace := Some [greenReading (Js.dec 1 1) None 2];
     location := None;
     latitude := Some (Js.int 10);
     longitude := Some (Js.int 10) |}.

Definition sampleDatabase : Database :=
  {| airQualityData := [airReading (Js.int 90) 1; airReading (Js.int 160) 2];
     waterSecurityData := [waterReading (Js.int 85) (Some (Js.int 75)) 2];
     greenSpaceData := [greenReading (Js.dec 1 1) None 2];
     livabilityScores := [];
     environmentalAlerts := [] |}.

Definition sampleEnvironment : Environment :=
  {| clock := 1000; fresh := fun _ => ("s", 1000) |}.

(** A server whose local time has a fixed offset. *)
Definition fixedOffset (d : Date) (hours : Z) : Date := d - hours * 3600000.

(** A data service answering one reading per category at the point. *)
Definition sampleFetch (lat lon : number) : NasaData.t :=
  {| NasaData.airQuality :=
       [NasaData.mkAir lat lon (Js.int 120) None None None None None
          "NASA_EARTHDATA" "2024-01-01T00:00:00.000Z"];
     NasaData.waterSecurity :=
       [NasaData.mkWater lat lon (Js.int 65) None None (Some (Js.int 20))
          "NASA_EARTHDATA" "2024-01-01T00:00:00.000Z"];
     NasaData.greenSpace :=
       [NasaData.mkGreen lat lon (Js.dec 4 1) (Some (Js.int 40)) None
          "NASA_EARTHDATA" "2024-01-01T00:00:00.000Z"] |}.

Definition sampleScore (overall : number) : InsertLivabilityScore.t :=
  InsertLivabilityScore.mk (Js.int 10) (Js.int 10) (Js.int 35) (Js.int 10)
    (Js.int 20) overall [Lit "Harbour"].

(** The sample database with one score stored at time 5. *)
Definition scoredDatabase : Database :=
  {| airQualityData := airQualityData sampleDatabase;
     waterSecurityData := waterSecurityData sampleDatabase;
     greenSpaceData := greenSpaceData sampleDatabase;
     livabilityScores := [LiveabilityScore.mk "old" 5 (sampleScore (Js.int 23))];
     environmentalAlerts := [] |}.

(** A database without rows. *)
Definition emptyDatabase : Database :=
  {| airQualityData := []; waterSecurityData := []; greenSpaceData := [];
     livabilityScores := []; environmentalAlerts := [] |}.

(** One air-quality reading stored at latitude 9.9 and longitude 10. *)
Definition boundaryDatabase : Database :=
  {| airQualityData :=
       [AirQualityData.mk "b" (Js.dec 99 1) (Js.int 10) (Js.int 50) None
          None None None None "local" 1 JNull];
     waterSecurityData := []; greenSpaceData := [];
     livabilityScores := []; environmentalAlerts := [] |}.

End Samples.

(* ================================================================== *)
(** * Properties of the number model *)
(* ================================================================== *)

(** Case analysis on every conditional of the goal. *)
Ltac split_ifs :=
  repeat match goal with
         | |- context [if ?c then _ else _] => destruct c
         end.

Section NumberFacts.

(** ** Literals and rounding to an integer *)

(** The literal [0.4] is the binary64 value [0x1.999999999999ap-2]. *)
Example literal_0_4 :
  Js.dec 4 1 = S754_finite false 7205759403792794 (-54)
  /\ Js.wf (Js.dec 4 1) = true.
Proof. split; reflexivity. Qed.

Example literal_100 :
  Js.int 100 = S754_finite false 7036874417766400 (-46)
  /\ Js.exact (Js.int 100) = Some (7036874417766400 # 70368744177664).
Proof. split; reflexivity. Qed.

(** [Math.round] sends a tie towards +Infinity and keeps the sign of a
    value that rounds to zero. *)
Example Math_round_ties :
  Js.Math_round (Js.dec 25 1) = Js.int 3
  /\ Js.Math_round (Js.dec (-25) 1) = Js.int (-2)
  /\ Js.Math_round (Js.dec (-26) 1) = Js.int (-3)
  /\ Js.Math_round (Js.dec 225 1) = Js.int 23
  /\ Js.Math_round (Js.dec 4 1) = S754_zero false
  /\ Js.Math_round (Js.dec (-5) 1) = S754_zero true
  /\ Js.Math_round Js.NaN = Js.NaN.
Proof. repeat split; reflexivity. Qed.

(** ** Order *)

(** The comparison of two positive finite values is lexicographic on
    exponent and mantissa. *)
Lemma le_finite_pos (m1 : positive) (e1 : Z) (m2 : positive) (e2 : Z) :
  Js.le (S754_finite false m1 e1) (S754_finite false m2 e2) = true
  <-> e1 < e2 \/ (e1 = e2 /\ (m1 <= m2)%positive).
Proof.
  unfold Js.le, SFleb, SFcompare.
  change (Pos.compare_cont Eq m1 m2) with (Pos.compare m1 m2).
  destruct (Z.compare_spec e1 e2) as [He | He | He].
  - destruct (Pos.compare_spec m1 m2) as [Hm | Hm | Hm];
      split; intros H; try discriminate; try lia; auto.
  - split; auto.
  - split; intros H; try discriminate; lia.
Qed.

Lemma le_finite_neg (m1 : positive) (e1 : Z) (m2 : positive) (e2 : Z) :
  Js.le (S754_finite true m1 e1) (S754_finite true m2 e2) = true
  <-> e2 < e1 \/ (e1 = e2 /\ (m2 <= m1)%positive).
Proof.
  unfold Js.le, SFleb, SFcompare.
  change (Pos.compare_cont Eq m1 m2) with (Pos.compare m1 m2).
  destruct (Z.compare_spec e1 e2) as [He | He | He].
  - destruct (Pos.compare_spec m1 m2) as [Hm | Hm | Hm]; simpl;
      split; intros H; try discriminate; try lia; auto.
  - split; intros H; try discriminate; lia.
  - split; auto.
Qed.

(** [<=] is transitive on all numbers (a NaN operand makes a premise
    false). *)
Lemma le_trans (a b c : number) :
  Js.le a b = true -> Js.le b c = true -> Js.le a c = true.
Proof.
  destruct a as [sa | sa | | sa ma ea], b as [sb | sb | | sb mb eb],
    c as [sc | sc | | sc mc ec];
    try (destruct sa); try (destruct sb); try (destruct sc);
    try reflexivity; try discriminate;
    try (intros; assumption).
  - rewrite !le_finite_neg. lia.
  - rewrite !le_finite_pos. lia.
Qed.

Lemma lt_le (a b : number) : Js.lt a b = true -> Js.le a b = true.
Proof.
  unfold Js.lt, Js.le, SFltb, SFleb.
  destruct (SFcompare a b) as [[ | | ] | ]; intros H;
    try discriminate; reflexivity.
Qed.

(** ** Rounding *)

Lemma digits2_pos_bound (m : positive) :
  Zpos m < 2 ^ Zpos (digits2_pos m).
Proof.
  induction m as [m IH | m IH |]; simpl digits2_pos.
  - rewrite Pos2Z.inj_succ, Z.pow_succ_r by lia. lia.
  - rewrite Pos2Z.inj_succ, Z.pow_succ_r by lia. lia.
  - reflexivity.
Qed.

Lemma Zdigits2_bound (m : Z) : 0 <= m -> m < 2 ^ Zdigits2 m.
Proof.
  destruct m as [| p | p]; simpl; intros H; try lia.
  apply digits2_pos_bound.
Qed.

Lemma Zdigits2_nonneg (m : Z) : 0 <= Zdigits2 m.
Proof. destruct m; simpl; lia. Qed.

(** One shift halves a non-negative mantissa. *)
Lemma shr_1_half (r : shr_record) :
  0 <= shr_m r -> shr_m (shr_1 r) = shr_m r / 2.
Proof.
  destruct r as [m r s]; simpl. intros H.
  destruct m as [| [p | p |] | p]; simpl; try lia; try reflexivity.
  - rewrite Pos2Z.inj_xI.
    apply Z.div_unique with (r := 1); lia.
  - rewrite Pos2Z.inj_xO.
    apply Z.div_unique with (r := 0); lia.
Qed.

Lemma iter_shr_1 (p : positive) :
  forall r : shr_record,
    0 <= shr_m r -> shr_m (iter_pos shr_1 p r) = shr_m r / 2 ^ Zpos p.
Proof.
  assert (Hhalf : forall r, 0 <= shr_m r -> 0 <= shr_m (shr_1 r)).
  { intros r H. rewrite shr_1_half by exact H.
    apply Z.div_pos; lia. }
  induction p as [p IH | p IH |]; intros r H; simpl iter_pos.
  - assert (H1 := Hhalf r H).
    assert (H2 : 0 <= shr_m (iter_pos shr_1 p (shr_1 r))).
    { rewrite IH by exact H1. apply Z.div_pos; lia. }
    rewrite IH by exact H2. rewrite IH by exact H1.
    rewrite shr_1_half by exact H.
    rewrite !Z.div_div by lia.
    replace (2 ^ Zpos p~1) with (2 * (2 ^ Zpos p * 2 ^ Zpos p));
      [reflexivity |].
    rewrite <- Z.pow_add_r, <- Z.pow_succ_r by lia. f_equal. lia.
  - assert (H2 : 0 <= shr_m (iter_pos shr_1 p r)).
    { rewrite IH by exact H. apply Z.div_pos; lia. }
    rewrite IH by exact H2. rewrite IH by exact H.
    rewrite Z.div_div by lia.
    replace (2 ^ Zpos p~0) with (2 ^ Zpos p * 2 ^ Zpos p); [reflexivity |].
    rewrite <- Z.pow_add_r by lia. f_equal. lia.
  - rewrite shr_1_half by exact H. reflexivity.
Qed.

(** After the shift to the target exponent the mantissa is non-negative
    and fits in 53 bits. *)
Lemma shr_fexp_bound (m e : Z) (l : location) :
  0 <= m ->
  0 <= shr_m (fst (shr_fexp Js.prec Js.emax m e l)) < 2 ^ Js.prec.
Proof.
  intros Hm. unfold shr_fexp, shr.
  assert (Hrec : shr_m (shr_record_of_loc m l) = m)
    by (destruct l as [| []]; reflexivity).
  assert (Hd := Zdigits2_bound m Hm).
  assert (Hd0 := Zdigits2_nonneg m).
  assert (Hn : Zdigits2 m - Js.prec
               <= fexp Js.prec Js.emax (Zdigits2 m + e) - e)
    by (unfold fexp; lia).
  destruct (fexp Js.prec Js.emax (Zdigits2 m + e) - e) as [| n | n] eqn:En;
    simpl fst.
  - rewrite Hrec. split; [exact Hm |].
    apply Z.lt_le_trans with (1 := Hd).
    apply Z.pow_le_mono_r; lia.
  - rewrite iter_shr_1 by (rewrite Hrec; exact Hm). rewrite Hrec.
    split; [apply Z.div_pos; lia |].
    apply Z.div_lt_upper_bound; [lia |].
    rewrite <- Z.pow_add_r by (unfold Js.prec; lia).
    apply Z.lt_le_trans with (1 := Hd).
    apply Z.pow_le_mono_r; lia.
  - rewrite Hrec. split; [exact Hm |].
    apply Z.lt_le_trans with (1 := Hd).
    apply Z.pow_le_mono_r; lia.
Qed.

Lemma round_nearest_even_nonneg (m : Z) (l : location) :
  0 <= m -> 0 <= round_nearest_even m l.
Proof.
  intros H. destruct l as [| []]; simpl; try lia.
  destruct (Z.even m); lia.
Qed.

Lemma binary_round_aux_rounded (s : bool) (m e : Z) (l : location) :
  0 <= m -> Js.rounded s (binary_round_aux Js.prec Js.emax s m e l).
Proof.
  intros Hm. unfold binary_round_aux.
  assert (H1 := shr_fexp_bound m e l Hm).
  destruct (shr_fexp Js.prec Js.emax m e l) as [r1 e1]. simpl fst in H1.
  assert (H2 := shr_fexp_bound
                  (round_nearest_even (shr_m r1) (loc_of_shr_record r1))
                  e1 loc_Exact
                  (round_nearest_even_nonneg _ _ (proj1 H1))).
  destruct (shr_fexp Js.prec Js.emax _ e1 loc_Exact) as [r2 e2].
  simpl fst in H2.
  destruct (shr_m r2) as [| p | p].
  - constructor.
  - destruct (e2 <=? Js.emax - Js.prec); constructor. apply H2.
  - lia.
Qed.

Lemma binary_round_rounded (s : bool) (m : positive) (e : Z) :
  Js.rounded s (binary_round Js.prec Js.emax s m e).
Proof.
  unfold binary_round.
  destruct (shl_align m e _) as [mz ez].
  apply binary_round_aux_rounded. lia.
Qed.

Lemma binary_normalize_rounded (m e : Z) :
  0 <= m -> Js.rounded false (binary_normalize Js.prec Js.emax m e false).
Proof.
  intros H. destruct m as [| p | p]; simpl.
  - constructor.
  - apply binary_round_rounded.
  - lia.
Qed.

Lemma rounded_nonneg (x : number) :
  Js.rounded false x -> Js.le (Js.int 0) x = true.
Proof. intros H. destruct H; reflexivity. Qed.

Lemma rounded_small (s : bool) (x : number) : Js.rounded s x -> Js.small x.
Proof. intros H. destruct H; simpl; auto. Qed.

(** ** Signs of products, quotients and differences *)

(** A finite number above zero. *)
Lemma positive_finite (y : number) :
  Js.isFinite y = true -> Js.lt (Js.int 0) y = true ->
  exists m e, y = S754_finite false m e.
Proof.
  destruct y as [s | s | | [] m e]; try discriminate; intros _ _.
  exists m, e. reflexivity.
Qed.

Lemma mul_nonneg (x y : number) :
  Js.le (Js.int 0) x = true ->
  Js.isFinite y = true -> Js.lt (Js.int 0) y = true ->
  Js.le (Js.int 0) (Js.mul x y) = true.
Proof.
  intros Hx Hf Hy.
  destruct (positive_finite y Hf Hy) as (my & ey & ->).
  destruct x as [sx | [] | | [] mx ex]; try discriminate; try reflexivity.
  apply rounded_nonneg. unfold Js.mul, SFmul.
  apply binary_round_aux_rounded. lia.
Qed.

Lemma mul_small (x y : number) : Js.small (Js.mul x y).
Proof.
  destruct x as [sx | sx | | sx mx ex], y as [sy | sy | | sy my ey];
    simpl; auto.
  apply rounded_small with (s := xorb sx sy).
  apply binary_round_aux_rounded. lia.
Qed.

Lemma SFdiv_core_binary_nonneg (m1 : positive) (e1 : Z) (m2 : positive)
  (e2 : Z) :
  0 <= fst (fst (SFdiv_core_binary Js.prec Js.emax (Zpos m1) e1 (Zpos m2) e2)).
Proof.
  unfold SFdiv_core_binary.
  match goal with
  | |- context [Z.div_eucl ?a ?b] =>
      assert (Ha : 0 <= a);
      [| assert (Hq := Z.div_pos a b Ha eq_refl);
         unfold Z.div in Hq; destruct (Z.div_eucl a b) as [q r]; exact Hq]
  end.
  destruct (e1 - e2 - _) as [| s | s]; try lia.
  apply Z.shiftl_nonneg. lia.
Qed.

Lemma div_nonneg (x y : number) :
  Js.le (Js.int 0) x = true ->
  Js.isFinite y = true -> Js.lt (Js.int 0) y = true ->
  Js.le (Js.int 0) (Js.div x y) = true.
Proof.
  intros Hx Hf Hy.
  destruct (positive_finite y Hf Hy) as (my & ey & ->).
  destruct x as [sx | [] | | [] mx ex]; try discriminate; try reflexivity.
  apply rounded_nonneg. unfold Js.div, SFdiv.
  assert (Hq := SFdiv_core_binary_nonneg mx ex my ey).
  destruct (SFdiv_core_binary Js.prec Js.emax (Zpos mx) ex (Zpos my) ey)
    as [[mz ez] lz].
  apply binary_round_aux_rounded. exact Hq.
Qed.

Lemma iter_xO (m d : positive) :
  Zpos (Pos.iter xO m d) = Zpos m * 2 ^ Zpos d.
Proof.
  induction d as [| d IH] using Pos.peano_ind.
  - simpl. lia.
  - rewrite Pos.iter_succ, Pos2Z.inj_xO, IH, Pos2Z.inj_succ,
      Z.pow_succ_r by lia.
    lia.
Qed.

(** Aligning a mantissa to a lower exponent scales it by the power of
    two between the exponents. *)
Lemma shl_align_value (m : positive) (e e' : Z) :
  e' <= e -> Zpos (fst (shl_align m e e')) = Zpos m * 2 ^ (e - e').
Proof.
  intros H. unfold shl_align.
  destruct (e' - e) as [| d | d] eqn:Ed; simpl fst; try lia.
  - replace (e - e') with 0 by lia. lia.
  - rewrite iter_xO. f_equal. f_equal. lia.
Qed.

(** A threshold with a full mantissa minus a binary64 value it bounds is
    not negative. *)
Lemma sub_nonneg (mt : positive) (et : Z) (v : number) :
  2 ^ (Js.prec - 1) <= Zpos mt ->
  Js.small v ->
  Js.le v (S754_finite false mt et) = true ->
  Js.le (Js.int 0) (Js.sub (S754_finite false mt et) v) = true.
Proof.
  intros Hmt Hv Hle.
  destruct v as [sv | [] | | sv mv ev]; try discriminate; try reflexivity.
  apply rounded_nonneg. unfold Js.sub, SFsub. cbn [Js.small] in Hv.
  apply binary_normalize_rounded.
  change (IntDef.Z.min et ev) with (Z.min et ev).
  rewrite !shl_align_value by lia.
  destruct sv; unfold cond_Zopp.
  - assert (0 < Zpos mt * 2 ^ (et - Z.min et ev)) by
      (apply Z.mul_pos_pos; [lia | apply Z.pow_pos_nonneg; lia]).
    assert (0 < Zpos mv * 2 ^ (ev - Z.min et ev)) by
      (apply Z.mul_pos_pos; [lia | apply Z.pow_pos_nonneg; lia]).
    lia.
  - apply le_finite_pos in Hle. destruct Hle as [Hlt | [-> Hm]].
    + rewrite Z.min_r by lia.
      replace (ev - ev) with 0 by lia.
      assert (Hp : 2 ^ 1 <= 2 ^ (et - ev))
        by (apply Z.pow_le_mono_r; lia).
      change (2 ^ (Js.prec - 1)) with 4503599627370496 in Hmt.
      change (2 ^ Js.prec) with 9007199254740992 in Hv.
      change (2 ^ 1) with 2 in Hp. change (2 ^ 0) with 1. nia.
    + rewrite Z.min_id. replace (et - et) with 0 by lia.
      change (2 ^ 0) with 1. lia.
Qed.

(** A well-formed value has a 53-bit mantissa. *)
Lemma wf_small (x : number) : Js.wf x = true -> Js.small x.
Proof.
  destruct x as [s | s | | s m e]; cbn [Js.small]; auto.
  unfold Js.wf, valid_binary, bounded, canonical_mantissa.
  intros H. apply andb_true_iff in H. destruct H as [H _].
  apply Z.eqb_eq in H. unfold fexp in H.
  change IntDef.Z.max with Z.max in H.
  apply Z.lt_le_trans with (1 := digits2_pos_bound m).
  apply Z.pow_le_mono_r; lia.
Qed.

(** ** Capping at 100 *)

Lemma min_100_bounds (y : number) :
  Js.le (Js.int 0) y = true ->
  Js.le (Js.int 0) (Js.Math_min (Js.int 100) y) = true
  /\ Js.le (Js.Math_min (Js.int 100) y) (Js.int 100) = true.
Proof.
  intros Hy.
  assert (Hmin : Js.Math_min (Js.int 100) y
                 = if Js.lt y (Js.int 100) then y else Js.int 100).
  { destruct y as [s | s | | s m e]; try discriminate; reflexivity. }
  rewrite Hmin.
  destruct (Js.lt y (Js.int 100)) eqn:Hlt.
  - split; [exact Hy | apply lt_le; exact Hlt].
  - split; reflexivity.
Qed.

(** ** Further order facts *)

(** [<=] is total on numbers that are not NaN. *)
Lemma le_total (a b : number) :
  Js.isNaN a = false -> Js.isNaN b = false ->
  Js.le a b = false -> Js.lt b a = true.
Proof.
  destruct a as [sa | sa | | sa ma ea], b as [sb | sb | | sb mb eb];
    try (destruct sa); try (destruct sb);
    try reflexivity; try discriminate; intros _ _;
    unfold Js.le, Js.lt, SFleb, SFltb, SFcompare;
    change (Pos.compare_cont Eq ma mb) with (Pos.compare ma mb);
    change (Pos.compare_cont Eq mb ma) with (Pos.compare mb ma);
    rewrite (Z.compare_antisym ea eb), (Pos.compare_antisym ma mb);
    destruct (Z.compare ea eb); simpl;
    destruct (Pos.compare ma mb); simpl; congruence.
Qed.

(** [a < b] is [a <= b] without [b <= a]. *)
Lemma lt_not_ge (a b : number) :
  Js.lt a b = true -> Js.le b a = false.
Proof.
  destruct a as [sa | sa | | sa ma ea], b as [sb | sb | | sb mb eb];
    try (destruct sa); try (destruct sb);
    try reflexivity; try discriminate;
    unfold Js.le, Js.lt, SFleb, SFltb, SFcompare;
    change (Pos.compare_cont Eq ma mb) with (Pos.compare ma mb);
    change (Pos.compare_cont Eq mb ma) with (Pos.compare mb ma);
    rewrite (Z.compare_antisym ea eb), (Pos.compare_antisym ma mb);
    destruct (Z.compare ea eb); simpl;
    destruct (Pos.compare ma mb); simpl; congruence.
Qed.

Lemma lt_le_trans (a b c : number) :
  Js.lt a b = true -> Js.le b c = true -> Js.lt a c = true.
Proof.
  intros Hab Hbc.
  assert (Hac : Js.le a c = true)
    by (apply le_trans with b; [apply lt_le |]; assumption).
  destruct (Js.le c a) eqn:Hca.
  - assert (Hba := le_trans _ _ _ Hbc Hca).
    apply lt_not_ge in Hab. congruence.
  - apply le_total; try assumption.
    + destruct c; try discriminate; try reflexivity.
      destruct a; discriminate.
    + destruct a; try discriminate; reflexivity.
Qed.

Lemma le_refl (a : number) : Js.isNaN a = false -> Js.le a a = true.
Proof.
  destruct a as [s | [] | | [] m e]; try discriminate; intros _;
    try reflexivity.
  - apply le_finite_neg. right. split; [reflexivity | apply Pos.le_refl].
  - apply le_finite_pos. right. split; [reflexivity | apply Pos.le_refl].
Qed.

Lemma le_not_NaN (a b : number) :
  Js.le a b = true -> Js.isNaN a = false /\ Js.isNaN b = false.
Proof.
  destruct a, b; try discriminate; split; reflexivity.
Qed.

Lemma same_number_eq (x y : number) : same_number x y = true -> x = y.
Proof.
  destruct x as [s | s | | s m e], y as [s' | s' | | s' m' e'];
    simpl; try discriminate; intros H; try reflexivity.
  - apply eqb_prop in H. congruence.
  - apply eqb_prop in H. congruence.
  - apply andb_true_iff in H. destruct H as [H He].
    apply andb_true_iff in H. destruct H as [Hs Hm].
    apply eqb_prop in Hs. apply Pos.eqb_eq in Hm. apply Z.eqb_eq in He.
    congruence.
Qed.

Lemma integers_range (lo : Z) (count : nat) (z : Z) :
  In z (integers lo count) -> lo <= z < lo + Z.of_nat count.
Proof.
  unfold integers. rewrite in_map_iff. intros (k & <- & Hk).
  apply in_seq in Hk. lia.
Qed.

End NumberFacts.

(* ================================================================== *)
(** * The livability scorer *)
(* ================================================================== *)

Section Scorer.
Import LiveabilityCalculator.

(** The sub-score of a metric is where the cascade of comparisons
    stops. *)
Lemma normalizeAirQuality_cases (aqi : number) :
  In (normalizeAirQuality aqi)
     [Js.int 100; Js.int 85; Js.int 60; Js.int 35; Js.int 15; Js.int 5].
Proof.
  unfold normalizeAirQuality. split_ifs; simpl; auto 10.
Qed.

Lemma normalizeAirQuality_antitone (a b : number) :
  Js.le a b = true ->
  Js.ge (normalizeAirQuality a) (normalizeAirQuality b) = true.
Proof.
  intros Hab. unfold normalizeAirQuality.
  assert (Hup : forall t, Js.le b t = true -> Js.le a t = true)
    by (intros t; apply le_trans; exact Hab).
  clear Hab.
  destruct (Js.le b (excellent ref_airQuality)) eqn:H0;
    [rewrite (Hup _ H0); reflexivity |].
  destruct (Js.le b (good ref_airQuality)) eqn:H1;
    [rewrite (Hup _ H1); split_ifs; reflexivity |].
  destruct (Js.le b (moderate ref_airQuality)) eqn:H2;
    [rewrite (Hup _ H2); split_ifs; reflexivity |].
  destruct (Js.le b (poor ref_airQuality)) eqn:H3;
    [rewrite (Hup _ H3); split_ifs; reflexivity |].
  destruct (Js.le b (veryPoor ref_airQuality)) eqn:H4;
    [rewrite (Hup _ H4) |]; split_ifs; reflexivity.
Qed.

(** C6: [normalizeAirQuality] never increases when the AQI increases,
    and every value it returns is one of 100, 85, 60, 35, 15 and 5. *)
Theorem C6_normalizeAirQuality_monotone_range :
  (forall a b : number,
      Js.le a b = true ->
      Js.ge (normalizeAirQuality a) (normalizeAirQuality b) = true)
  /\ (forall aqi : number,
         In (normalizeAirQuality aqi)
            [Js.int 100; Js.int 85; Js.int 60; Js.int 35; Js.int 15;
             Js.int 5]).
Proof.
  split.
  - exact normalizeAirQuality_antitone.
  - exact normalizeAirQuality_cases.
Qed.

Lemma C6_witness :
  Js.le (Js.int 40) (Js.int 120) = true
  /\ Js.ge (normalizeAirQuality (Js.int 40))
           (normalizeAirQuality (Js.int 120)) = true.
Proof.
  split.
  - reflexivity.
  - apply (proj1 C6_normalizeAirQuality_monotone_range (Js.int 40) (Js.int 120)).
    reflexivity.
Defined.

(** C4: for the metrics (100, 40, 50) the three sub-scores and the
    overall score are 60, the overall score being the rounded weighted
    sum of the sub-scores, and 60 is in the "Moderate" band. *)
Theorem C4_score_example :
  let result :=
    calculateLivabilityScore
      {| airQuality := Js.int 100; waterSecurity := Js.int 40;
         greenSpace := Js.int 50 |} in
  airQualityScore result = Js.int 60
  /\ waterSecurityScore result = Js.int 60
  /\ greenSpaceScore result = Js.int 60
  /\ overallScore result = Js.int 60
  /\ Js.Math_round
       (Js.add (Js.add (Js.mul (Js.dec 4 1) (Js.int 60))
                       (Js.mul (Js.dec 35 2) (Js.int 60)))
               (Js.mul (Js.dec 25 2) (Js.int 60))) = Js.int 60
  /\ category (getLivabilityCategory (overallScore result)) = "Moderate".
Proof.
  vm_compute. repeat split; reflexivity.
Qed.

(** C5: the weights 0.40, 0.35 and 0.25 add up to exactly 1, both in
    binary64 arithmetic and as the rationals they stand for, and the
    overall score of the metrics (0, 0, 100) is exactly 100. *)
Theorem C5_weights_sum_to_one :
  w_airQuality weights = Js.dec 4 1
  /\ w_waterSecurity weights = Js.dec 35 2
  /\ w_greenSpace weights = Js.dec 25 2
  /\ Js.add (Js.add (w_airQuality weights) (w_waterSecurity weights))
            (w_greenSpace weights) = Js.int 1
  /\ (exists a w g : Q,
         Js.exact (w_airQuality weights) = Some a
         /\ Js.exact (w_waterSecurity weights) = Some w
         /\ Js.exact (w_greenSpace weights) = Some g
         /\ (a + w + g == 1)%Q)
  /\ overallScore
       (calculateLivabilityScore
          {| airQuality := Js.int 0; waterSecurity := Js.int 0;
             greenSpace := Js.int 100 |}) = Js.int 100.
Proof.
  repeat split; try (vm_compute; reflexivity).
  eexists _, _, _.
  repeat split; try (vm_compute; reflexivity).
Qed.

(** C2, as the code has it: a NaN metric gets the lowest sub-score of
    its bucket set (5, 10, 10), while an infinite metric goes through
    the comparisons like any other number, so that an AQI or a water
    stress of -Infinity and a coverage of +Infinity get the sub-score
    100, and the opposite infinities get the lowest one. *)
Theorem C2_non_finite_metrics (metrics : LiveabilityMetrics) :
  let result := calculateLivabilityScore metrics in
  (Js.isFinite (airQuality metrics) = false ->
   normalizedValue (airQualityFactor (factors result))
   = match airQuality metrics with
     | S754_infinity true => Js.int 100
     | _ => Js.int 5
     end)
  /\ (Js.isFinite (waterSecurity metrics) = false ->
      normalizedValue (waterSecurityFactor (factors result))
      = match waterSecurity metrics with
        | S754_infinity true => Js.int 100
        | _ => Js.int 10
        end)
  /\ (Js.isFinite (greenSpace metrics) = false ->
      normalizedValue (greenSpaceFactor (factors result))
      = match greenSpace metrics with
        | S754_infinity false => Js.int 100
        | _ => Js.int 10
        end).
Proof.
  destruct metrics as [a w g]; simpl.
  repeat split; intros H.
  - destruct a as [s | [] | | s m e]; try discriminate; reflexivity.
  - destruct w as [s | [] | | s m e]; try discriminate; reflexivity.
  - destruct g as [s | [] | | s m e]; try discriminate; reflexivity.
Qed.

Lemma C2_witness :
  let metrics :=
    {| airQuality := Js.NaN; waterSecurity := Js.Infinity;
       greenSpace := Js.NegInfinity |} in
  let result := calculateLivabilityScore metrics in
  normalizedValue (airQualityFactor (factors result)) = Js.int 5
  /\ normalizedValue (waterSecurityFactor (factors result)) = Js.int 10
  /\ normalizedValue (greenSpaceFactor (factors result)) = Js.int 10.
Proof.
  intros metrics result.
  destruct (C2_non_finite_metrics metrics) as (Ha & Hw & Hg).
  split; [| split]; [apply Ha | apply Hw | apply Hg]; reflexivity.
Defined.

(** C2 as stated fails: an AQI of -Infinity is not finite, yet its
    sub-score is the best one, 100, and not the worst one, 5. *)
Lemma C2_counterexample :
  let metrics :=
    {| airQuality := Js.NegInfinity; waterSecurity := Js.int 0;
       greenSpace := Js.int 0 |} in
  Js.isFinite (airQuality metrics) = false
  /\ normalizedValue
       (airQualityFactor (factors (calculateLivabilityScore metrics)))
     = Js.int 100
  /\ normalizedValue
       (airQualityFactor (factors (calculateLivabilityScore metrics)))
     <> Js.int 5.
Proof.
  repeat split; try reflexivity.
  vm_compute. discriminate.
Qed.

End Scorer.

(* ================================================================== *)
(** * The livability scorer, continued *)
(* ================================================================== *)

Section ScorerFurther.
Import LiveabilityCalculator.

Lemma normalizeAirQuality_in (aqi : number) :
  In (normalizeAirQuality aqi) airScores.
Proof. apply normalizeAirQuality_cases. Qed.

Lemma normalizeWaterSecurity_in (stressLevel : number) :
  In (normalizeWaterSecurity stressLevel) waterScores.
Proof.
  unfold normalizeWaterSecurity. split_ifs; simpl; auto 10.
Qed.

Lemma normalizeGreenSpace_in (coverage : number) :
  In (normalizeGreenSpace coverage) greenScores.
Proof.
  unfold normalizeGreenSpace. split_ifs; simpl; auto 10.
Qed.

Lemma normalizeWaterSecurity_antitone (a b : number) :
  Js.le a b = true ->
  Js.ge (normalizeWaterSecurity a) (normalizeWaterSecurity b) = true.
Proof.
  intros Hab. unfold normalizeWaterSecurity.
  assert (Hup : forall t, Js.le b t = true -> Js.le a t = true)
    by (intros t; apply le_trans; exact Hab).
  clear Hab.
  destruct (Js.le b (excellent ref_waterSecurity)) eqn:H0;
    [rewrite (Hup _ H0); reflexivity |].
  destruct (Js.le b (good ref_waterSecurity)) eqn:H1;
    [rewrite (Hup _ H1); split_ifs; reflexivity |].
  destruct (Js.le b (moderate ref_waterSecurity)) eqn:H2;
    [rewrite (Hup _ H2); split_ifs; reflexivity |].
  destruct (Js.le b (poor ref_waterSecurity)) eqn:H3;
    [rewrite (Hup _ H3); split_ifs; reflexivity |].
  destruct (Js.le b (veryPoor ref_waterSecurity)) eqn:H4;
    [rewrite (Hup _ H4) |]; split_ifs; reflexivity.
Qed.

(** X1: The water sub-score never increases with the stress level, and is
    one of 100, 80, 60, 40, 20 and 10. *)
Theorem normalizeWaterSecurity_antitone_range :
  (forall a b : number,
      Js.le a b = true ->
      Js.ge (normalizeWaterSecurity a) (normalizeWaterSecurity b) = true)
  /\ (forall stressLevel : number,
         In (normalizeWaterSecurity stressLevel)
            [Js.int 100; Js.int 80; Js.int 60; Js.int 40; Js.int 20;
             Js.int 10]).
Proof.
  split; [exact normalizeWaterSecurity_antitone |].
  exact normalizeWaterSecurity_in.
Qed.

Lemma normalizeWaterSecurity_witness :
  Js.le (Js.int 30) (Js.int 70) = true
  /\ Js.ge (normalizeWaterSecurity (Js.int 30))
           (normalizeWaterSecurity (Js.int 70)) = true.
Proof.
  split; [reflexivity |].
  apply (proj1 normalizeWaterSecurity_antitone_range). reflexivity.
Defined.

Lemma normalizeGreenSpace_monotone (a b : number) :
  Js.le a b = true ->
  Js.le (normalizeGreenSpace a) (normalizeGreenSpace b) = true.
Proof.
  intros Hab. unfold normalizeGreenSpace.
  assert (Hup : forall t, Js.ge a t = true -> Js.ge b t = true).
  { intros t Ht. unfold Js.ge in *. apply le_trans with a; assumption. }
  clear Hab.
  destruct (Js.ge a (excellent ref_greenSpace)) eqn:H0;
    [rewrite (Hup _ H0); reflexivity |].
  destruct (Js.ge a (good ref_greenSpace)) eqn:H1;
    [rewrite (Hup _ H1); split_ifs; reflexivity |].
  destruct (Js.ge a (moderate ref_greenSpace)) eqn:H2;
    [rewrite (Hup _ H2); split_ifs; reflexivity |].
  destruct (Js.ge a (poor ref_greenSpace)) eqn:H3;
    [rewrite (Hup _ H3); split_ifs; reflexivity |].
  destruct (Js.ge a (veryPoor ref_greenSpace)) eqn:H4;
    [rewrite (Hup _ H4) |]; split_ifs; reflexivity.
Qed.

(** X2: The green sub-score never decreases with the coverage, and is one of
    100, 80, 60, 40, 20 and 10. *)
Theorem normalizeGreenSpace_monotone_range :
  (forall a b : number,
      Js.le a b = true ->
      Js.le (normalizeGreenSpace a) (normalizeGreenSpace b) = true)
  /\ (forall coverage : number,
         In (normalizeGreenSpace coverage)
            [Js.int 100; Js.int 80; Js.int 60; Js.int 40; Js.int 20;
             Js.int 10]).
Proof.
  split; [exact normalizeGreenSpace_monotone | exact normalizeGreenSpace_in].
Qed.

Lemma normalizeGreenSpace_witness :
  Js.le (Js.int 15) (Js.int 65) = true
  /\ Js.le (normalizeGreenSpace (Js.int 15))
           (normalizeGreenSpace (Js.int 65)) = true.
Proof.
  split; [reflexivity |].
  apply (proj1 normalizeGreenSpace_monotone_range). reflexivity.
Defined.

(** ** The overall score *)

Lemma for_all_scores_sound (test : number -> number -> number -> bool) :
  for_all_scores test = true ->
  forall a w g,
    In a airScores -> In w waterScores -> In g greenScores ->
    test a w g = true.
Proof.
  unfold for_all_scores. intros H a w g Ha Hw Hg.
  rewrite forallb_forall in H. specialize (H a Ha).
  rewrite forallb_forall in H. specialize (H w Hw).
  rewrite forallb_forall in H. exact (H g Hg).
Qed.

Lemma overallScore_weighted (metrics : LiveabilityMetrics) :
  overallScore (calculateLivabilityScore metrics)
  = weighted (normalizeAirQuality (airQuality metrics))
             (normalizeWaterSecurity (waterSecurity metrics))
             (normalizeGreenSpace (greenSpace metrics)).
Proof. reflexivity. Qed.

Lemma weighted_integer :
  for_all_scores (fun a w g => integer_8_to_100 (weighted a w g)) = true.
Proof. vm_compute. reflexivity. Qed.

(** [Math.round] leaves the sub-scores as they are. *)
Lemma round_score (x : number) (scores : list Z) :
  In x (map Js.int scores) ->
  forallb (fun z => same_number (Js.Math_round (Js.int z)) (Js.int z)) scores
  = true ->
  Js.Math_round x = x.
Proof.
  intros Hx Hall. apply in_map_iff in Hx. destruct Hx as (z & <- & Hz).
  rewrite forallb_forall in Hall. apply same_number_eq, Hall, Hz.
Qed.

Lemma overallScore_integer (metrics : LiveabilityMetrics) :
  exists z : Z,
    overallScore (calculateLivabilityScore metrics) = Js.int z
    /\ 8 <= z <= 100.
Proof.
  rewrite overallScore_weighted.
  assert (H := for_all_scores_sound _ weighted_integer
                 _ _ _ (normalizeAirQuality_in (airQuality metrics))
                 (normalizeWaterSecurity_in (waterSecurity metrics))
                 (normalizeGreenSpace_in (greenSpace metrics))).
  unfold integer_8_to_100 in H. apply existsb_exists in H.
  destruct H as (z & Hz & Hsame).
  exists z. split.
  - apply same_number_eq in Hsame. exact Hsame.
  - apply integers_range in Hz. simpl in Hz. lia.
Qed.

(** X3: Whatever the metrics, NaN and infinities included, the reported
    sub-scores are the normalized values and the overall score is an integer
    from 8 to 100. *)
Theorem scores_are_bounded_integers (metrics : LiveabilityMetrics) :
  let result := calculateLivabilityScore metrics in
  airQualityScore result = normalizeAirQuality (airQuality metrics)
  /\ waterSecurityScore result
     = normalizeWaterSecurity (waterSecurity metrics)
  /\ greenSpaceScore result = normalizeGreenSpace (greenSpace metrics)
  /\ exists z : Z, overallScore result = Js.int z /\ 8 <= z <= 100.
Proof.
  simpl.
  split; [| split; [| split]].
  - apply round_score with (1 := normalizeAirQuality_in _). reflexivity.
  - apply round_score with (1 := normalizeWaterSecurity_in _). reflexivity.
  - apply round_score with (1 := normalizeGreenSpace_in _). reflexivity.
  - assert (H := for_all_scores_sound _ weighted_integer
                   _ _ _ (normalizeAirQuality_in (airQuality metrics))
                   (normalizeWaterSecurity_in (waterSecurity metrics))
                   (normalizeGreenSpace_in (greenSpace metrics))).
    unfold integer_8_to_100 in H. apply existsb_exists in H.
    destruct H as (z & Hz & Hsame).
    exists z. split.
    + apply same_number_eq in Hsame. exact Hsame.
    + apply integers_range in Hz. simpl in Hz. lia.
Qed.

Lemma weighted_monotone_air :
  for_all_scores
    (fun a w g =>
       forallb (fun a' => implb (Js.le a a')
                            (Js.le (weighted a w g) (weighted a' w g)))
               airScores) = true.
Proof. vm_compute. reflexivity. Qed.

Lemma weighted_monotone_water :
  for_all_scores
    (fun a w g =>
       forallb (fun w' => implb (Js.le w w')
                            (Js.le (weighted a w g) (weighted a w' g)))
               waterScores) = true.
Proof. vm_compute. reflexivity. Qed.

Lemma weighted_monotone_green :
  for_all_scores
    (fun a w g =>
       forallb (fun g' => implb (Js.le g g')
                            (Js.le (weighted a w g) (weighted a w g')))
               greenScores) = true.
Proof. vm_compute. reflexivity. Qed.

(** X4: Metrics that are no worse in any respect (AQI and water stress not
    higher, coverage not lower) never get a lower overall score. *)
Theorem better_metrics_no_lower_score (worse better : LiveabilityMetrics) :
  Js.le (airQuality better) (airQuality worse) = true ->
  Js.le (waterSecurity better) (waterSecurity worse) = true ->
  Js.le (greenSpace worse) (greenSpace better) = true ->
  Js.le (overallScore (calculateLivabilityScore worse))
        (overallScore (calculateLivabilityScore better)) = true.
Proof.
  intros Ha Hw Hg. rewrite !overallScore_weighted.
  apply normalizeAirQuality_antitone in Ha.
  apply normalizeWaterSecurity_antitone in Hw.
  apply normalizeGreenSpace_monotone in Hg.
  change (Js.le (normalizeAirQuality (airQuality worse))
                (normalizeAirQuality (airQuality better)) = true) in Ha.
  change (Js.le (normalizeWaterSecurity (waterSecurity worse))
                (normalizeWaterSecurity (waterSecurity better)) = true)
    in Hw.
  set (a := normalizeAirQuality (airQuality worse)) in *.
  set (a' := normalizeAirQuality (airQuality better)) in *.
  set (w := normalizeWaterSecurity (waterSecurity worse)) in *.
  set (w' := normalizeWaterSecurity (waterSecurity better)) in *.
  set (g := normalizeGreenSpace (greenSpace worse)) in *.
  set (g' := normalizeGreenSpace (greenSpace better)) in *.
  assert (Ia : In a airScores) by apply normalizeAirQuality_in.
  assert (Ia' : In a' airScores) by apply normalizeAirQuality_in.
  assert (Iw : In w waterScores) by apply normalizeWaterSecurity_in.
  assert (Iw' : In w' waterScores) by apply normalizeWaterSecurity_in.
  assert (Ig : In g greenScores) by apply normalizeGreenSpace_in.
  assert (Ig' : In g' greenScores) by apply normalizeGreenSpace_in.
  apply le_trans with (weighted a' w g).
  { assert (H := for_all_scores_sound _ weighted_monotone_air a w g Ia Iw Ig).
    rewrite forallb_forall in H. specialize (H a' Ia').
    rewrite Ha in H. exact H. }
  apply le_trans with (weighted a' w' g).
  { assert (H := for_all_scores_sound _ weighted_monotone_water
                   a' w g Ia' Iw Ig).
    rewrite forallb_forall in H. specialize (H w' Iw').
    rewrite Hw in H. exact H. }
  assert (H := for_all_scores_sound _ weighted_monotone_green
                 a' w' g Ia' Iw' Ig).
  rewrite forallb_forall in H. specialize (H g' Ig').
  rewrite Hg in H. exact H.
Qed.

Lemma better_metrics_witness :
  Js.le (overallScore
           (calculateLivabilityScore
              {| airQuality := Js.int 180; waterSecurity := Js.int 70;
                 greenSpace := Js.int 12 |}))
        (overallScore
           (calculateLivabilityScore
              {| airQuality := Js.int 40; waterSecurity := Js.int 70;
                 greenSpace := Js.int 55 |})) = true.
Proof.
  apply better_metrics_no_lower_score; reflexivity.
Defined.

(** ** Category bands *)

(** X5: A higher score is never put in a lower band; NaN, which compares
    with nothing, is not concerned. *)
Theorem category_monotone (a b : number) :
  Js.le a b = true ->
  (bandRank (category (getLivabilityCategory a))
   <= bandRank (category (getLivabilityCategory b)))%nat.
Proof.
  intros Hab. unfold getLivabilityCategory.
  assert (Hup : forall t, Js.ge a t = true -> Js.ge b t = true).
  { intros t Ht. unfold Js.ge in *. apply le_trans with a; assumption. }
  clear Hab.
  destruct (Js.ge a (Js.int 85)) eqn:H0;
    [rewrite (Hup _ H0); vm_compute; lia |].
  destruct (Js.ge a (Js.int 70)) eqn:H1;
    [rewrite (Hup _ H1); split_ifs; vm_compute; lia |].
  destruct (Js.ge a (Js.int 55)) eqn:H2;
    [rewrite (Hup _ H2); split_ifs; vm_compute; lia |].
  destruct (Js.ge a (Js.int 40)) eqn:H3;
    [rewrite (Hup _ H3) |]; split_ifs; vm_compute; lia.
Qed.

Lemma category_monotone_witness :
  (bandRank (category (getLivabilityCategory (Js.int 42)))
   <= bandRank (category (getLivabilityCategory (Js.int 71))))%nat.
Proof.
  apply category_monotone. reflexivity.
Defined.

(** X6: Every overall score the calculator produces is classified by the
    bands as an integer: "Excellent" from 85, "Good" from 70, "Moderate"
    from 55, "Poor" from 40 and "Very Poor" below. *)
Theorem category_of_overall_score (metrics : LiveabilityMetrics) :
  exists z : Z,
    overallScore (calculateLivabilityScore metrics) = Js.int z
    /\ category (getLivabilityCategory
                   (overallScore (calculateLivabilityScore metrics)))
       = if 85 <=? z then "Excellent"
         else if 70 <=? z then "Good"
         else if 55 <=? z then "Moderate"
         else if 40 <=? z then "Poor"
         else "Very Poor".
Proof.
  destruct (overallScore_integer metrics) as (z & Hz & Hr).
  exists z. split; [exact Hz |]. rewrite Hz.
  assert (Hin : In z (integers 8 93)).
  { unfold integers. apply in_map_iff. exists (Z.to_nat (z - 8)).
    split; [lia | apply in_seq; lia]. }
  assert (Hall :
    forallb
      (fun z =>
         String.eqb
           (category (getLivabilityCategory (Js.int z)))
           (if 85 <=? z then "Excellent"
            else if 70 <=? z then "Good"
            else if 55 <=? z then "Moderate"
            else if 40 <=? z then "Poor"
            else "Very Poor"))
      (integers 8 93) = true) by (vm_compute; reflexivity).
  rewrite forallb_forall in Hall.
  apply String.eqb_eq, Hall, Hin.
Qed.

(** ** Recommendations *)

(** The sub-score is at least 60 exactly when the metric is in one of
    the three best buckets. *)
Lemma air_score_60 (aqi : number) :
  Js.lt (normalizeAirQuality aqi) (Js.int 60)
  = negb (Js.le aqi (Js.int 100)).
Proof.
  unfold normalizeAirQuality.
  change (excellent ref_airQuality) with (Js.int 0).
  change (good ref_airQuality) with (Js.int 50).
  change (moderate ref_airQuality) with (Js.int 100).
  destruct (Js.le aqi (Js.int 0)) eqn:H0;
    [rewrite (le_trans _ _ (Js.int 100) H0 eq_refl); reflexivity |].
  destruct (Js.le aqi (Js.int 50)) eqn:H1;
    [rewrite (le_trans _ _ (Js.int 100) H1 eq_refl); reflexivity |].
  destruct (Js.le aqi (Js.int 100)) eqn:H2; [reflexivity |].
  split_ifs; reflexivity.
Qed.

Lemma water_score_60 (stressLevel : number) :
  Js.lt (normalizeWaterSecurity stressLevel) (Js.int 60)
  = negb (Js.le stressLevel (Js.int 40)).
Proof.
  unfold normalizeWaterSecurity.
  change (excellent ref_waterSecurity) with (Js.int 0).
  change (good ref_waterSecurity) with (Js.int 20).
  change (moderate ref_waterSecurity) with (Js.int 40).
  destruct (Js.le stressLevel (Js.int 0)) eqn:H0;
    [rewrite (le_trans _ _ (Js.int 40) H0 eq_refl); reflexivity |].
  destruct (Js.le stressLevel (Js.int 20)) eqn:H1;
    [rewrite (le_trans _ _ (Js.int 40) H1 eq_refl); reflexivity |].
  destruct (Js.le stressLevel (Js.int 40)) eqn:H2; [reflexivity |].
  split_ifs; reflexivity.
Qed.

Lemma green_score_60 (coverage : number) :
  Js.lt (normalizeGreenSpace coverage) (Js.int 60)
  = negb (Js.ge coverage (Js.int 40)).
Proof.
  unfold normalizeGreenSpace.
  change (excellent ref_greenSpace) with (Js.int 80).
  change (good ref_greenSpace) with (Js.int 60).
  change (moderate ref_greenSpace) with (Js.int 40).
  assert (Hdown : forall t, Js.le (Js.int 40) t = true ->
                            Js.ge coverage t = true ->
                            Js.ge coverage (Js.int 40) = true).
  { intros t Ht Hc. unfold Js.ge in *. apply le_trans with t; assumption. }
  destruct (Js.ge coverage (Js.int 80)) eqn:H0;
    [rewrite (Hdown (Js.int 80) eq_refl H0); reflexivity |].
  destruct (Js.ge coverage (Js.int 60)) eqn:H1;
    [rewrite (Hdown (Js.int 60) eq_refl H1); reflexivity |].
  destruct (Js.ge coverage (Js.int 40)) eqn:H2; [reflexivity |].
  split_ifs; reflexivity.
Qed.

(** The priority line needs a sub-score below 50, hence below 60. *)
Lemma weakest_member (first : string * number)
  (rest : list (string * number)) :
  In (weakest first rest) (first :: rest).
Proof.
  unfold weakest. revert first.
  induction rest as [| f rest IH]; intros first; simpl.
  - left. reflexivity.
  - match goal with
    | |- context [fold_left _ rest ?x] => remember x as mn eqn:E
    end.
    destruct (IH mn) as [H | H]; [| right; right; exact H].
    rewrite <- H, E. simpl. split_ifs; auto.
Qed.

(** X7: A result with no sub-score below 60 gets no recommendation at all,
    and a result with a sub-score below 60 gets one. *)
Theorem recommendations_when_below_60 (result : LiveabilityResult) :
  generateRecommendations result = []
  <-> Js.lt (airQualityScore result) (Js.int 60) = false
      /\ Js.lt (waterSecurityScore result) (Js.int 60) = false
      /\ Js.lt (greenSpaceScore result) (Js.int 60) = false.
Proof.
  unfold generateRecommendations.
  set (w := weakest _ _).
  assert (Hw : In w [("air quality", airQualityScore result);
                     ("water security", waterSecurityScore result);
                     ("green space", greenSpaceScore result)])
    by apply weakest_member.
  split.
  - intros H.
    destruct (Js.lt (airQualityScore result) (Js.int 60));
      [discriminate |].
    destruct (Js.lt (waterSecurityScore result) (Js.int 60));
      [discriminate |].
    destruct (Js.lt (greenSpaceScore result) (Js.int 60));
      [discriminate |].
    repeat split.
  - intros (Ha & Hwa & Hg). rewrite Ha, Hwa, Hg. cbn [app negb].
    destruct (Js.lt (snd w) (Js.int 50)) eqn:H50; [| reflexivity].
    apply lt_le_trans with (c := Js.int 60) in H50; [| reflexivity].
    clearbody w. cbn [In] in Hw.
    destruct Hw as [<- | [<- | [<- | []]]]; cbn [snd] in H50; congruence.
Qed.

(** X8: On the result of the calculator: no recommendation exactly when the
    AQI is at most 100, the water stress at most 40 and the coverage at
    least 40. *)
Theorem no_recommendation_iff_moderate (metrics : LiveabilityMetrics) :
  generateRecommendations (calculateLivabilityScore metrics) = []
  <-> Js.le (airQuality metrics) (Js.int 100) = true
      /\ Js.le (waterSecurity metrics) (Js.int 40) = true
      /\ Js.ge (greenSpace metrics) (Js.int 40) = true.
Proof.
  unfold generateRecommendations.
  set (w := weakest _ _).
  assert (Hw : In w [("air quality",
                      airQualityScore (calculateLivabilityScore metrics));
                     ("water security",
                      waterSecurityScore (calculateLivabilityScore metrics));
                     ("green space",
                      greenSpaceScore (calculateLivabilityScore metrics))])
    by apply weakest_member.
  assert (Ea : airQualityScore (calculateLivabilityScore metrics)
               = normalizeAirQuality (airQuality metrics)).
  { simpl. apply round_score with (1 := normalizeAirQuality_in _).
    reflexivity. }
  assert (Ew : waterSecurityScore (calculateLivabilityScore metrics)
               = normalizeWaterSecurity (waterSecurity metrics)).
  { simpl. apply round_score with (1 := normalizeWaterSecurity_in _).
    reflexivity. }
  assert (Eg : greenSpaceScore (calculateLivabilityScore metrics)
               = normalizeGreenSpace (greenSpace metrics)).
  { simpl. apply round_score with (1 := normalizeGreenSpace_in _).
    reflexivity. }
  rewrite Ea, Ew, Eg in *.
  rewrite air_score_60, water_score_60, green_score_60.
  split.
  - intros H.
    destruct (Js.le (airQuality metrics) (Js.int 100)); [| discriminate].
    destruct (Js.le (waterSecurity metrics) (Js.int 40)); [| discriminate].
    destruct (Js.ge (greenSpace metrics) (Js.int 40)); [| discriminate].
    repeat split.
  - intros (Ha & Hwa & Hg). rewrite Ha, Hwa, Hg. cbn [app negb].
    destruct (Js.lt (snd w) (Js.int 50)) eqn:H50; [| reflexivity].
    apply lt_le_trans with (c := Js.int 60) in H50; [| reflexivity].
    clearbody w. cbn [In] in Hw.
    destruct Hw as [<- | [<- | [<- | []]]]; cbn [snd] in H50;
      rewrite ?air_score_60, ?water_score_60, ?green_score_60 in H50;
      rewrite ?Ha, ?Hwa, ?Hg in H50; discriminate.
Qed.

Lemma weakest_split (rest : list (string * number)) :
  forall (mn : string * number) (before mid : list (string * number)),
    Forall (fun f => Js.isNaN (snd f) = false) (mn :: rest) ->
    Forall (fun f => Js.lt (snd mn) (snd f) = true) before ->
    Forall (fun f => Js.le (snd mn) (snd f) = true) mid ->
    exists b a,
      before ++ mn :: mid ++ rest = b ++ weakest mn rest :: a
      /\ Forall (fun f => Js.lt (snd (weakest mn rest)) (snd f) = true) b
      /\ Forall (fun f => Js.le (snd (weakest mn rest)) (snd f) = true) a.
Proof.
  unfold weakest.
  induction rest as [| f rest IH]; intros mn before mid Hnan Hb Hm.
  - exists before, mid. rewrite app_nil_r. simpl. auto.
  - inversion Hnan as [| ? ? Hmn Hrest]; subst.
    inversion Hrest as [| ? ? Hf Hrest']; subst.
    simpl fold_left.
    match goal with
    | |- context [if ?c then _ else _] => destruct c eqn:Hlt
    end.
    + destruct (IH f (before ++ mn :: mid) []) as (b & a & E & Hb' & Ha').
      * constructor; assumption.
      * apply Forall_app. split.
        -- eapply Forall_impl; [| exact Hb].
           simpl. intros g Hg. apply lt_le_trans with (snd mn);
             [exact Hlt | apply lt_le; exact Hg].
        -- constructor; [exact Hlt |].
           eapply Forall_impl; [| exact Hm].
           simpl. intros g Hg. apply lt_le_trans with (snd mn); assumption.
      * constructor.
      * exists b, a. split; [| split]; try assumption.
        rewrite <- E. simpl. rewrite <- !app_assoc. reflexivity.
    + destruct (IH mn before (mid ++ [f])) as (b & a & E & Hb' & Ha').
      * constructor; assumption.
      * exact Hb.
      * apply Forall_app. split; [exact Hm |].
        constructor; [| constructor]. cbv beta.
        match goal with
        | |- ?c = true => destruct c eqn:Hle; [reflexivity |]
        end.
        rewrite (le_total _ _ Hmn Hf Hle) in Hlt. discriminate.
      * exists b, a. split; [| split]; try assumption.
        rewrite <- E. rewrite <- !app_assoc. reflexivity.
Qed.

(** X9: The weakest factor is the first of the factors with the lowest
    score: those before it are strictly higher, those after it at least as
    high. *)
Theorem weakest_is_first_minimum (first : string * number)
  (rest : list (string * number)) :
  Forall (fun f => Js.isNaN (snd f) = false) (first :: rest) ->
  exists before after,
    first :: rest = before ++ weakest first rest :: after
    /\ Forall (fun f => Js.lt (snd (weakest first rest)) (snd f) = true)
              before
    /\ Forall (fun f => Js.le (snd (weakest first rest)) (snd f) = true)
              after.
Proof.
  intros Hnan.
  destruct (weakest_split rest first [] [] Hnan) as (b & a & E & Hb & Ha);
    try constructor.
  exists b, a. auto.
Qed.

Lemma weakest_witness :
  weakest ("air quality", Js.int 60)
          [("water security", Js.int 20); ("green space", Js.int 20)]
  = ("water security", Js.int 20)
  /\ exists before after,
      [("air quality", Js.int 60); ("water security", Js.int 20);
       ("green space", Js.int 20)]
      = before
        ++ weakest ("air quality", Js.int 60)
                   [("water security", Js.int 20); ("green space", Js.int 20)]
        :: after.
Proof.
  split; [reflexivity |].
  destruct (weakest_is_first_minimum ("air quality", Js.int 60)
              [("water security", Js.int 20); ("green space", Js.int 20)])
    as (b & a & E & _).
  - repeat constructor.
  - exists b, a. exact E.
Defined.

(** ** Regional ranking *)

Section SortFacts.
Context {A : Type}.
Variable comparator : A -> A -> number.
Variable score : A -> number.
Variable valid : A -> Prop.

(** On valid elements the comparator orders by descending score. *)
Hypothesis comparator_sound :
  forall x y, valid x -> valid y ->
    if Js.gt (comparator x y) (Js.int 0)
    then Js.le (score x) (score y) = true
    else Js.le (score y) (score x) = true.

Lemma sort_insert_perm (x : A) (l : list A) :
  Permutation (JsArray.sort_insert comparator x l) (x :: l).
Proof.
  induction l as [| y rest IH]; cbn [JsArray.sort_insert].
  - apply Permutation_refl.
  - destruct (Js.gt (comparator x y) (Js.int 0)).
    + apply perm_trans with (y :: x :: rest).
      * apply perm_skip. exact IH.
      * apply perm_swap.
    + apply Permutation_refl.
Qed.

Lemma sort_perm (l : list A) : Permutation (JsArray.sort comparator l) l.
Proof.
  induction l as [| x rest IH]; simpl.
  - apply perm_nil.
  - apply perm_trans with (x :: JsArray.sort comparator rest).
    + apply sort_insert_perm.
    + apply perm_skip. exact IH.
Qed.

Lemma sort_insert_sorted (x : A) (l : list A) :
  valid x -> Forall valid l ->
  StronglySorted (fun p q => Js.le (score q) (score p) = true) l ->
  StronglySorted (fun p q => Js.le (score q) (score p) = true)
                 (JsArray.sort_insert comparator x l).
Proof.
  intros Hx.
  induction l as [| y rest IH]; cbn [JsArray.sort_insert]; intros Hv Hs.
  - constructor; constructor.
  - inversion Hv as [| ? ? Hy Hrest]; subst.
    inversion Hs as [| ? ? Hs' Hall]; subst.
    assert (Hc := comparator_sound x y Hx Hy).
    destruct (Js.gt (comparator x y) (Js.int 0)).
    + constructor; [apply IH; assumption |].
      apply (Permutation_Forall
               (Permutation_sym (sort_insert_perm x rest))).
      constructor; assumption.
    + constructor; [exact Hs |].
      constructor; [exact Hc |].
      eapply Forall_impl; [| exact Hall].
      cbv beta. intros q Hq. apply le_trans with (score y); assumption.
Qed.

Lemma sort_sorted (l : list A) :
  Forall valid l ->
  StronglySorted (fun p q => Js.le (score q) (score p) = true)
                 (JsArray.sort comparator l).
Proof.
  induction l as [| x rest IH]; simpl; intros Hv.
  - constructor.
  - inversion Hv; subst.
    apply sort_insert_sorted; auto.
    apply (Permutation_Forall (Permutation_sym (sort_perm rest))).
    assumption.
Qed.

End SortFacts.

Lemma mapi_from_nth_error {A B : Type} (f : A -> nat -> B) (l : list A) :
  forall (start i : nat),
    nth_error (JsArray.mapi_from f start l) i
    = option_map (fun x => f x (start + i)%nat) (nth_error l i).
Proof.
  induction l as [| x rest IH]; intros start i; simpl.
  - destruct i; reflexivity.
  - destruct i as [| i]; simpl.
    + rewrite Nat.add_0_r. reflexivity.
    + rewrite IH. rewrite Nat.add_succ_r. reflexivity.
Qed.

Lemma map_mapi_from {A B C : Type} (f : A -> nat -> B) (g : B -> C)
  (h : A -> C) (l : list A) :
  (forall x i, g (f x i) = h x) ->
  forall start, map g (JsArray.mapi_from f start l) = map h l.
Proof.
  intros Hg. induction l as [| x rest IH]; intros start; simpl.
  - reflexivity.
  - rewrite Hg, IH. reflexivity.
Qed.

(** The difference of two overall scores has the sign of their order. *)
Lemma score_difference :
  forallb
    (fun z1 =>
       forallb
         (fun z2 =>
            if Js.gt (Js.sub (Js.int z2) (Js.int z1)) (Js.int 0)
            then Js.le (Js.int z1) (Js.int z2)
            else Js.le (Js.int z2) (Js.int z1))
         (integers 8 93))
    (integers 8 93) = true.
Proof. vm_compute. reflexivity. Qed.

Lemma in_integers (z : Z) : 8 <= z <= 100 -> In z (integers 8 93).
Proof.
  intros H. unfold integers. apply in_map_iff.
  exists (Z.to_nat (z - 8)). split; [lia | apply in_seq; lia].
Qed.

Lemma byOverallScore_sound (x y : string * LiveabilityResult) :
  (exists m, snd x = calculateLivabilityScore m) ->
  (exists m, snd y = calculateLivabilityScore m) ->
  if Js.gt (byOverallScore x y) (Js.int 0)
  then Js.le (overallScore (snd x)) (overallScore (snd y)) = true
  else Js.le (overallScore (snd y)) (overallScore (snd x)) = true.
Proof.
  intros (mx & Ex) (my & Ey). unfold byOverallScore. rewrite Ex, Ey.
  destruct (overallScore_integer mx) as (zx & -> & Hx).
  destruct (overallScore_integer my) as (zy & -> & Hy).
  assert (H := score_difference).
  rewrite forallb_forall in H. specialize (H zx (in_integers zx Hx)).
  rewrite forallb_forall in H. specialize (H zy (in_integers zy Hy)).
  destruct (Js.gt (Js.sub (Js.int zy) (Js.int zx)) (Js.int 0)); exact H.
Qed.

(** X10: [calculateRegionalLivability] returns every location once with its
    own score, in descending order of overall score, the ranking of an entry
    being its position plus one. *)
Theorem regional_ranking (locations : list Location) :
  let ranked := calculateRegionalLivability locations in
  Permutation
    (map (fun r => (r_name r, r_result r)) ranked)
    (map (fun location =>
            (name location, calculateLivabilityScore (metrics location)))
         locations)
  /\ List.length ranked = List.length locations
  /\ StronglySorted
       (fun p q =>
          Js.le (overallScore (r_result q)) (overallScore (r_result p))
          = true)
       ranked
  /\ forall (i : nat) (r : Ranked),
      nth_error ranked i = Some r ->
      ranking r = Js.add (Js.int (Z.of_nat i)) (Js.int 1).
Proof.
  unfold calculateRegionalLivability, JsArray.mapi.
  set (results := map _ locations).
  set (sorted := JsArray.sort byOverallScore results).
  assert (Hperm : Permutation sorted results) by apply sort_perm.
  assert (Hmap :
    map (fun r => (r_name r, r_result r))
        (JsArray.mapi_from
           (fun result index =>
              {| r_name := fst result; r_result := snd result;
                 ranking := Js.add (Js.int (Z.of_nat index)) (Js.int 1) |})
           0 sorted)
    = sorted).
  { rewrite map_mapi_from with (h := fun x => x); [apply map_id |].
    intros [n r] i. reflexivity. }
  split; [| split; [| split]].
  - rewrite Hmap. exact Hperm.
  - rewrite <- (length_map (fun r => (r_name r, r_result r))), Hmap.
    rewrite (Permutation_length Hperm). apply length_map.
  - assert (Hvalid :
      Forall (fun x => exists m, snd x = calculateLivabilityScore m)
             results).
    { apply Forall_forall. intros x Hx. apply in_map_iff in Hx.
      destruct Hx as (l & <- & _). eexists. reflexivity. }
    assert (Hs := sort_sorted byOverallScore
                    (fun x => overallScore (snd x)) _
                    byOverallScore_sound results Hvalid).
    fold sorted in Hs. clearbody sorted. clear - Hs.
    generalize 0%nat.
    induction Hs as [| x l Hl IH Hall]; intros start; simpl.
    + constructor.
    + constructor; [apply IH |].
      clear - Hall. revert start.
      induction Hall as [| y l Hy Hall IH]; intros start; simpl;
        constructor; [exact Hy | apply IH].
  - intros i r Hi. rewrite mapi_from_nth_error in Hi.
    destruct (nth_error sorted i); [| discriminate].
    injection Hi as <-. reflexivity.
Qed.

End ScorerFurther.

(* ================================================================== *)
(** * The alert evaluator *)
(* ================================================================== *)

Section Evaluator.
Import AlertService.

Variable airCompletion : AirQualityData.t -> string -> option Json.
Variable waterCompletion : WaterSecurityData.t -> string -> option Json.
Variable greenCompletion : GreenSpaceData.t -> string -> option Json.

(** ** Air quality *)

Lemma airLevelAlerts_length (latest : AirQualityData.t)
  (context : EnvironmentalData) :
  (List.length (airLevelAlerts airCompletion thresholds latest context) <= 1)%nat.
Proof.
  unfold airLevelAlerts. split_ifs; simpl; lia.
Qed.

(** C3: with the two latest AQI values 160 and 90, [analyzeAirQuality]
    returns exactly two alerts, the danger alert of the level and the
    rapid deterioration warning; and whenever the latest AQI exceeds the
    previous one by more than 50, the rapid deterioration warning is
    added after whatever the level rule produced. *)
Theorem C3_rapid_deterioration (latest previous : AirQualityData.t)
  (rest : list AirQualityData.t) (context : EnvironmentalData) :
  (AirQualityData.aqi latest = Js.int 160 ->
   AirQualityData.aqi previous = Js.int 90 ->
   exists level trend : Alert,
     analyzeAirQuality airCompletion thresholds
       (latest :: previous :: rest) context = Some [level; trend]
     /\ InsertEnvironmentalAlert.type level = "danger"
     /\ InsertEnvironmentalAlert.title level
        = "Unhealthy Air Quality Detected"
     /\ InsertEnvironmentalAlert.type trend = "warning"
     /\ InsertEnvironmentalAlert.title trend
        = "Rapid Air Quality Deterioration")
  /\ (Js.gt (Js.sub (AirQualityData.aqi latest)
                    (AirQualityData.aqi previous)) (Js.int 50) = true ->
      exists trend : Alert,
        analyzeAirQuality airCompletion thresholds
          (latest :: previous :: rest) context
        = Some (airLevelAlerts airCompletion thresholds latest context
                ++ [trend])
        /\ (List.length
              (airLevelAlerts airCompletion thresholds latest context)
            <= 1)%nat
        /\ InsertEnvironmentalAlert.type trend = "warning"
        /\ InsertEnvironmentalAlert.title trend
           = "Rapid Air Quality Deterioration").
Proof.
  split.
  - intros Hl Hp.
    unfold analyzeAirQuality, airLevelAlerts, airTrendAlerts.
    rewrite Hl, Hp.
    change (Js.ge (Js.int 160) (danger (th_airQuality thresholds)))
      with true.
    change (Js.gt (Js.sub (Js.int 160) (Js.int 90)) (Js.int 50)) with true.
    cbv iota. eexists _, _. split; [reflexivity |].
    repeat split.
  - intros Hgt.
    unfold analyzeAirQuality, airTrendAlerts.
    rewrite Hgt.
    eexists. split; [reflexivity |].
    split; [apply airLevelAlerts_length |].
    split; reflexivity.
Qed.

(** ** Green space *)

(** Where the coverage field is absent, the coverage is [ndvi * 100]. *)
Lemma vegCoverage_absent (latest : GreenSpaceData.t) :
  GreenSpaceData.vegetationCoverage latest = None ->
  vegCoverage latest = Js.mul (GreenSpaceData.ndvi latest) (Js.int 100).
Proof.
  intros H. unfold vegCoverage. rewrite H. reflexivity.
Qed.

(** Where it is present and neither zero nor NaN, the coverage is the
    field. *)
Lemma vegCoverage_present (latest : GreenSpaceData.t) (coverage : number) :
  GreenSpaceData.vegetationCoverage latest = Some coverage ->
  Js.truthy coverage = true ->
  vegCoverage latest = coverage.
Proof.
  intros H Ht. unfold vegCoverage, Js.or_opt, Js.or. rewrite H, Ht.
  reflexivity.
Qed.

(** A coverage of at most 15 gives one danger alert, a coverage above 15
    and of at most 30 one warning alert, and any other coverage none. *)
Lemma greenAlerts_rule (latest : GreenSpaceData.t)
  (context : EnvironmentalData) :
  let alerts := greenAlerts greenCompletion thresholds latest context in
  (Js.le (vegCoverage latest) (Js.int 15) = true ->
   exists a, alerts = [a]
             /\ InsertEnvironmentalAlert.type a = "danger"
             /\ InsertEnvironmentalAlert.category a = "green_space")
  /\ (Js.le (vegCoverage latest) (Js.int 15) = false ->
      Js.le (vegCoverage latest) (Js.int 30) = true ->
      exists a, alerts = [a]
                /\ InsertEnvironmentalAlert.type a = "warning"
                /\ InsertEnvironmentalAlert.category a = "green_space")
  /\ (Js.le (vegCoverage latest) (Js.int 30) = false -> alerts = []).
Proof.
  unfold greenAlerts.
  change (danger (th_greenSpace thresholds)) with (Js.int 15).
  change (warning (th_greenSpace thresholds)) with (Js.int 30).
  split; [| split].
  - intros H. rewrite H. eexists. split; [reflexivity |]. split; reflexivity.
  - intros H H'. rewrite H, H'. eexists. split; [reflexivity |].
    split; reflexivity.
  - intros H.
    destruct (Js.le (vegCoverage latest) (Js.int 15)) eqn:H15.
    + rewrite (le_trans _ _ (Js.int 30) H15 eq_refl) in H. discriminate.
    + rewrite H. reflexivity.
Qed.

(** The reading [{ndvi: 0.1, vegetationCoverage: undefined}] has the
    coverage 10 and raises the danger alert. *)
Lemma green_example (latest : GreenSpaceData.t) (more : list GreenSpaceData.t)
  (context : EnvironmentalData) :
  GreenSpaceData.ndvi latest = Js.dec 1 1 ->
  GreenSpaceData.vegetationCoverage latest = None ->
  vegCoverage latest = Js.int 10
  /\ exists a,
      analyzeGreenSpace greenCompletion thresholds (latest :: more) context
      = Some [a]
      /\ InsertEnvironmentalAlert.type a = "danger".
Proof.
  intros Hn Hc.
  assert (Hv : vegCoverage latest = Js.int 10).
  { rewrite (vegCoverage_absent _ Hc), Hn. reflexivity. }
  split; [exact Hv |].
  destruct (greenAlerts_rule latest context) as (Hd & _).
  destruct Hd as (a & Ha & Ht & _); [rewrite Hv; reflexivity |].
  exists a. simpl. rewrite Ha. split; [reflexivity | exact Ht].
Qed.

(** C1 at a reading whose coverage field is present and zero: the code
    takes [ndvi * 100 = 50] for the coverage and raises no alert, where
    a coverage of 0 is at most 15 and calls for the danger alert. *)
Theorem C1_zero_coverage_is_skipped (context : EnvironmentalData) :
  let latest :=
    GreenSpaceData.mk "g" (Js.int 10) (Js.int 10) (Js.dec 5 1)
      (Some (Js.int 0)) None "local" 0 JNull in
  GreenSpaceData.vegetationCoverage latest = Some (Js.int 0)
  /\ Js.le (Js.int 0) (Js.int 15) = true
  /\ vegCoverage latest = Js.int 50
  /\ analyzeGreenSpace greenCompletion thresholds [latest] context
     = Some [].
Proof.
  repeat split.
Qed.

(** ** Every alert is active, actionable and of severity 0 to 100 *)

(** The alert literal with a capped non-negative severity. *)
Lemma alert_capped (type category title : string) (message : text)
  (context : EnvironmentalData) (lat lon value : number)
  (recommendations : Json) :
  Js.le (Js.int 0) value = true ->
  alert_invariant
    (alert type category title message context lat lon
       (Js.Math_min (Js.int 100) value) recommendations).
Proof.
  intros H. unfold alert_invariant, alert; simpl.
  split; [reflexivity |]. split; [reflexivity |].
  apply min_100_bounds. exact H.
Qed.

(** [value / divisor * factor] is not negative when [value] is not and
    the constants are finite and above zero. *)
Lemma scaled_nonneg (value divisor factor : number) :
  Js.le (Js.int 0) value = true ->
  Js.isFinite divisor = true -> Js.lt (Js.int 0) divisor = true ->
  Js.isFinite factor = true -> Js.lt (Js.int 0) factor = true ->
  Js.le (Js.int 0) (Js.mul (Js.div value divisor) factor) = true.
Proof.
  intros Hv Hd1 Hd2 Hf1 Hf2.
  apply mul_nonneg; [| exact Hf1 | exact Hf2].
  apply div_nonneg; assumption.
Qed.

(** A value at or above a threshold that is itself above zero. *)
Lemma above_threshold_nonneg (value threshold : number) :
  Js.le (Js.int 0) threshold = true ->
  Js.ge value threshold = true ->
  Js.le (Js.int 0) value = true.
Proof.
  intros Ht Hge. apply le_trans with threshold; assumption.
Qed.

Lemma airLevelAlerts_invariant (latest : AirQualityData.t)
  (context : EnvironmentalData) :
  Forall alert_invariant
    (airLevelAlerts airCompletion thresholds latest context).
Proof.
  unfold airLevelAlerts.
  destruct (Js.ge (AirQualityData.aqi latest)
              (danger (th_airQuality thresholds))) eqn:Hd;
    [| destruct (Js.ge (AirQualityData.aqi latest)
                   (warning (th_airQuality thresholds))) eqn:Hw; [| constructor]];
    (apply Forall_cons; [| apply Forall_nil]).
  - apply alert_capped, scaled_nonneg; try reflexivity.
    apply above_threshold_nonneg with (2 := Hd). reflexivity.
  - apply alert_capped, scaled_nonneg; try reflexivity.
    apply above_threshold_nonneg with (2 := Hw). reflexivity.
Qed.

Lemma airTrendAlerts_invariant (latest : AirQualityData.t)
  (rest : list AirQualityData.t) (context : EnvironmentalData) :
  Forall alert_invariant (airTrendAlerts latest rest context).
Proof.
  unfold airTrendAlerts.
  destruct rest as [| previous more]; [constructor |].
  destruct (Js.gt _ (Js.int 50)) eqn:Hgt; [| constructor].
  apply Forall_cons; [| apply Forall_nil].
  apply alert_capped, scaled_nonneg; try reflexivity.
  apply above_threshold_nonneg with (threshold := Js.int 50);
    [reflexivity | apply lt_le; exact Hgt].
Qed.

Lemma waterStressAlerts_invariant (latest : WaterSecurityData.t)
  (context : EnvironmentalData) :
  Forall alert_invariant
    (waterStressAlerts waterCompletion thresholds latest context).
Proof.
  unfold waterStressAlerts.
  destruct (Js.ge (WaterSecurityData.waterStressLevel latest)
              (danger (th_waterSecurity thresholds))) eqn:Hd;
    [| destruct (Js.ge (WaterSecurityData.waterStressLevel latest)
                   (warning (th_waterSecurity thresholds))) eqn:Hw; [| constructor]];
    (apply Forall_cons; [| apply Forall_nil]).
  - apply alert_capped, scaled_nonneg; try reflexivity.
    apply above_threshold_nonneg with (2 := Hd). reflexivity.
  - apply alert_capped, scaled_nonneg; try reflexivity.
    apply above_threshold_nonneg with (2 := Hw). reflexivity.
Qed.

Lemma floodRiskAlerts_invariant (latest : WaterSecurityData.t)
  (context : EnvironmentalData) :
  Forall alert_invariant (floodRiskAlerts thresholds latest context).
Proof.
  unfold floodRiskAlerts.
  destruct (WaterSecurityData.floodRisk latest) as [floodRisk |];
    [| constructor].
  destruct (Js.truthy floodRisk
            && Js.ge floodRisk (danger (th_floodRisk thresholds)))%bool
    eqn:Hd;
    [| destruct (Js.truthy floodRisk
                 && Js.ge floodRisk (warning (th_floodRisk thresholds)))%bool
         eqn:Hw; [| constructor]];
    (apply Forall_cons; [| apply Forall_nil]).
  - apply andb_true_iff in Hd. destruct Hd as [_ Hd].
    apply alert_capped, scaled_nonneg; try reflexivity.
    apply above_threshold_nonneg with (2 := Hd). reflexivity.
  - apply andb_true_iff in Hw. destruct Hw as [_ Hw].
    apply alert_capped, scaled_nonneg; try reflexivity.
    apply above_threshold_nonneg with (2 := Hw). reflexivity.
Qed.

Lemma vegCoverage_small (latest : GreenSpaceData.t) :
  binary64_coverage latest = true -> Js.small (vegCoverage latest).
Proof.
  unfold binary64_coverage, vegCoverage, Js.or_opt, Js.or.
  destruct (GreenSpaceData.vegetationCoverage latest) as [coverage |].
  - intros H. destruct (Js.truthy coverage).
    + apply wf_small. exact H.
    + apply mul_small.
  - intros _. apply mul_small.
Qed.

Lemma greenAlerts_invariant (latest : GreenSpaceData.t)
  (context : EnvironmentalData) :
  binary64_coverage latest = true ->
  Forall alert_invariant (greenAlerts greenCompletion thresholds latest context).
Proof.
  intros Hwf. apply vegCoverage_small in Hwf.
  unfold greenAlerts.
  destruct (Js.le (vegCoverage latest)
              (danger (th_greenSpace thresholds))) eqn:Hd;
    [| destruct (Js.le (vegCoverage latest)
                   (warning (th_greenSpace thresholds))) eqn:Hw; [| constructor]];
    (apply Forall_cons; [| apply Forall_nil]).
  - apply alert_capped, scaled_nonneg; try reflexivity.
    apply (sub_nonneg 8444249301319680 (-49)); [discriminate | exact Hwf |].
    exact Hd.
  - apply alert_capped, scaled_nonneg; try reflexivity.
    apply (sub_nonneg 8444249301319680 (-48)); [discriminate | exact Hwf |].
    exact Hw.
Qed.

(** C10: on readings whose coverage fields are binary64 values,
    [generateAlerts] returns, and every alert it returns is active,
    actionable and has a severity between 0 and 100. *)
Theorem C10_alert_invariant (data : EnvironmentalData) :
  (forall greenData,
      greenSpace data = Some greenData ->
      forallb binary64_coverage greenData = true) ->
  exists alerts : list Alert,
    generateAlerts airCompletion waterCompletion greenCompletion thresholds
      data = Some alerts
    /\ Forall alert_invariant alerts.
Proof.
  intros Hwf. unfold generateAlerts, analyzed.
  assert (Hair :
    exists l, match airQuality data with
              | Some ((_ :: _) as l) =>
                  analyzeAirQuality airCompletion thresholds l data
              | _ => Some []
              end = Some l /\ Forall alert_invariant l).
  { destruct (airQuality data) as [[| latest rest] |];
      try (exists []; split; [reflexivity | constructor]).
    eexists. split; [reflexivity |].
    apply Forall_app. split;
      [apply airLevelAlerts_invariant | apply airTrendAlerts_invariant]. }
  assert (Hwater :
    exists l, match waterSecurity data with
              | Some ((_ :: _) as l) =>
                  analyzeWaterSecurity waterCompletion thresholds l data
              | _ => Some []
              end = Some l /\ Forall alert_invariant l).
  { destruct (waterSecurity data) as [[| latest rest] |];
      try (exists []; split; [reflexivity | constructor]).
    eexists. split; [reflexivity |].
    apply Forall_app. split;
      [apply waterStressAlerts_invariant | apply floodRiskAlerts_invariant]. }
  assert (Hgreen :
    exists l, match greenSpace data with
              | Some ((_ :: _) as l) =>
                  analyzeGreenSpace greenCompletion thresholds l data
              | _ => Some []
              end = Some l /\ Forall alert_invariant l).
  { destruct (greenSpace data) as [[| latest rest] |] eqn:Eg;
      try (exists []; split; [reflexivity | constructor]).
    eexists. split; [reflexivity |].
    apply greenAlerts_invariant.
    specialize (Hwf _ eq_refl). simpl in Hwf.
    apply andb_true_iff in Hwf. apply Hwf. }
  destruct Hair as (la & -> & Ha), Hwater as (lw & -> & Hw),
    Hgreen as (lg & -> & Hg).
  eexists. split; [reflexivity |].
  apply Forall_app. split; [exact Ha |].
  apply Forall_app. split; assumption.
Qed.

End Evaluator.


(* ================================================================== *)
(** * The alert evaluator, continued *)
(* ================================================================== *)

Section EvaluatorFurther.
Import AlertService.

Variable airCompletion : AirQualityData.t -> string -> option Json.
Variable waterCompletion : WaterSecurityData.t -> string -> option Json.
Variable greenCompletion : GreenSpaceData.t -> string -> option Json.

(** ** Air quality *)

(** X11: The air-quality analysis in full.  On an empty array it raises:
    it reads the AQI of [airData[0]], which is undefined.  On every
    other array it returns, and its alerts are: for the level of the
    latest AQI the danger alert from 150, the warning alert from 100 and
    nothing below (or for NaN); then the rapid deterioration warning
    exactly when there is a previous reading and the AQI rose by more
    than 50. *)
Theorem analyzeAirQuality_rules (context : EnvironmentalData) :
  analyzeAirQuality airCompletion thresholds [] context = None
  /\ forall (latest : AirQualityData.t) (rest : list AirQualityData.t),
      let aqi := AirQualityData.aqi latest in
      let level :=
        if Js.ge aqi (Js.int 150)
        then [("danger", "Unhealthy Air Quality Detected")]
        else if Js.ge aqi (Js.int 100)
             then [("warning", "Moderate Air Quality Alert")]
             else [] in
      let trend :=
        match rest with
        | previous :: _ =>
            if Js.gt (Js.sub aqi (AirQualityData.aqi previous)) (Js.int 50)
            then [("warning", "Rapid Air Quality Deterioration")]
            else []
        | [] => []
        end in
      option_map headlines
        (analyzeAirQuality airCompletion thresholds (latest :: rest) context)
      = Some (level ++ trend).
Proof.
  split; [reflexivity |]. intros latest rest.
  unfold analyzeAirQuality, airLevelAlerts, airTrendAlerts, headlines.
  cbn [option_map]. rewrite map_app. f_equal. f_equal.
  - change (danger (th_airQuality thresholds)) with (Js.int 150).
    change (warning (th_airQuality thresholds)) with (Js.int 100).
    split_ifs; reflexivity.
  - destruct rest as [| previous more]; [reflexivity |].
    split_ifs; reflexivity.
Qed.

(** X12: A NaN AQI raises no air-quality alert, whatever the other readings. *)
Theorem NaN_aqi_is_silent (latest : AirQualityData.t)
  (rest : list AirQualityData.t) (context : EnvironmentalData) :
  AirQualityData.aqi latest = Js.NaN ->
  analyzeAirQuality airCompletion thresholds (latest :: rest) context
  = Some [].
Proof.
  intros H. unfold analyzeAirQuality, airLevelAlerts, airTrendAlerts.
  rewrite H. destruct rest; reflexivity.
Qed.

(** ** Water security *)

Lemma ge_truthy (x t : number) :
  Js.lt (Js.int 0) t = true -> Js.ge x t = true -> Js.truthy x = true.
Proof.
  intros Ht Hx. unfold Js.ge in Hx.
  assert (H := lt_le_trans _ _ _ Ht Hx).
  destruct x as [s | s | | s m e]; try reflexivity; discriminate.
Qed.

(** X13: The water analysis in full.  On an empty array it raises: it
    reads the stress level of [waterData[0]], which is undefined.  On
    every other array it returns, and the stress rule (danger from 80,
    warning from 60) and the flood rule (danger from 70, warning from
    40) each add their alert independently; a missing flood risk adds
    none, and the truthiness test on the flood risk never hides an
    alert. *)
Theorem analyzeWaterSecurity_rules (context : EnvironmentalData) :
  analyzeWaterSecurity waterCompletion thresholds [] context = None
  /\ forall (latest : WaterSecurityData.t) (more : list WaterSecurityData.t),
      let stress := WaterSecurityData.waterStressLevel latest in
      let stressPart :=
        if Js.ge stress (Js.int 80)
        then [("danger", "Critical Water Stress Level")]
        else if Js.ge stress (Js.int 60)
             then [("warning", "Elevated Water Stress")]
             else [] in
      let floodPart :=
        match WaterSecurityData.floodRisk latest with
        | Some floodRisk =>
            if Js.ge floodRisk (Js.int 70)
            then [("danger", "High Flood Risk Alert")]
            else if Js.ge floodRisk (Js.int 40)
                 then [("warning", "Moderate Flood Risk")]
                 else []
        | None => []
        end in
      option_map headlines
        (analyzeWaterSecurity waterCompletion thresholds (latest :: more)
           context)
      = Some (stressPart ++ floodPart).
Proof.
  split; [reflexivity |]. intros latest more.
  unfold analyzeWaterSecurity, waterStressAlerts, floodRiskAlerts, headlines.
  cbn [option_map]. rewrite map_app. f_equal. f_equal.
  - change (danger (th_waterSecurity thresholds)) with (Js.int 80).
    change (warning (th_waterSecurity thresholds)) with (Js.int 60).
    split_ifs; reflexivity.
  - destruct (WaterSecurityData.floodRisk latest) as [floodRisk |];
      [| reflexivity].
    change (danger (th_floodRisk thresholds)) with (Js.int 70).
    change (warning (th_floodRisk thresholds)) with (Js.int 40).
    destruct (Js.ge floodRisk (Js.int 70)) eqn:H70.
    + rewrite (ge_truthy floodRisk (Js.int 70) eq_refl H70). reflexivity.
    + rewrite andb_false_r.
      destruct (Js.ge floodRisk (Js.int 40)) eqn:H40.
      * rewrite (ge_truthy floodRisk (Js.int 40) eq_refl H40). reflexivity.
      * rewrite andb_false_r. reflexivity.
Qed.

(** ** All categories *)

Lemma analyzed_cases {A : Type}
  (analyze : list A -> EnvironmentalData -> option (list Alert))
  (readings : option (list A)) (data : EnvironmentalData) :
  (forall latest rest, exists l, analyze (latest :: rest) data = Some l) ->
  exists l,
    analyzed analyze readings data = Some l
    /\ (l = []
        \/ exists latest rest,
            readings = Some (latest :: rest)
            /\ analyze (latest :: rest) data = Some l).
Proof.
  intros Htotal. unfold analyzed.
  destruct readings as [[| latest rest] |].
  - exists []. auto.
  - destruct (Htotal latest rest) as (l & Hl). exists l.
    split; [exact Hl |]. right. exists latest, rest. auto.
  - exists []. auto.
Qed.

(** X14: [generateAlerts] returns at most five alerts, grouped by category
    in the order air quality (at most two), water security (at most two) and
    green space (at most one). *)
Theorem generateAlerts_at_most_five (data : EnvironmentalData) :
  exists (alerts : list Alert) (n1 n2 n3 : nat),
    generateAlerts airCompletion waterCompletion greenCompletion thresholds
      data = Some alerts
    /\ map InsertEnvironmentalAlert.category alerts
       = repeat "air_quality" n1 ++ repeat "water_security" n2
         ++ repeat "green_space" n3
    /\ (n1 <= 2)%nat /\ (n2 <= 2)%nat /\ (n3 <= 1)%nat
    /\ (List.length alerts <= 5)%nat.
Proof.
  unfold generateAlerts.
  destruct (analyzed_cases (analyzeAirQuality airCompletion thresholds)
              (airQuality data) data) as (la & -> & Ha).
  { intros latest rest. eexists. reflexivity. }
  destruct (analyzed_cases (analyzeWaterSecurity waterCompletion thresholds)
              (waterSecurity data) data) as (lw & -> & Hw).
  { intros latest rest. eexists. reflexivity. }
  destruct (analyzed_cases (analyzeGreenSpace greenCompletion thresholds)
              (greenSpace data) data) as (lg & -> & Hg).
  { intros latest rest. eexists. reflexivity. }
  assert (Ea : exists n, map InsertEnvironmentalAlert.category la
                         = repeat "air_quality" n /\ (n <= 2)%nat).
  { destruct Ha as [-> | (latest & rest & _ & E)]; [exists 0%nat; auto |].
    injection E as <-.
    unfold airLevelAlerts, airTrendAlerts.
    destruct rest as [| previous more]; split_ifs;
      (exists 2%nat; split; [reflexivity | lia])
      || (exists 1%nat; split; [reflexivity | lia])
      || (exists 0%nat; split; [reflexivity | lia]). }
  assert (Ew : exists n, map InsertEnvironmentalAlert.category lw
                         = repeat "water_security" n /\ (n <= 2)%nat).
  { destruct Hw as [-> | (latest & rest & _ & E)]; [exists 0%nat; auto |].
    injection E as <-.
    unfold waterStressAlerts, floodRiskAlerts.
    destruct (WaterSecurityData.floodRisk latest); split_ifs;
      (exists 2%nat; split; [reflexivity | lia])
      || (exists 1%nat; split; [reflexivity | lia])
      || (exists 0%nat; split; [reflexivity | lia]). }
  assert (Eg : exists n, map InsertEnvironmentalAlert.category lg
                         = repeat "green_space" n /\ (n <= 1)%nat).
  { destruct Hg as [-> | (latest & rest & _ & E)]; [exists 0%nat; auto |].
    injection E as <-.
    unfold greenAlerts. split_ifs;
      (exists 1%nat; split; [reflexivity | lia])
      || (exists 0%nat; split; [reflexivity | lia]). }
  destruct Ea as (n1 & Ea & H1), Ew as (n2 & Ew & H2), Eg as (n3 & Eg & H3).
  exists (la ++ lw ++ lg), n1, n2, n3.
  split; [reflexivity |].
  split.
  { rewrite !map_app. f_equal; [exact Ea |]. f_equal; [exact Ew | exact Eg]. }
  repeat (split; [assumption |]).
  apply (f_equal (@List.length string)) in Ea, Ew, Eg.
  rewrite length_map, repeat_length in Ea, Ew, Eg.
  rewrite !length_app. unfold Alert in *. lia.
Qed.

End EvaluatorFurther.

Section CompletionIndependence.
Import AlertService.

Lemma airLevelAlerts_stripped
  (air air' : AirQualityData.t -> string -> option Json)
  (th : AlertThresholds) (latest : AirQualityData.t)
  (context : EnvironmentalData) :
  map withoutRecommendations (airLevelAlerts air th latest context)
  = map withoutRecommendations (airLevelAlerts air' th latest context).
Proof. unfold airLevelAlerts. split_ifs; reflexivity. Qed.

Lemma waterStressAlerts_stripped
  (water water' : WaterSecurityData.t -> string -> option Json)
  (th : AlertThresholds) (latest : WaterSecurityData.t)
  (context : EnvironmentalData) :
  map withoutRecommendations (waterStressAlerts water th latest context)
  = map withoutRecommendations (waterStressAlerts water' th latest context).
Proof. unfold waterStressAlerts. split_ifs; reflexivity. Qed.

Lemma greenAlerts_stripped
  (green green' : GreenSpaceData.t -> string -> option Json)
  (th : AlertThresholds) (latest : GreenSpaceData.t)
  (context : EnvironmentalData) :
  map withoutRecommendations (greenAlerts green th latest context)
  = map withoutRecommendations (greenAlerts green' th latest context).
Proof. unfold greenAlerts. split_ifs; reflexivity. Qed.

(** X15: Which alerts are raised, and every field of them but the
    recommendations payload, do not depend on the remote text generation: a
    failing or misbehaving service changes nothing else. *)
Theorem alerts_independent_of_completions
  (air air' : AirQualityData.t -> string -> option Json)
  (water water' : WaterSecurityData.t -> string -> option Json)
  (green green' : GreenSpaceData.t -> string -> option Json)
  (th : AlertThresholds) (data : EnvironmentalData) :
  option_map (map withoutRecommendations)
    (generateAlerts air water green th data)
  = option_map (map withoutRecommendations)
      (generateAlerts air' water' green' th data).
Proof.
  unfold generateAlerts, analyzed.
  assert (Ha : forall l,
    option_map (map withoutRecommendations) (analyzeAirQuality air th l data)
    = option_map (map withoutRecommendations)
        (analyzeAirQuality air' th l data)).
  { intros [| a ra]; [reflexivity |]. simpl. rewrite !map_app.
    rewrite (airLevelAlerts_stripped air air'). reflexivity. }
  assert (Hw : forall l,
    option_map (map withoutRecommendations)
      (analyzeWaterSecurity water th l data)
    = option_map (map withoutRecommendations)
        (analyzeWaterSecurity water' th l data)).
  { intros [| w rw]; [reflexivity |]. simpl. rewrite !map_app.
    rewrite (waterStressAlerts_stripped water water'). reflexivity. }
  assert (Hg : forall l,
    option_map (map withoutRecommendations)
      (analyzeGreenSpace green th l data)
    = option_map (map withoutRecommendations)
        (analyzeGreenSpace green' th l data)).
  { intros [| g rg]; [reflexivity |]. simpl.
    rewrite (greenAlerts_stripped green green'). reflexivity. }
  set (xa := match airQuality data with
             | Some ((_ :: _) as l) => analyzeAirQuality air th l data
             | _ => Some []
             end).
  set (xa' := match airQuality data with
              | Some ((_ :: _) as l) => analyzeAirQuality air' th l data
              | _ => Some []
              end).
  set (xw := match waterSecurity data with
             | Some ((_ :: _) as l) => analyzeWaterSecurity water th l data
             | _ => Some []
             end).
  set (xw' := match waterSecurity data with
              | Some ((_ :: _) as l) => analyzeWaterSecurity water' th l data
              | _ => Some []
              end).
  set (xg := match greenSpace data with
             | Some ((_ :: _) as l) => analyzeGreenSpace green th l data
             | _ => Some []
             end).
  set (xg' := match greenSpace data with
              | Some ((_ :: _) as l) => analyzeGreenSpace green' th l data
              | _ => Some []
              end).
  assert (Ea : option_map (map withoutRecommendations) xa
               = option_map (map withoutRecommendations) xa').
  { subst xa xa'. destruct (airQuality data) as [[| a ra] |];
      try reflexivity. apply Ha. }
  assert (Ew : option_map (map withoutRecommendations) xw
               = option_map (map withoutRecommendations) xw').
  { subst xw xw'. destruct (waterSecurity data) as [[| w rw] |];
      try reflexivity. apply Hw. }
  assert (Eg : option_map (map withoutRecommendations) xg
               = option_map (map withoutRecommendations) xg').
  { subst xg xg'. destruct (greenSpace data) as [[| g rg] |];
      try reflexivity. apply Hg. }
  clearbody xa xa' xw xw' xg xg'.
  destruct xa, xa'; try discriminate;
    destruct xw, xw'; try discriminate;
    destruct xg, xg'; try discriminate; try reflexivity.
  cbn [option_map] in *.
  injection Ea as Ea. injection Ew as Ew. injection Eg as Eg.
  rewrite !map_app. f_equal.
  f_equal; [exact Ea |]. f_equal; [exact Ew | exact Eg].
Qed.

End CompletionIndependence.

(* ================================================================== *)
(** * The storage queries *)

(* ================================================================== *)
(** * The storage queries *)
(* ================================================================== *)

Section QueryFacts.
Import Storage.

Context {Row : Type}.
Variable column : Row -> Date.

Lemma insert_desc_perm (row : Row) (rows : list Row) :
  Permutation (insert_desc column row rows) (row :: rows).
Proof.
  induction rows as [| r rest IH]; simpl.
  - apply Permutation_refl.
  - destruct (column r <=? column row).
    + apply Permutation_refl.
    + apply perm_trans with (r :: row :: rest).
      * apply perm_skip. exact IH.
      * apply perm_swap.
Qed.

Lemma orderBy_desc_perm (rows : list Row) :
  Permutation (orderBy_desc column rows) rows.
Proof.
  induction rows as [| r rest IH]; simpl.
  - apply perm_nil.
  - apply perm_trans with (r :: orderBy_desc column rest).
    + apply insert_desc_perm.
    + apply perm_skip. exact IH.
Qed.

Lemma insert_desc_sorted (row : Row) (rows : list Row) :
  descending column rows -> descending column (insert_desc column row rows).
Proof.
  unfold descending.
  induction rows as [| r rest IH]; simpl; intros Hs.
  - constructor; [constructor | constructor].
  - inversion Hs as [| r' rest' Hrest Hall]; subst.
    destruct (column r <=? column row) eqn:Hc.
    + apply Z.leb_le in Hc.
      constructor; [exact Hs |].
      constructor; [exact Hc |].
      eapply Forall_impl; [| exact Hall].
      simpl. intros b Hb. lia.
    + apply Z.leb_gt in Hc.
      constructor; [apply IH; exact Hrest |].
      apply (Permutation_Forall (Permutation_sym (insert_desc_perm row rest))).
      constructor; [lia | exact Hall].
Qed.

Lemma orderBy_desc_sorted (rows : list Row) :
  descending column (orderBy_desc column rows).
Proof.
  induction rows as [| r rest IH]; simpl.
  - constructor.
  - apply insert_desc_sorted. exact IH.
Qed.

(** The rows of a table that satisfy a condition, latest first: each
    as often as the table has it. *)
Lemma sorted_rows_spec (table : list Row) (condition : Condition) :
  let result := orderBy_desc column (filter condition table) in
  Permutation result (filter condition table)
  /\ descending column result
  /\ (forall row, In row result <-> In row table /\ condition row = true).
Proof.
  split; [| split].
  - apply orderBy_desc_perm.
  - apply orderBy_desc_sorted.
  - intros row. rewrite <- filter_In. split; intros H.
    + eapply Permutation_in; [apply orderBy_desc_perm | exact H].
    + eapply Permutation_in;
        [apply Permutation_sym, orderBy_desc_perm | exact H].
Qed.

End QueryFacts.

Section StorageProperties.
Import Storage.

(** A location query raises exactly when a bound of its box is out of
    the range of [real]; otherwise it sorts the rows of the box. *)
Lemma box_query_eq {Row : Type} (latitude longitude : Row -> number)
  (timestamp : Row -> Date) (lat lon radius : number) (table : list Row) :
  select_where_orderBy_desc table
    (and_ [gte latitude (Js.sub lat radius);
           lte latitude (Js.add lat radius);
           gte longitude (Js.sub lon radius);
           lte longitude (Js.add lon radius)])
    timestamp
  = option_map
      (fun box =>
         orderBy_desc timestamp
           (filter (fun row => inRealBox box (latitude row) (longitude row))
                   table))
      (realBox lat lon radius).
Proof.
  unfold select_where_orderBy_desc, realBox, gte, lte, option_bind.
  destruct (Pg.real (Js.sub lat radius)) as [s |]; [| reflexivity].
  destruct (Pg.real (Js.add lat radius)) as [n |]; [| reflexivity].
  destruct (Pg.real (Js.sub lon radius)) as [w |]; [| reflexivity].
  destruct (Pg.real (Js.add lon radius)) as [e |]; [| reflexivity].
  cbn [and_ option_map]. f_equal. f_equal. apply filter_ext. intros row.
  unfold inRealBox. cbn [south north west east].
  rewrite andb_true_r, !andb_assoc. reflexivity.
Qed.

(** With bounds that are numbers, the order of [real] selects the rows
    that the comparisons of the program select. *)
Lemma column_le_between (lo hi x : number) :
  Js.isNaN lo = false -> Js.isNaN hi = false ->
  column_le lo x && column_le x hi = Js.le lo x && Js.le x hi.
Proof.
  intros Hlo Hhi. unfold column_le. rewrite Hhi.
  destruct (Js.isNaN x) eqn:Hx.
  - rewrite andb_false_r. destruct x; try discriminate.
    destruct lo; reflexivity.
  - rewrite Hlo. reflexivity.
Qed.

(** C9: [getAirQualityDataByLocation(lat, lon, radius)] raises when a
    bound of the box is out of the range of [real]; otherwise it returns
    exactly the stored rows whose latitude and longitude lie, in the
    order of [real], between the bounds [lat - radius], [lat + radius],
    [lon - radius] and [lon + radius] cast to [real], in descending
    order of timestamp.  For lat = 10, lon = 10 and radius = 0.1 the
    cast bounds are 9.9 and 10.1 and the rows are those with latitude
    and longitude in [9.9, 10.1]. *)
Theorem C9_bounding_box_query (db : Database) :
  (forall lat lon radius : number,
      match realBox lat lon radius with
      | None => getAirQualityDataByLocation lat lon (Some radius) db = None
      | Some box =>
          exists result,
            getAirQualityDataByLocation lat lon (Some radius) db
            = Some result
            /\ Permutation result
                 (filter
                    (fun row =>
                       inRealBox box (AirQualityData.latitude row)
                                 (AirQualityData.longitude row))
                    (airQualityData db))
            /\ descending AirQualityData.timestamp result
      end)
  /\ (exists result,
         getAirQualityDataByLocation (Js.int 10) (Js.int 10)
           (Some (Js.dec 1 1)) db = Some result
         /\ descending AirQualityData.timestamp result
         /\ forall row : AirQualityData.t,
             In row result
             <-> In row (airQualityData db)
                 /\ Js.le (Js.dec 99 1) (AirQualityData.latitude row) = true
                 /\ Js.le (AirQualityData.latitude row) (Js.dec 101 1) = true
                 /\ Js.le (Js.dec 99 1) (AirQualityData.longitude row) = true
                 /\ Js.le (AirQualityData.longitude row) (Js.dec 101 1)
                    = true).
Proof.
  split.
  - intros lat lon radius.
    unfold getAirQualityDataByLocation, radius_or_default.
    rewrite box_query_eq.
    destruct (realBox lat lon radius) as [box |]; [| reflexivity].
    cbn [option_map]. eexists. split; [reflexivity |].
    match goal with
    | |- context [orderBy_desc ?col (filter ?c ?t)] =>
        destruct (sorted_rows_spec col t c) as (Hp & Hs & _)
    end.
    split; [exact Hp | exact Hs].
  - unfold getAirQualityDataByLocation, radius_or_default.
    rewrite box_query_eq.
    assert (E : realBox (Js.int 10) (Js.int 10) (Js.dec 1 1)
                = Some (mkBox (Js.dec 99 1) (Js.dec 101 1)
                              (Js.dec 99 1) (Js.dec 101 1)))
      by (vm_compute; reflexivity).
    rewrite E. cbn [option_map]. eexists. split; [reflexivity |].
    match goal with
    | |- context [orderBy_desc ?col (filter ?c ?t)] =>
        destruct (sorted_rows_spec col t c) as (_ & Hs & Hin)
    end.
    split; [exact Hs |].
    intros row. rewrite Hin. unfold inRealBox. cbn [south north west east].
    rewrite !column_le_between by reflexivity.
    rewrite !andb_true_iff. tauto.
Qed.

(** C9, the claim as first stated: around latitude 10.00000001 with
    radius 0.1 the query returns a row of latitude 9.9, which is below
    lat - radius = 9.90000001; the database compares with the bound in
    single precision, where it is 9.9. *)
Lemma C9_counterexample :
  let lat := Js.dec 1000000001 8 in
  let lon := Js.int 10 in
  let radius := Js.dec 1 1 in
  exists row,
    getAirQualityDataByLocation lat lon (Some radius) boundaryDatabase
    = Some [row]
    /\ In row (airQualityData boundaryDatabase)
    /\ AirQualityData.latitude row = Js.dec 99 1
    /\ Js.le (Js.sub lat radius) (AirQualityData.latitude row) = false
    /\ inBox lat lon radius (AirQualityData.latitude row)
             (AirQualityData.longitude row) = false.
Proof.
  eexists. split; [vm_compute; reflexivity |].
  split; [left; reflexivity |].
  split; [reflexivity |].
  split; vm_compute; reflexivity.
Qed.

End StorageProperties.

(* ================================================================== *)
(** * The routes *)
(* ================================================================== *)

Section RouteProperties.
Import Storage Routes.

(** C8: whatever the alert id, the dismiss handler answers with success
    and leaves the database, its alerts included, as it was: no update
    reaches the storage. *)
Theorem C8_dismiss_is_a_stub (id : string) (db : Database) :
  let (response, db') := patchDismissAlert id db in
  status response = 200
  /\ body response = DismissBody true "Alert dismissed"
  /\ db' = db
  /\ environmentalAlerts db' = environmentalAlerts db.
Proof.
  simpl. repeat split.
Qed.





(** The recent readings: the query raises when the box of the default
    radius has a bound out of range, and otherwise filters the sorted
    rows of the box by the cutoff. *)
Lemma getRecentEnvironmentalData_eq (hoursBefore : Date -> Z -> Date)
  (now : Date) (lat lon : number) (hours : option Z) (db : Database) :
  getRecentEnvironmentalData hoursBefore now lat lon hours db
  = (option_map
       (fun box =>
          let cutoff :=
            hoursBefore now (match hours with Some h => h | None => 24 end) in
          {| recentAirQuality :=
               filter (fun d => cutoff <=? AirQualityData.timestamp d)
                 (orderBy_desc AirQualityData.timestamp
                    (filter (fun row =>
                               inRealBox box (AirQualityData.latitude row)
                                         (AirQualityData.longitude row))
                            (airQualityData db)));
             recentWaterSecurity :=
               filter (fun d => cutoff <=? WaterSecurityData.timestamp d)
                 (orderBy_desc WaterSecurityData.timestamp
                    (filter (fun row =>
                               inRealBox box (WaterSecurityData.latitude row)
                                         (WaterSecurityData.longitude row))
                            (waterSecurityData db)));
             recentGreenSpace :=
               filter (fun d => cutoff <=? GreenSpaceData.timestamp d)
                 (orderBy_desc GreenSpaceData.timestamp
                    (filter (fun row =>
                               inRealBox box (GreenSpaceData.latitude row)
                                         (GreenSpaceData.longitude row))
                            (greenSpaceData db))) |})
       (realBox lat lon defaultRadius),
     db).
Proof.
  unfold getRecentEnvironmentalData, tryQuery.
  unfold getAirQualityDataByLocation, getWaterSecurityDataByLocation,
    getGreenSpaceDataByLocation, radius_or_default.
  rewrite !box_query_eq.
  destruct (realBox lat lon defaultRadius); reflexivity.
Qed.




Section Livability.

Variable parseFloat : string -> number.
Variable hoursBefore : Date -> Z -> Date.


End Livability.

End RouteProperties.

(* ================================================================== *)
(** * The storage, continued *)
(* ================================================================== *)

Section StorageFurther.
Import Storage.

(** ** Lists *)

Lemma filter_perm {A : Type} (p : A -> bool) (l l' : list A) :
  Permutation l l' -> Permutation (filter p l) (filter p l').
Proof.
  intros H. induction H as [| x l l' H IH | x y l | l l' l'' H1 IH1 H2 IH2];
    simpl.
  - constructor.
  - destruct (p x); [apply perm_skip |]; exact IH.
  - destruct (p x), (p y); try apply Permutation_refl. apply perm_swap.
  - eapply perm_trans; eassumption.
Qed.

Lemma filter_and {A : Type} (p q : A -> bool) (l : list A) :
  filter q (filter p l) = filter (fun x => p x && q x) l.
Proof.
  induction l as [| x l IH]; simpl; [reflexivity |].
  destruct (p x); simpl; [destruct (q x) |]; rewrite IH; reflexivity.
Qed.

Lemma filter_sorted {A : Type} (R : A -> A -> Prop) (p : A -> bool)
  (l : list A) :
  StronglySorted R l -> StronglySorted R (filter p l).
Proof.
  intros H. induction H as [| x l Hl IH Hall]; simpl.
  - constructor.
  - destruct (p x); [| exact IH].
    constructor; [exact IH |].
    apply Forall_forall. intros y Hy. apply filter_In in Hy.
    rewrite Forall_forall in Hall. apply Hall, Hy.
Qed.

Lemma sorted_impl {A : Type} (R R' : A -> A -> Prop) (l : list A) :
  (forall a b, R a b -> R' a b) ->
  StronglySorted R l -> StronglySorted R' l.
Proof.
  intros HR H. induction H as [| x l Hl IH Hall]; constructor.
  - exact IH.
  - eapply Forall_impl; [| exact Hall]. apply HR.
Qed.

(** The first row of a descending list has the latest timestamp. *)
Lemma descending_head {Row : Type} (column : Row -> Date) (l : list Row)
  (first : Row) :
  descending column l -> hd_error l = Some first ->
  forall row, In row l -> column row <= column first.
Proof.
  intros Hs Hh row Hin. destruct l as [| x rest]; [discriminate |].
  injection Hh as ->. inversion Hs as [| ? ? _ Hall]; subst.
  destruct Hin as [-> | Hin]; [lia |].
  rewrite Forall_forall in Hall. apply Hall, Hin.
Qed.

(** ** Location queries on the other tables *)

(** X16: The water-security and green-space queries raise when a bound
    of the box is out of the range of [real]; otherwise each returns
    exactly the rows of its table inside the box of the cast bounds,
    latest first. *)
Theorem water_and_green_bounding_box (db : Database)
  (lat lon radius : number) :
  match realBox lat lon radius with
  | None =>
      getWaterSecurityDataByLocation lat lon (Some radius) db = None
      /\ getGreenSpaceDataByLocation lat lon (Some radius) db = None
  | Some box =>
      (exists result,
          getWaterSecurityDataByLocation lat lon (Some radius) db
          = Some result
          /\ Permutation result
               (filter (fun row =>
                          inRealBox box (WaterSecurityData.latitude row)
                                    (WaterSecurityData.longitude row))
                       (waterSecurityData db))
          /\ descending WaterSecurityData.timestamp result)
      /\ (exists result,
             getGreenSpaceDataByLocation lat lon (Some radius) db
             = Some result
             /\ Permutation result
                  (filter (fun row =>
                             inRealBox box (GreenSpaceData.latitude row)
                                       (GreenSpaceData.longitude row))
                          (greenSpaceData db))
             /\ descending GreenSpaceData.timestamp result)
  end.
Proof.
  unfold getWaterSecurityDataByLocation, getGreenSpaceDataByLocation,
    radius_or_default.
  rewrite !box_query_eq.
  destruct (realBox lat lon radius) as [box |]; cbn [option_map];
    [| split; reflexivity].
  split; eexists; (split; [reflexivity |]).
  - match goal with
    | |- context [orderBy_desc ?col (filter ?c ?t)] =>
        destruct (sorted_rows_spec col t c) as (Hp & Hs & _)
    end.
    split; [exact Hp | exact Hs].
  - match goal with
    | |- context [orderBy_desc ?col (filter ?c ?t)] =>
        destruct (sorted_rows_spec col t c) as (Hp & Hs & _)
    end.
    split; [exact Hp | exact Hs].
Qed.

(** ** Recent readings *)

Lemma recent_list {Row : Type} (latitude longitude : Row -> number)
  (timestamp : Row -> Date) (box : Box) (cutoff : Date)
  (table : list Row) :
  let result :=
    filter (fun d => cutoff <=? timestamp d)
      (orderBy_desc timestamp
         (filter (fun row => inRealBox box (latitude row) (longitude row))
                 table)) in
  Permutation result (recentIn latitude longitude timestamp box cutoff table)
  /\ descending timestamp result.
Proof.
  match goal with
  | |- context [orderBy_desc ?col (filter ?c ?t)] =>
      destruct (sorted_rows_spec col t c) as (Hp & Hs & _)
  end.
  split.
  - eapply perm_trans; [apply filter_perm; exact Hp |].
    rewrite filter_and. apply Permutation_refl.
  - apply filter_sorted. exact Hs.
Qed.

(** X17: [getRecentEnvironmentalData] only reads.  It raises when a
    bound of the box of 0.1 degree around the point is out of the range
    of [real]; otherwise it returns, for each category and latest
    first, exactly the readings of the box that are not older than the
    cutoff. *)
Theorem recent_data_spec (hoursBefore : Date -> Z -> Date) (now : Date)
  (lat lon : number) (hours : option Z) (db : Database) :
  let cutoff :=
    hoursBefore now (match hours with Some h => h | None => 24 end) in
  let (answer, db') :=
    getRecentEnvironmentalData hoursBefore now lat lon hours db in
  db' = db
  /\ match realBox lat lon defaultRadius with
     | None => answer = None
     | Some box =>
         exists recent,
           answer = Some recent
           /\ Permutation (recentAirQuality recent)
                (recentIn AirQualityData.latitude AirQualityData.longitude
                   AirQualityData.timestamp box cutoff (airQualityData db))
           /\ descending AirQualityData.timestamp (recentAirQuality recent)
           /\ Permutation (recentWaterSecurity recent)
                (recentIn WaterSecurityData.latitude
                   WaterSecurityData.longitude WaterSecurityData.timestamp
                   box cutoff (waterSecurityData db))
           /\ descending WaterSecurityData.timestamp
                (recentWaterSecurity recent)
           /\ Permutation (recentGreenSpace recent)
                (recentIn GreenSpaceData.latitude GreenSpaceData.longitude
                   GreenSpaceData.timestamp box cutoff (greenSpaceData db))
           /\ descending GreenSpaceData.timestamp (recentGreenSpace recent)
     end.
Proof.
  cbv zeta. rewrite getRecentEnvironmentalData_eq.
  split; [reflexivity |].
  destruct (realBox lat lon defaultRadius) as [box |]; cbn [option_map];
    [| reflexivity].
  eexists. split; [reflexivity |].
  cbn [recentAirQuality recentWaterSecurity recentGreenSpace].
  repeat split; apply recent_list.
Qed.

(** ** The latest livability score of a location *)

Lemma getLivabilityScoreByLocation_eq (lat lon : number) (db : Database) :
  getLivabilityScoreByLocation lat lon db
  = option_map
      (fun box =>
         hd_error
           (orderBy_desc LiveabilityScore.timestamp
              (filter (fun s => inRealBox box (scoreLatitude s)
                                          (scoreLongitude s))
                      (livabilityScores db))))
      (realBox lat lon scoreRadius).
Proof.
  unfold getLivabilityScoreByLocation.
  rewrite (box_query_eq scoreLatitude scoreLongitude).
  destruct (realBox lat lon scoreRadius); cbn [option_map]; [| reflexivity].
  f_equal. destruct (orderBy_desc _ _); reflexivity.
Qed.

(** X18: [getLivabilityScoreByLocation] raises when a bound of the box
    of 0.01 degree around the point is out of the range of [real].
    Otherwise it answers nothing exactly when no score is stored in the
    box, and else a stored score of the box with the latest
    timestamp. *)
Theorem latest_score_spec (lat lon : number) (db : Database) :
  match realBox lat lon scoreRadius with
  | None => getLivabilityScoreByLocation lat lon db = None
  | Some box =>
      exists answer,
        getLivabilityScoreByLocation lat lon db = Some answer
        /\ match answer with
           | None =>
               forall s, In s (livabilityScores db) ->
                 inRealBox box (scoreLatitude s) (scoreLongitude s) = false
           | Some score =>
               In score (livabilityScores db)
               /\ inRealBox box (scoreLatitude score) (scoreLongitude score)
                  = true
               /\ forall s, In s (livabilityScores db) ->
                    inRealBox box (scoreLatitude s) (scoreLongitude s)
                    = true ->
                    LiveabilityScore.timestamp s
                    <= LiveabilityScore.timestamp score
           end
  end.
Proof.
  rewrite getLivabilityScoreByLocation_eq.
  destruct (realBox lat lon scoreRadius) as [box |]; cbn [option_map];
    [| reflexivity].
  eexists. split; [reflexivity |].
  match goal with
  | |- context [orderBy_desc ?col (filter ?c ?t)] =>
      destruct (sorted_rows_spec col t c) as (_ & Hs & Hbox);
      set (rows := orderBy_desc col (filter c t)) in *
  end.
  destruct rows as [| first rest] eqn:E; cbn [hd_error].
  - intros s Hs'.
    destruct (inRealBox box (scoreLatitude s) (scoreLongitude s))
      eqn:Hb; [| reflexivity].
    exfalso. apply (proj2 (Hbox s)); auto.
  - destruct (proj1 (Hbox first) (or_introl eq_refl)) as (H1 & H2).
    split; [exact H1 |]. split; [exact H2 |].
    intros s Hs1 Hs2.
    apply (descending_head LiveabilityScore.timestamp (first :: rest));
      [exact Hs | reflexivity |].
    apply Hbox. auto.
Qed.

(** ** Active alerts *)

Lemma column_le_total (a b : number) :
  column_le a b = false -> column_le b a = true.
Proof.
  unfold column_le.
  destruct (Js.isNaN b) eqn:Hb; [discriminate |].
  destruct (Js.isNaN a) eqn:Ha; [reflexivity |].
  intros H. apply lt_le, le_total; assumption.
Qed.

Lemma column_le_trans (a b c : number) :
  column_le a b = true -> column_le b c = true -> column_le a c = true.
Proof.
  unfold column_le.
  destruct (Js.isNaN c) eqn:Hc; [reflexivity |].
  destruct (Js.isNaN b) eqn:Hb; [discriminate |].
  destruct (Js.isNaN a) eqn:Ha; [discriminate |].
  apply le_trans.
Qed.

Section OrderByFacts.
Context {Row : Type}.
Variable before : Row -> Row -> bool.

Lemma insert_by_perm (row : Row) (rows : list Row) :
  Permutation (insert_by before row rows) (row :: rows).
Proof.
  induction rows as [| r rest IH]; simpl.
  - apply Permutation_refl.
  - destruct (before row r).
    + apply Permutation_refl.
    + apply perm_trans with (r :: row :: rest).
      * apply perm_skip. exact IH.
      * apply perm_swap.
Qed.

Lemma orderBy_perm (rows : list Row) :
  Permutation (orderBy before rows) rows.
Proof.
  induction rows as [| r rest IH]; simpl.
  - apply perm_nil.
  - apply perm_trans with (r :: orderBy before rest).
    + apply insert_by_perm.
    + apply perm_skip. exact IH.
Qed.

Hypothesis before_total :
  forall a b, before a b = false -> before b a = true.
Hypothesis before_trans :
  forall a b c, before a b = true -> before b c = true -> before a c = true.

Lemma insert_by_sorted (row : Row) (rows : list Row) :
  StronglySorted (fun a b => before a b = true) rows ->
  StronglySorted (fun a b => before a b = true) (insert_by before row rows).
Proof.
  induction rows as [| r rest IH]; simpl; intros Hs.
  - constructor; constructor.
  - inversion Hs as [| ? ? Hrest Hall]; subst.
    destruct (before row r) eqn:Hb.
    + constructor; [exact Hs |].
      constructor; [exact Hb |].
      eapply Forall_impl; [| exact Hall].
      cbv beta. intros c Hc. apply before_trans with r; assumption.
    + constructor; [apply IH; exact Hrest |].
      apply (Permutation_Forall (Permutation_sym (insert_by_perm row rest))).
      constructor; [apply before_total; exact Hb | exact Hall].
Qed.

Lemma orderBy_sorted (rows : list Row) :
  StronglySorted (fun a b => before a b = true) (orderBy before rows).
Proof.
  induction rows as [| r rest IH]; simpl.
  - constructor.
  - apply insert_by_sorted. exact IH.
Qed.

End OrderByFacts.

Lemma severity_then_time_total (a b : EnvironmentalAlert.t) :
  severity_then_time a b = false -> severity_then_time b a = true.
Proof.
  unfold severity_then_time.
  set (sa := InsertEnvironmentalAlert.severity (EnvironmentalAlert.values a)).
  set (sb := InsertEnvironmentalAlert.severity (EnvironmentalAlert.values b)).
  destruct (column_le sa sb) eqn:E1, (column_le sb sa) eqn:E2; simpl;
    intros H; try discriminate; try reflexivity.
  apply Z.leb_gt in H. apply Z.leb_le. lia.
Qed.

Lemma severity_then_time_trans (a b c : EnvironmentalAlert.t) :
  severity_then_time a b = true -> severity_then_time b c = true ->
  severity_then_time a c = true.
Proof.
  unfold severity_then_time.
  assert (Tab := column_le_trans (alertSeverity a) (alertSeverity b)
                   (alertSeverity c)).
  assert (Tcb := column_le_trans (alertSeverity c) (alertSeverity b)
                   (alertSeverity a)).
  assert (Tac := column_le_trans (alertSeverity a) (alertSeverity c)
                   (alertSeverity b)).
  assert (Tca := column_le_trans (alertSeverity c) (alertSeverity a)
                   (alertSeverity b)).
  assert (Tba := column_le_trans (alertSeverity b) (alertSeverity a)
                   (alertSeverity c)).
  assert (Tbc := column_le_trans (alertSeverity b) (alertSeverity c)
                   (alertSeverity a)).
  assert (Oab := column_le_total (alertSeverity a) (alertSeverity b)).
  assert (Obc := column_le_total (alertSeverity b) (alertSeverity c)).
  assert (Oac := column_le_total (alertSeverity a) (alertSeverity c)).
  unfold alertSeverity in *.
  set (sa := InsertEnvironmentalAlert.severity (EnvironmentalAlert.values a))
    in *.
  set (sb := InsertEnvironmentalAlert.severity (EnvironmentalAlert.values b))
    in *.
  set (sc := InsertEnvironmentalAlert.severity (EnvironmentalAlert.values c))
    in *.
  clearbody sa sb sc.
  destruct (column_le sa sb) eqn:Eab, (column_le sb sa) eqn:Eba,
    (column_le sb sc) eqn:Ebc, (column_le sc sb) eqn:Ecb,
    (column_le sa sc) eqn:Eac, (column_le sc sa) eqn:Eca;
    simpl; intros H1 H2;
    try reflexivity; try discriminate;
    try (specialize (Tab eq_refl eq_refl); discriminate);
    try (specialize (Tcb eq_refl eq_refl); discriminate);
    try (specialize (Tac eq_refl eq_refl); discriminate);
    try (specialize (Tca eq_refl eq_refl); discriminate);
    try (specialize (Tba eq_refl eq_refl); discriminate);
    try (specialize (Tbc eq_refl eq_refl); discriminate);
    try (specialize (Oab eq_refl); discriminate);
    try (specialize (Obc eq_refl); discriminate);
    try (specialize (Oac eq_refl); discriminate).
  apply Z.leb_le in H1, H2. apply Z.leb_le. lia.
Qed.

Lemma sorted_firstn {A : Type} (R : A -> A -> Prop) (l : list A) :
  StronglySorted R l ->
  forall (n : nat) (a b : A),
    In a (firstn n l) -> In b (skipn n l) -> R a b.
Proof.
  induction 1 as [| x l Hs IH Hall]; intros n a b Ha Hb.
  - destruct n; contradiction.
  - destruct n as [| n]; [contradiction |].
    simpl in Ha, Hb. destruct Ha as [<- | Ha].
    + rewrite Forall_forall in Hall. apply Hall.
      rewrite <- (firstn_skipn n l). apply in_or_app. right. exact Hb.
    + apply (IH n); assumption.
Qed.

Lemma severity_then_time_severity (a b : EnvironmentalAlert.t) :
  severity_then_time a b = true ->
  column_le (alertSeverity b) (alertSeverity a) = true.
Proof.
  unfold severity_then_time, alertSeverity.
  assert (T := column_le_total
                 (InsertEnvironmentalAlert.severity
                    (EnvironmentalAlert.values a))
                 (InsertEnvironmentalAlert.severity
                    (EnvironmentalAlert.values b))).
  destruct (column_le _ _); simpl.
  - destruct (column_le _ _); simpl; [reflexivity | discriminate].
  - intros _. apply T. reflexivity.
Qed.

Lemma getActiveAlerts_sorted (db : Database) :
  StronglySorted (fun a b => severity_then_time a b = true)
    (getActiveAlerts db).
Proof.
  unfold getActiveAlerts.
  apply orderBy_sorted;
    [exact severity_then_time_total | exact severity_then_time_trans].
Qed.

Lemma getActiveAlerts_member (db : Database) (a : EnvironmentalAlert.t) :
  In a (getActiveAlerts db)
  <-> In a (environmentalAlerts db) /\ alertIsActive a = true.
Proof.
  unfold getActiveAlerts, alertIsActive.
  set (active := filter _ (environmentalAlerts db)).
  assert (Hp := orderBy_perm severity_then_time active).
  split; intros H.
  - apply (Permutation_in _ Hp) in H. apply filter_In in H.
    destruct H as [H1 H2]. split; [exact H1 |].
    destruct (InsertEnvironmentalAlert.isActive _); [reflexivity | discriminate].
  - apply (Permutation_in _ (Permutation_sym Hp)). apply filter_In.
    destruct H as [H1 H2]. split; [exact H1 |]. rewrite H2. reflexivity.
Qed.

(** X19: [getActiveAlerts] returns exactly the stored alerts whose active
    flag is set, the most severe first and, at equal severity, the latest
    first. *)
Theorem active_alerts_spec (db : Database) :
  let result := getActiveAlerts db in
  Permutation result
    (filter (fun a => alertIsActive a) (environmentalAlerts db))
  /\ (forall a, In a result
                <-> In a (environmentalAlerts db) /\ alertIsActive a = true)
  /\ StronglySorted
       (fun a b => column_le (alertSeverity b) (alertSeverity a) = true)
       result
  /\ StronglySorted
       (fun a b =>
          alertSeverity a = alertSeverity b ->
          EnvironmentalAlert.timestamp b <= EnvironmentalAlert.timestamp a)
       result.
Proof.
  unfold getActiveAlerts. cbv zeta.
  set (active := filter (fun a => Bool.eqb _ true) (environmentalAlerts db)).
  assert (Eactive :
    active = filter (fun a => alertIsActive a) (environmentalAlerts db)).
  { apply filter_ext. intros a. unfold alertIsActive.
    destruct (InsertEnvironmentalAlert.isActive _); reflexivity. }
  assert (Hp := orderBy_perm severity_then_time active).
  assert (Hs := orderBy_sorted severity_then_time severity_then_time_total
                  severity_then_time_trans active).
  split.
  { eapply perm_trans; [exact Hp |]. rewrite Eactive.
    apply Permutation_refl. }
  split.
  { intros a. split; intros H.
    - apply (Permutation_in _ Hp) in H. rewrite Eactive in H.
      apply filter_In in H. exact H.
    - apply (Permutation_in _ (Permutation_sym Hp)). rewrite Eactive.
      apply filter_In. exact H. }
  split.
  - eapply sorted_impl; [| exact Hs].
    intros a b. cbv beta. unfold severity_then_time, alertSeverity.
    assert (T := column_le_total
                   (InsertEnvironmentalAlert.severity
                      (EnvironmentalAlert.values a))
                   (InsertEnvironmentalAlert.severity
                      (EnvironmentalAlert.values b))).
    destruct (column_le _ _); simpl.
    + destruct (column_le _ _); simpl; [reflexivity | discriminate].
    + intros _. apply T. reflexivity.
  - eapply sorted_impl; [| exact Hs].
    intros a b. cbv beta. unfold severity_then_time, alertSeverity.
    intros H E. rewrite E in H.
    assert (R : forall x, column_le x x = true).
    { intros x. unfold column_le.
      destruct (Js.isNaN x) eqn:Hx; [reflexivity |].
      apply le_refl. exact Hx. }
    rewrite R in H. simpl in H. apply Z.leb_le. exact H.
Qed.

End StorageFurther.

(* ================================================================== *)
(** * The HTTP routes, continued *)
(* ================================================================== *)

Section RoutesFurther.
Import Storage Routes.

Lemma withAdded_nothing (db : Database) : withAdded db [] [] [] [] [] = db.
Proof.
  destruct db. unfold withAdded. simpl. rewrite !app_nil_r. reflexivity.
Qed.

Lemma withAdded_twice (db : Database)
  (a a' : list AirQualityData.t) (w w' : list WaterSecurityData.t)
  (g g' : list GreenSpaceData.t) (s s' : list LiveabilityScore.t)
  (al al' : list EnvironmentalAlert.t) :
  withAdded (withAdded db a w g s al) a' w' g' s' al'
  = withAdded db (a ++ a') (w ++ w') (g ++ g') (s ++ s') (al ++ al').
Proof.
  unfold withAdded. simpl. rewrite !app_assoc. reflexivity.
Qed.

Lemma insertAirQualityData_adds (uuid : string) (stamp : Date)
  (data : InsertAirQualityData.t) (db : Database) :
  insertAirQualityData uuid stamp data db
  = match airQualityRow uuid stamp data with
    | Some row => (Some row, withAdded db [row] [] [] [] [])
    | None => (None, db)
    end.
Proof.
  unfold insertAirQualityData, withAdded.
  destruct (airQualityRow uuid stamp data); [| reflexivity].
  rewrite !app_nil_r. reflexivity.
Qed.

Lemma insertWaterSecurityData_adds (uuid : string) (stamp : Date)
  (data : InsertWaterSecurityData.t) (db : Database) :
  insertWaterSecurityData uuid stamp data db
  = match waterSecurityRow uuid stamp data with
    | Some row => (Some row, withAdded db [] [row] [] [] [])
    | None => (None, db)
    end.
Proof.
  unfold insertWaterSecurityData, withAdded.
  destruct (waterSecurityRow uuid stamp data); [| reflexivity].
  rewrite !app_nil_r. reflexivity.
Qed.

Lemma insertGreenSpaceData_adds (uuid : string) (stamp : Date)
  (data : InsertGreenSpaceData.t) (db : Database) :
  insertGreenSpaceData uuid stamp data db
  = match greenSpaceRow uuid stamp data with
    | Some row => (Some row, withAdded db [] [] [row] [] [])
    | None => (None, db)
    end.
Proof.
  unfold insertGreenSpaceData, withAdded.
  destruct (greenSpaceRow uuid stamp data); [| reflexivity].
  rewrite !app_nil_r. reflexivity.
Qed.

Lemma insertLivabilityScore_adds (uuid : string) (stamp : Date)
  (score : InsertLivabilityScore.t) (db : Database) :
  insertLivabilityScore uuid stamp score db
  = match livabilityScoreRow uuid stamp score with
    | Some row => (Some row, withAdded db [] [] [] [row] [])
    | None => (None, db)
    end.
Proof.
  unfold insertLivabilityScore, withAdded.
  destruct (livabilityScoreRow uuid stamp score); [| reflexivity].
  rewrite !app_nil_r. reflexivity.
Qed.

Lemma insertEnvironmentalAlert_adds (uuid : string) (stamp : Date)
  (alert : InsertEnvironmentalAlert.t) (db : Database) :
  insertEnvironmentalAlert uuid stamp alert db
  = match environmentalAlertRow uuid stamp alert with
    | Some row => (Some row, withAdded db [] [] [] [] [row])
    | None => (None, db)
    end.
Proof.
  unfold insertEnvironmentalAlert, withAdded.
  destruct (environmentalAlertRow uuid stamp alert); [| reflexivity].
  rewrite !app_nil_r. reflexivity.
Qed.

(** A storing loop leaves the rows of [storedUntilFailure] in its
    table, and raises unless every item was stored. *)
Lemma storeEach_adds {Item Row : Type}
  (insert : string -> Date -> Item -> Try Row)
  (row : string -> Date -> Item -> option Row)
  (added : Database -> list Row -> Database)
  (env : Environment) :
  (forall uuid stamp item db,
      insert uuid stamp item db
      = match row uuid stamp item with
        | Some r => (Some r, added db [r])
        | None => (None, db)
        end) ->
  (forall db, added db [] = db) ->
  (forall db l l', added (added db l) l' = added db (l ++ l')) ->
  forall (items : list Item) (k : nat) (db : Database),
    storeEach insert env k items db
    = ((if snd (storedUntilFailure row env k items)
        then Some (fst (storedUntilFailure row env k items))
        else None),
       added db (fst (storedUntilFailure row env k items))).
Proof.
  intros Hinsert Hnil Happ.
  induction items as [| item more IH]; intros k db.
  - simpl. unfold succeed. rewrite Hnil. reflexivity.
  - cbn [storeEach storedUntilFailure]. unfold andThen, succeed.
    rewrite Hinsert.
    destruct (row (fst (fresh env k)) (snd (fresh env k)) item) as [r |].
    + rewrite IH.
      destruct (storedUntilFailure row env (S k) more) as [rows complete].
      cbn [fst snd]. rewrite Happ.
      destruct complete; reflexivity.
    + cbn [fst snd]. rewrite Hnil. reflexivity.
Qed.

Lemma storeAlerts_adds (env : Environment)
  (newAlerts : list InsertEnvironmentalAlert.t) :
  forall (k : nat) (db : Database),
    storeAlerts env k newAlerts db
    = ((if snd (storedUntilFailure environmentalAlertRow env k newAlerts)
        then Some (fst (storedUntilFailure environmentalAlertRow env k
                          newAlerts))
        else None),
       withAdded db [] [] [] []
         (fst (storedUntilFailure environmentalAlertRow env k newAlerts))).
Proof.
  induction newAlerts as [| alert more IH]; intros k db.
  - simpl. unfold succeed. rewrite withAdded_nothing. reflexivity.
  - cbn [storeAlerts storedUntilFailure]. unfold andThen, succeed.
    rewrite insertEnvironmentalAlert_adds.
    destruct (environmentalAlertRow (fst (fresh env k)) (snd (fresh env k))
                alert) as [r |].
    + rewrite IH.
      destruct (storedUntilFailure environmentalAlertRow env (S k) more)
        as [rows complete].
      cbn [fst snd]. rewrite withAdded_twice. cbn [app].
      destruct complete; reflexivity.
    + cbn [fst snd]. rewrite withAdded_nothing. reflexivity.
Qed.

Lemma storedUntilFailure_length {Item Row : Type}
  (row : string -> Date -> Item -> option Row) (env : Environment)
  (items : list Item) :
  forall k,
    (List.length (fst (storedUntilFailure row env k items))
     <= List.length items)%nat
    /\ (snd (storedUntilFailure row env k items) = true ->
        List.length (fst (storedUntilFailure row env k items))
        = List.length items).
Proof.
  induction items as [| item more IH]; intros k; simpl.
  - split; [lia | reflexivity].
  - destruct (row (fst (fresh env k)) (snd (fresh env k)) item).
    + specialize (IH (S k)).
      destruct (storedUntilFailure row env (S k) more) as [rows complete].
      simpl in *. destruct IH as [IH1 IH2].
      split; [lia |]. intros H. rewrite IH2 by exact H. reflexivity.
    + simpl. split; [lia | discriminate].
Qed.


(** ** Writing, then reading *)

(** The rows of a box after a row was appended to the table. *)
Lemma appended_rows {Row : Type} (timestamp : Row -> Date)
  (condition : Row -> bool) (table : list Row) (row r : Row) :
  In r (orderBy_desc timestamp (filter condition (table ++ [row])))
  <-> In r (orderBy_desc timestamp (filter condition table))
      \/ (r = row /\ condition row = true).
Proof.
  destruct (sorted_rows_spec timestamp (table ++ [row]) condition)
    as (_ & _ & H1).
  destruct (sorted_rows_spec timestamp table condition) as (_ & _ & H2).
  rewrite H1, H2, in_app_iff. simpl. split.
  - intros [[H | [<- | []]] Hc]; auto.
  - intros [[H Hc] | [-> Hc]]; auto.
Qed.

(** X20: An insertion of a reading raises, leaving the table as it was,
    when a number of the reading is out of the range of [real];
    otherwise the row holds the coordinates cast to [real], and a
    location query afterwards returns what it returned before and,
    when the row lies in the box of the query, the new row. *)
Theorem inserted_reading_is_found (uuid : string) (stamp : Date)
  (air : InsertAirQualityData.t) (water : InsertWaterSecurityData.t)
  (green : InsertGreenSpaceData.t) (lat lon radius : number)
  (db : Database) :
  match insertAirQualityData uuid stamp air db with
  | (None, db') => db' = db
  | (Some row, db') =>
      Pg.real (InsertAirQualityData.latitude air)
      = Some (AirQualityData.latitude row)
      /\ Pg.real (InsertAirQualityData.longitude air)
         = Some (AirQualityData.longitude row)
      /\ match realBox lat lon radius with
         | None =>
             getAirQualityDataByLocation lat lon (Some radius) db' = None
         | Some box =>
             exists before after,
               getAirQualityDataByLocation lat lon (Some radius) db
               = Some before
               /\ getAirQualityDataByLocation lat lon (Some radius) db'
                  = Some after
               /\ forall r,
                   In r after
                   <-> In r before
                       \/ (r = row
                           /\ inRealBox box (AirQualityData.latitude row)
                                        (AirQualityData.longitude row)
                              = true)
         end
  end
  /\ match insertWaterSecurityData uuid stamp water db with
     | (None, db') => db' = db
     | (Some row, db') =>
         Pg.real (InsertWaterSecurityData.latitude water)
         = Some (WaterSecurityData.latitude row)
         /\ Pg.real (InsertWaterSecurityData.longitude water)
            = Some (WaterSecurityData.longitude row)
         /\ match realBox lat lon radius with
            | None =>
                getWaterSecurityDataByLocation lat lon (Some radius) db'
                = None
            | Some box =>
                exists before after,
                  getWaterSecurityDataByLocation lat lon (Some radius) db
                  = Some before
                  /\ getWaterSecurityDataByLocation lat lon (Some radius) db'
                     = Some after
                  /\ forall r,
                      In r after
                      <-> In r before
                          \/ (r = row
                              /\ inRealBox box
                                   (WaterSecurityData.latitude row)
                                   (WaterSecurityData.longitude row)
                                 = true)
            end
     end
  /\ match insertGreenSpaceData uuid stamp green db with
     | (None, db') => db' = db
     | (Some row, db') =>
         Pg.real (InsertGreenSpaceData.latitude green)
         = Some (GreenSpaceData.latitude row)
         /\ Pg.real (InsertGreenSpaceData.longitude green)
            = Some (GreenSpaceData.longitude row)
         /\ match realBox lat lon radius with
            | None =>
                getGreenSpaceDataByLocation lat lon (Some radius) db' = None
            | Some box =>
                exists before after,
                  getGreenSpaceDataByLocation lat lon (Some radius) db
                  = Some before
                  /\ getGreenSpaceDataByLocation lat lon (Some radius) db'
                     = Some after
                  /\ forall r,
                      In r after
                      <-> In r before
                          \/ (r = row
                              /\ inRealBox box (GreenSpaceData.latitude row)
                                           (GreenSpaceData.longitude row)
                                 = true)
            end
     end.
Proof.
  rewrite insertAirQualityData_adds, insertWaterSecurityData_adds,
    insertGreenSpaceData_adds.
  split; [| split].
  - unfold airQualityRow, option_bind.
    destruct (Pg.real (InsertAirQualityData.latitude air)); cbn [option_map];
      [| reflexivity].
    destruct (Pg.real (InsertAirQualityData.longitude air)); [| reflexivity].
    destruct (Pg.real (InsertAirQualityData.aqi air)); [| reflexivity].
    destruct (Pg.nullable (InsertAirQualityData.pm25 air)); [| reflexivity].
    destruct (Pg.nullable (InsertAirQualityData.pm10 air)); [| reflexivity].
    destruct (Pg.nullable (InsertAirQualityData.ozone air)); [| reflexivity].
    destruct (Pg.nullable (InsertAirQualityData.no2 air)); [| reflexivity].
    destruct (Pg.nullable (InsertAirQualityData.so2 air)); [| reflexivity].
    split; [reflexivity |]. split; [reflexivity |].
    unfold getAirQualityDataByLocation, getWaterSecurityDataByLocation,
      getGreenSpaceDataByLocation, radius_or_default.
    rewrite !box_query_eq.
    destruct (realBox lat lon radius) as [box |]; cbn [option_map];
      [| reflexivity].
    do 2 eexists. split; [reflexivity |]. split; [reflexivity |].
    intros r. cbn [airQualityData withAdded].
    apply (appended_rows AirQualityData.timestamp
             (fun row => inRealBox box (AirQualityData.latitude row)
                                   (AirQualityData.longitude row))).
  - unfold waterSecurityRow, option_bind.
    destruct (Pg.real (InsertWaterSecurityData.latitude water));
      [| reflexivity].
    destruct (Pg.real (InsertWaterSecurityData.longitude water));
      [| reflexivity].
    destruct (Pg.real (InsertWaterSecurityData.waterStressLevel water));
      [| reflexivity].
    destruct (Pg.nullable (InsertWaterSecurityData.precipitationLevel water));
      [| reflexivity].
    destruct (Pg.nullable (InsertWaterSecurityData.groundwaterLevel water));
      [| reflexivity].
    destruct (Pg.nullable (InsertWaterSecurityData.floodRisk water));
      [| reflexivity].
    split; [reflexivity |]. split; [reflexivity |].
    unfold getAirQualityDataByLocation, getWaterSecurityDataByLocation,
      getGreenSpaceDataByLocation, radius_or_default.
    rewrite !box_query_eq.
    destruct (realBox lat lon radius) as [box |]; cbn [option_map];
      [| reflexivity].
    do 2 eexists. split; [reflexivity |]. split; [reflexivity |].
    intros r. cbn [waterSecurityData withAdded].
    apply (appended_rows WaterSecurityData.timestamp
             (fun row => inRealBox box (WaterSecurityData.latitude row)
                                   (WaterSecurityData.longitude row))).
  - unfold greenSpaceRow, option_bind.
    destruct (Pg.real (InsertGreenSpaceData.latitude green)); [| reflexivity].
    destruct (Pg.real (InsertGreenSpaceData.longitude green));
      [| reflexivity].
    destruct (Pg.real (InsertGreenSpaceData.ndvi green)); [| reflexivity].
    destruct (Pg.nullable (InsertGreenSpaceData.vegetationCoverage green));
      [| reflexivity].
    split; [reflexivity |]. split; [reflexivity |].
    unfold getAirQualityDataByLocation, getWaterSecurityDataByLocation,
      getGreenSpaceDataByLocation, radius_or_default.
    rewrite !box_query_eq.
    destruct (realBox lat lon radius) as [box |]; cbn [option_map];
      [| reflexivity].
    do 2 eexists. split; [reflexivity |]. split; [reflexivity |].
    intros r. cbn [greenSpaceData withAdded].
    apply (appended_rows GreenSpaceData.timestamp
             (fun row => inRealBox box (GreenSpaceData.latitude row)
                                   (GreenSpaceData.longitude row))).
Qed.

(** X21: A livability score that the database accepts, inserted with a
    timestamp later than every stored one, becomes the answer of
    [getLivabilityScoreByLocation] at every point whose box of 0.01
    degree contains the stored row, and leaves the answer at every
    other point as it was; a score that the database refuses leaves
    the table as it was. *)
Theorem inserted_score_is_latest (uuid : string) (stamp : Date)
  (score : InsertLivabilityScore.t) (lat lon : number) (db : Database) :
  Forall (fun s => LiveabilityScore.timestamp s < stamp)
         (livabilityScores db) ->
  match insertLivabilityScore uuid stamp score db with
  | (None, db') => db' = db
  | (Some row, db') =>
      match realBox lat lon scoreRadius with
      | None => getLivabilityScoreByLocation lat lon db' = None
      | Some box =>
          getLivabilityScoreByLocation lat lon db'
          = if inRealBox box (scoreLatitude row) (scoreLongitude row)
            then Some (Some row)
            else getLivabilityScoreByLocation lat lon db
      end
  end.
Proof.
  intros Hold. rewrite insertLivabilityScore_adds.
  destruct (livabilityScoreRow uuid stamp score) as [row |] eqn:Erow;
    [| reflexivity].
  assert (Estamp : LiveabilityScore.timestamp row = stamp).
  { unfold livabilityScoreRow, option_bind in Erow.
    repeat match type of Erow with
           | match ?o with Some _ => _ | None => None end = _ =>
               destruct o; [| discriminate Erow]
           end.
    injection Erow as <-. reflexivity. }
  rewrite !getLivabilityScoreByLocation_eq.
  destruct (realBox lat lon scoreRadius) as [box |]; cbn [option_map];
    [| reflexivity].
  cbn [livabilityScores withAdded].
  destruct (inRealBox box (scoreLatitude row) (scoreLongitude row)) eqn:Hbox.
  - f_equal.
    match goal with
    | |- hd_error ?q = _ => set (rows := q)
    end.
    assert (Hin : forall s,
      In s rows <->
      In s (livabilityScores db ++ [row])
      /\ inRealBox box (scoreLatitude s) (scoreLongitude s) = true).
    { intros s. unfold rows.
      apply (sorted_rows_spec LiveabilityScore.timestamp
               (livabilityScores db ++ [row])
               (fun s => inRealBox box (scoreLatitude s)
                                   (scoreLongitude s))). }
    assert (Hs : descending LiveabilityScore.timestamp rows)
      by apply orderBy_desc_sorted.
    assert (Hrow : In row rows).
    { apply Hin. split; [apply in_or_app; right; left; reflexivity |].
      exact Hbox. }
    destruct rows as [| first rest]; [contradiction |].
    cbn [hd_error]. f_equal.
    destruct (proj1 (Hin first) (or_introl eq_refl)) as [Hfirst _].
    apply in_app_or in Hfirst. destruct Hfirst as [Hfirst | [E | []]];
      [| symmetry; exact E].
    exfalso.
    rewrite Forall_forall in Hold. apply Hold in Hfirst.
    assert (Hle := descending_head LiveabilityScore.timestamp
                     (first :: rest) first Hs eq_refl row Hrow).
    rewrite Estamp in Hle. lia.
  - rewrite filter_app. cbn [filter]. rewrite Hbox, app_nil_r.
    reflexivity.
Qed.

Section WithParameters.

Variable parseFloat : string -> number.
Variable hoursBefore : Date -> Z -> Date.
Variable fetchAllEnvironmentalData : number -> number -> NasaData.t.
Variable airCompletion : AirQualityData.t -> string -> option Json.
Variable waterCompletion : WaterSecurityData.t -> string -> option Json.
Variable greenCompletion : GreenSpaceData.t -> string -> option Json.

(** ** Input validation *)

(** X22: Every route with coordinates answers 400 "Invalid coordinates" and
    leaves the database alone when [parseFloat] gives NaN for the latitude
    or the longitude. *)
Theorem invalid_coordinates_rejected (env : Environment)
  (latParam lonParam : string) (text : option string) (db : Database) :
  Js.isNaN (parseFloat latParam) || Js.isNaN (parseFloat lonParam) = true ->
  let rejected :=
    (data_status_json 400 (DataError "Invalid coordinates"), db) in
  getEnvironmentalData parseFloat fetchAllEnvironmentalData env
    latParam lonParam db = rejected
  /\ getLivability parseFloat hoursBefore env latParam lonParam text db
     = (status_json 400 (ErrorBody "Invalid coordinates"), db)
  /\ postGenerateAlerts parseFloat hoursBefore airCompletion waterCompletion
       greenCompletion env latParam lonParam text db
     = (status_json 400 (ErrorBody "Invalid coordinates"), db)
  /\ getAirQuality parseFloat latParam lonParam text db = rejected
  /\ getWaterSecurity parseFloat latParam lonParam text db = rejected
  /\ getGreenSpace parseFloat latParam lonParam text db = rejected
  /\ getDashboard parseFloat hoursBefore env latParam lonParam db = rejected.
Proof.
  intros H.
  unfold getEnvironmentalData, getLivability, postGenerateAlerts,
    getAirQuality, getWaterSecurity, getGreenSpace, getDashboard.
  rewrite H. repeat split.
Qed.

(** ** Storing the fetched readings *)

(** The three loops of the environmental-data route, one after the
    other: a loop runs only if the one before stored every reading. *)
Lemma getEnvironmentalData_run (env : Environment)
  (latParam lonParam : string) (db : Database) :
  Js.isNaN (parseFloat latParam) || Js.isNaN (parseFloat lonParam) = false ->
  let nasaData :=
    fetchAllEnvironmentalData (parseFloat latParam) (parseFloat lonParam) in
  let air := map airValues (NasaData.airQuality nasaData) in
  let water := map waterValues (NasaData.waterSecurity nasaData) in
  let green := map greenValues (NasaData.greenSpace nasaData) in
  let airRun := storedUntilFailure airQualityRow env 0 air in
  let waterRun :=
    if snd airRun
    then storedUntilFailure waterSecurityRow env (List.length air) water
    else ([], false) in
  let greenRun :=
    if snd waterRun
    then storedUntilFailure greenSpaceRow env
           (List.length air + List.length water) green
    else ([], false) in
  getEnvironmentalData parseFloat fetchAllEnvironmentalData env
    latParam lonParam db
  = ((if snd greenRun
      then data_json (StoredData (fst airRun) (fst waterRun) (fst greenRun))
      else data_status_json 500
             (DataError "Failed to fetch environmental data")),
     withAdded db (fst airRun) (fst waterRun) (fst greenRun) [] []).
Proof.
  intros H nasaData air water green airRun waterRun greenRun.
  unfold getEnvironmentalData. rewrite H. fold nasaData air water green.
  unfold catch, andThen, succeed, ret.
  rewrite (storeEach_adds insertAirQualityData airQualityRow
             (fun db l => withAdded db l [] [] [] []) env);
    [| apply insertAirQualityData_adds | apply withAdded_nothing
     | intros; apply withAdded_twice].
  subst airRun waterRun greenRun.
  destruct (storedUntilFailure airQualityRow env 0 air)
    as [airRows [|]]; cbn [fst snd]; [| reflexivity].
  rewrite (storeEach_adds insertWaterSecurityData waterSecurityRow
             (fun db l => withAdded db [] l [] [] []) env);
    [| apply insertWaterSecurityData_adds | apply withAdded_nothing
     | intros; apply withAdded_twice].
  destruct (storedUntilFailure waterSecurityRow env (List.length air) water)
    as [waterRows [|]]; cbn [fst snd].
  - rewrite (storeEach_adds insertGreenSpaceData greenSpaceRow
               (fun db l => withAdded db [] [] l [] []) env);
      [| apply insertGreenSpaceData_adds | apply withAdded_nothing
       | intros; apply withAdded_twice].
    rewrite !withAdded_twice. cbn [app]. rewrite !app_nil_r.
    destruct (storedUntilFailure greenSpaceRow env _ green) as [greenRows [|]];
      reflexivity.
  - rewrite !withAdded_twice. cbn [app]. rewrite !app_nil_r. reflexivity.
Qed.

(** X23: On valid coordinates the environmental-data route stores the
    fetched readings one by one, air quality first, then water
    security, then green space, each with its numbers cast to [real]
    and the next [id] and [timestamp] of the database.  When the
    database accepts them all it answers 200 with the stored rows, one
    per fetched reading; when it refuses one, the route stops there and
    answers 500, the rows stored before staying stored.  Scores and
    alerts are not touched. *)
Theorem environmental_data_stored (env : Environment)
  (latParam lonParam : string) (db : Database) :
  Js.isNaN (parseFloat latParam) || Js.isNaN (parseFloat lonParam) = false ->
  let nasaData :=
    fetchAllEnvironmentalData (parseFloat latParam) (parseFloat lonParam) in
  let air := map airValues (NasaData.airQuality nasaData) in
  let water := map waterValues (NasaData.waterSecurity nasaData) in
  let green := map greenValues (NasaData.greenSpace nasaData) in
  let airRun := storedUntilFailure airQualityRow env 0 air in
  let waterRun :=
    if snd airRun
    then storedUntilFailure waterSecurityRow env (List.length air) water
    else ([], false) in
  let greenRun :=
    if snd waterRun
    then storedUntilFailure greenSpaceRow env
           (List.length air + List.length water) green
    else ([], false) in
  getEnvironmentalData parseFloat fetchAllEnvironmentalData env
    latParam lonParam db
  = ((if snd greenRun
      then data_json (StoredData (fst airRun) (fst waterRun) (fst greenRun))
      else data_status_json 500
             (DataError "Failed to fetch environmental data")),
     withAdded db (fst airRun) (fst waterRun) (fst greenRun) [] [])
  /\ (snd greenRun = true ->
      List.length (fst airRun) = List.length (NasaData.airQuality nasaData)
      /\ List.length (fst waterRun)
         = List.length (NasaData.waterSecurity nasaData)
      /\ List.length (fst greenRun)
         = List.length (NasaData.greenSpace nasaData))
  /\ (List.length (fst airRun) <= List.length (NasaData.airQuality nasaData)
      /\ List.length (fst waterRun)
         <= List.length (NasaData.waterSecurity nasaData)
      /\ List.length (fst greenRun)
         <= List.length (NasaData.greenSpace nasaData))%nat.
Proof.
  intros H nasaData air water green airRun waterRun greenRun.
  split; [apply getEnvironmentalData_run; exact H |].
  assert (La := storedUntilFailure_length airQualityRow env air 0).
  assert (Lw := storedUntilFailure_length waterSecurityRow env water
                  (List.length air)).
  assert (Lg := storedUntilFailure_length greenSpaceRow env green
                  (List.length air + List.length water)).
  destruct La as [La1 La2], Lw as [Lw1 Lw2], Lg as [Lg1 Lg2].
  assert (Ea : List.length air = List.length (NasaData.airQuality nasaData))
    by apply length_map.
  assert (Ew : List.length water
               = List.length (NasaData.waterSecurity nasaData))
    by apply length_map.
  assert (Eg : List.length green = List.length (NasaData.greenSpace nasaData))
    by apply length_map.
  rewrite Ea in La1, La2. rewrite Ew in Lw1, Lw2. rewrite Eg in Lg1, Lg2.
  subst airRun waterRun greenRun.
  destruct (storedUntilFailure airQualityRow env 0 air)
    as [airRows [|]]; cbn [fst snd length] in *.
  - destruct (storedUntilFailure waterSecurityRow env (List.length air) water)
      as [waterRows [|]]; cbn [fst snd length] in *.
    + split; [intros Hg; auto | auto].
    + split; [discriminate |]. repeat split; [exact La1 | exact Lw1 | simpl; lia].
  - split; [discriminate |]. repeat split; [exact La1 | simpl; lia | simpl; lia].
Qed.

(** ** Generating alerts *)

(** Every alert of [generateAlerts] is the alert literal filled in with
    the context of the call. *)
Lemma generateAlerts_built (th : AlertService.AlertThresholds)
  (data : AlertService.EnvironmentalData) :
  exists alerts,
    AlertService.generateAlerts airCompletion waterCompletion greenCompletion
      th data = Some alerts
    /\ (List.length alerts <= 5)%nat
    /\ Forall
         (fun a =>
            exists type category title message lat lon severity payload,
              a = AlertService.alert type category title message data
                    lat lon severity payload)
         alerts.
Proof.
  unfold AlertService.generateAlerts, AlertService.analyzed.
  set (built := fun a : InsertEnvironmentalAlert.t =>
         exists type category title message lat lon severity payload,
           a = AlertService.alert type category title message data
                 lat lon severity payload).
  assert (Hb : forall type category title message lat lon severity payload,
             built (AlertService.alert type category title message data
                      lat lon severity payload)).
  { intros. unfold built. repeat eexists. }
  assert (Ha : exists l,
    match AlertService.airQuality data with
    | Some ((_ :: _) as l) =>
        AlertService.analyzeAirQuality airCompletion th l data
    | _ => Some []
    end = Some l /\ (List.length l <= 2)%nat /\ Forall built l).
  { destruct (AlertService.airQuality data) as [[| latest rest] |];
      [exists []; simpl; auto | | exists []; simpl; auto].
    eexists. split; [reflexivity |].
    unfold AlertService.airLevelAlerts, AlertService.airTrendAlerts.
    destruct rest; split_ifs; simpl; split; try lia;
      repeat (constructor; try apply Hb). }
  assert (Hw : exists l,
    match AlertService.waterSecurity data with
    | Some ((_ :: _) as l) =>
        AlertService.analyzeWaterSecurity waterCompletion th l data
    | _ => Some []
    end = Some l /\ (List.length l <= 2)%nat /\ Forall built l).
  { destruct (AlertService.waterSecurity data) as [[| latest rest] |];
      [exists []; simpl; auto | | exists []; simpl; auto].
    eexists. split; [reflexivity |].
    unfold AlertService.waterStressAlerts, AlertService.floodRiskAlerts.
    destruct (WaterSecurityData.floodRisk latest); split_ifs; simpl;
      split; try lia; repeat (constructor; try apply Hb). }
  assert (Hg : exists l,
    match AlertService.greenSpace data with
    | Some ((_ :: _) as l) =>
        AlertService.analyzeGreenSpace greenCompletion th l data
    | _ => Some []
    end = Some l /\ (List.length l <= 1)%nat /\ Forall built l).
  { destruct (AlertService.greenSpace data) as [[| latest rest] |];
      [exists []; simpl; auto | | exists []; simpl; auto].
    eexists. split; [reflexivity |].
    unfold AlertService.greenAlerts.
    split_ifs; simpl; split; try lia; repeat (constructor; try apply Hb). }
  destruct Ha as (la & -> & La & Fa), Hw as (lw & -> & Lw & Fw),
    Hg as (lg & -> & Lg & Fg).
  eexists. split; [reflexivity |]. split.
  - rewrite !length_app. lia.
  - apply Forall_app. split; [exact Fa |].
    apply Forall_app. split; assumption.
Qed.



(** ** The reading routes *)

(** X25: On valid coordinates the three history routes never write.
    The radius is 0.1 when the parameter is missing, zero or not a
    number.  When a bound of the box of that radius around the point is
    out of the range of [real], each route answers its 500; otherwise
    each answers 200 with, latest first, exactly the rows of its table
    whose coordinates lie between the bounds as [real] holds them. *)
Theorem history_routes_read_the_box (latParam lonParam : string)
  (radiusQuery : option string) (db : Database) :
  let lat := parseFloat latParam in
  let lon := parseFloat lonParam in
  let radius :=
    match radiusQuery with
    | Some r => if Js.truthy (parseFloat r) then parseFloat r else Js.dec 1 1
    | None => Js.dec 1 1
    end in
  Js.isNaN lat || Js.isNaN lon = false ->
  match realBox lat lon radius with
  | None =>
      getAirQuality parseFloat latParam lonParam radiusQuery db
      = (data_status_json 500
           (DataError "Failed to fetch air quality data"), db)
      /\ getWaterSecurity parseFloat latParam lonParam radiusQuery db
         = (data_status_json 500
              (DataError "Failed to fetch water security data"), db)
      /\ getGreenSpace parseFloat latParam lonParam radiusQuery db
         = (data_status_json 500
              (DataError "Failed to fetch green space data"), db)
  | Some box =>
      (exists rows,
          getAirQuality parseFloat latParam lonParam radiusQuery db
          = (data_json (AirQualityRows rows), db)
          /\ descending AirQualityData.timestamp rows
          /\ forall row,
              In row rows
              <-> In row (airQualityData db)
                  /\ inRealBox box (AirQualityData.latitude row)
                       (AirQualityData.longitude row) = true)
      /\ (exists rows,
             getWaterSecurity parseFloat latParam lonParam radiusQuery db
             = (data_json (WaterSecurityRows rows), db)
             /\ descending WaterSecurityData.timestamp rows
             /\ forall row,
                 In row rows
                 <-> In row (waterSecurityData db)
                     /\ inRealBox box (WaterSecurityData.latitude row)
                          (WaterSecurityData.longitude row) = true)
      /\ (exists rows,
             getGreenSpace parseFloat latParam lonParam radiusQuery db
             = (data_json (GreenSpaceRows rows), db)
             /\ descending GreenSpaceData.timestamp rows
             /\ forall row,
                 In row rows
                 <-> In row (greenSpaceData db)
                     /\ inRealBox box (GreenSpaceData.latitude row)
                          (GreenSpaceData.longitude row) = true)
  end.
Proof.
  intros lat lon radius Hnan.
  assert (Er : radiusParam parseFloat radiusQuery = radius).
  { unfold radiusParam, radius, Js.or.
    destruct radiusQuery as [r |]; reflexivity. }
  unfold getAirQuality, getWaterSecurity, getGreenSpace.
  fold lat lon. rewrite Hnan, Er.
  unfold catch, andThen, tryQuery, succeed, ret.
  unfold getAirQualityDataByLocation, getWaterSecurityDataByLocation,
    getGreenSpaceDataByLocation, radius_or_default.
  rewrite !box_query_eq.
  destruct (realBox lat lon radius) as [box |]; cbn [option_map];
    [| repeat split].
  repeat split; eexists; (split; [reflexivity |]);
    match goal with
    | |- context [orderBy_desc ?col (filter ?c ?t)] =>
        destruct (sorted_rows_spec col t c) as (_ & Hs & Hin)
    end; (split; [exact Hs | exact Hin]).
Qed.

(** X26: On valid coordinates the dashboard route never writes.  It
    answers 500 when a bound of the box of 0.1 degree, or of the box of
    0.01 degree, around the point is out of the range of [real], and 200
    otherwise.  Then its current readings are the heads, and its history
    the first 24 entries, of the readings of the last 24 hours in the
    box of 0.1 degree, latest first; its score is the answer of
    [getLivabilityScoreByLocation]; and it shows at most ten alerts, all
    of them active, none less severe than an active alert it leaves
    out. *)
Theorem dashboard_summary (env : Environment) (latParam lonParam : string)
  (db : Database) :
  let lat := parseFloat latParam in
  let lon := parseFloat lonParam in
  let cutoff := hoursBefore (clock env) 24 in
  let failure :=
    data_status_json 500 (DataError "Failed to fetch dashboard data") in
  Js.isNaN lat || Js.isNaN lon = false ->
  match realBox lat lon defaultRadius, realBox lat lon scoreRadius with
  | Some box, Some _ =>
      exists air water green score shown,
        getDashboard parseFloat hoursBefore env latParam lonParam db
        = (data_json
             (Dashboard [Fixed lat 3; Lit ", "; Fixed lon 3]
                (hd_error air) (hd_error water) (hd_error green)
                score shown
                (firstn 24 air) (firstn 24 water) (firstn 24 green)),
           db)
        /\ getLivabilityScoreByLocation lat lon db = Some score
        /\ Permutation air
             (recentIn AirQualityData.latitude AirQualityData.longitude
                AirQualityData.timestamp box cutoff (airQualityData db))
        /\ descending AirQualityData.timestamp air
        /\ Permutation water
             (recentIn WaterSecurityData.latitude WaterSecurityData.longitude
                WaterSecurityData.timestamp box cutoff
                (waterSecurityData db))
        /\ descending WaterSecurityData.timestamp water
        /\ Permutation green
             (recentIn GreenSpaceData.latitude GreenSpaceData.longitude
                GreenSpaceData.timestamp box cutoff (greenSpaceData db))
        /\ descending GreenSpaceData.timestamp green
        /\ (List.length shown <= 10)%nat
        /\ (forall a, In a shown ->
                      In a (environmentalAlerts db)
                      /\ alertIsActive a = true)
        /\ (forall a b,
               In a shown -> In b (environmentalAlerts db) ->
               alertIsActive b = true -> ~ In b shown ->
               column_le (alertSeverity b) (alertSeverity a) = true)
  | _, _ =>
      getDashboard parseFloat hoursBefore env latParam lonParam db
      = (failure, db)
  end.
Proof.
  intros lat lon cutoff failure Hnan.
  assert (Escore := getLivabilityScoreByLocation_eq lat lon db).
  destruct (realBox lat lon defaultRadius) as [box |] eqn:Ebox;
    [destruct (realBox lat lon scoreRadius) as [scoreBox |] |];
    cbn [option_map] in Escore;
    unfold getDashboard; fold lat lon; rewrite Hnan;
    unfold catch; unfold andThen at 1;
    rewrite getRecentEnvironmentalData_eq, Ebox; cbn [option_map];
    unfold andThen, tryQuery, succeed, ret, firstOrNull, JsArray.slice0;
    cbn [recentAirQuality recentWaterSecurity recentGreenSpace];
    try rewrite Escore; try reflexivity.
  do 5 eexists. split; [reflexivity |]. split; [reflexivity |].
  split; [apply recent_list |]. split; [apply recent_list |].
  split; [apply recent_list |]. split; [apply recent_list |].
  split; [apply recent_list |]. split; [apply recent_list |].
  split; [apply firstn_le_length |].
  split.
  - intros a Ha. apply getActiveAlerts_member.
    rewrite <- (firstn_skipn 10 (getActiveAlerts db)).
    apply in_or_app. left. exact Ha.
  - intros a b Ha Hb Hactive Hout.
    apply severity_then_time_severity.
    apply (sorted_firstn _ _ (getActiveAlerts_sorted db) 10 a b Ha).
    assert (Hin : In b (getActiveAlerts db))
      by (apply getActiveAlerts_member; auto).
    rewrite <- (firstn_skipn 10 (getActiveAlerts db)) in Hin.
    apply in_app_or in Hin. destruct Hin as [Hin | Hin];
      [contradiction | exact Hin].
Qed.

(** ** What the routes write *)

(** X27: No route removes or changes a stored row. The alert list, the
    dismissal, the three history routes and the dashboard leave the database
    as it is; the environmental-data route only adds readings, the
    livability route at most one score, and the generate route at most five
    alerts. *)
Theorem routes_only_add_rows (env : Environment)
  (latParam lonParam : string) (text : option string) (id : string)
  (db : Database) :
  snd (getAlerts db) = db
  /\ snd (patchDismissAlert id db) = db
  /\ snd (getAirQuality parseFloat latParam lonParam text db) = db
  /\ snd (getWaterSecurity parseFloat latParam lonParam text db) = db
  /\ snd (getGreenSpace parseFloat latParam lonParam text db) = db
  /\ snd (getDashboard parseFloat hoursBefore env latParam lonParam db) = db
  /\ (exists air water green,
         snd (getEnvironmentalData parseFloat fetchAllEnvironmentalData env
                latParam lonParam db)
         = withAdded db air water green [] [])
  /\ (exists scores,
         snd (getLivability parseFloat hoursBefore env latParam lonParam
                text db)
         = withAdded db [] [] [] scores []
         /\ (List.length scores <= 1)%nat)
  /\ (exists alerts,
         snd (postGenerateAlerts parseFloat hoursBefore airCompletion
                waterCompletion greenCompletion env latParam lonParam
                text db)
         = withAdded db [] [] [] [] alerts
         /\ (List.length alerts <= 5)%nat).
Proof.
  split; [reflexivity |]. split; [reflexivity |].
  split.
  { unfold getAirQuality, catch, andThen, tryQuery, succeed, ret.
    destruct (Js.isNaN _ || Js.isNaN _); [reflexivity |].
    destruct (getAirQualityDataByLocation _ _ _ db); reflexivity. }
  split.
  { unfold getWaterSecurity, catch, andThen, tryQuery, succeed, ret.
    destruct (Js.isNaN _ || Js.isNaN _); [reflexivity |].
    destruct (getWaterSecurityDataByLocation _ _ _ db); reflexivity. }
  split.
  { unfold getGreenSpace, catch, andThen, tryQuery, succeed, ret.
    destruct (Js.isNaN _ || Js.isNaN _); [reflexivity |].
    destruct (getGreenSpaceDataByLocation _ _ _ db); reflexivity. }
  split.
  { unfold getDashboard, catch.
    destruct (Js.isNaN _ || Js.isNaN _); [reflexivity |].
    unfold andThen at 1. rewrite getRecentEnvironmentalData_eq.
    destruct (realBox _ _ defaultRadius); cbn [option_map];
      [| reflexivity].
    unfold andThen, tryQuery, succeed, ret.
    destruct (getLivabilityScoreByLocation _ _ db); reflexivity. }
  split.
  { destruct (Js.isNaN (parseFloat latParam)
              || Js.isNaN (parseFloat lonParam)) eqn:Hnan.
    - exists [], [], []. unfold getEnvironmentalData, catch, succeed.
      rewrite Hnan. cbn [snd]. rewrite withAdded_nothing. reflexivity.
    - rewrite (getEnvironmentalData_run env latParam lonParam db Hnan).
      do 3 eexists. reflexivity. }
  split.
  { unfold getLivability, catch.
    destruct (Js.isNaN _ || Js.isNaN _).
    - exists []. unfold succeed. cbn [snd]. rewrite withAdded_nothing.
      split; [reflexivity | simpl; lia].
    - unfold andThen at 1. rewrite getRecentEnvironmentalData_eq.
      destruct (realBox _ _ defaultRadius); cbn [option_map].
      + match goal with
        | |- context [if ?c then _ else _] => destruct c
        end.
        * exists []. unfold succeed. cbn [snd]. rewrite withAdded_nothing.
          split; [reflexivity | simpl; lia].
        * unfold andThen, succeed, ret. rewrite insertLivabilityScore_adds.
          destruct (livabilityScoreRow _ _ _) as [row |].
          -- exists [row]. split; [reflexivity | simpl; lia].
          -- exists []. cbn [snd]. rewrite withAdded_nothing.
             split; [reflexivity | simpl; lia].
      + exists []. unfold ret. cbn [snd]. rewrite withAdded_nothing.
        split; [reflexivity | simpl; lia]. }
  { unfold postGenerateAlerts, catch.
    destruct (Js.isNaN _ || Js.isNaN _).
    - exists []. unfold succeed. cbn [snd]. rewrite withAdded_nothing.
      split; [reflexivity | simpl; lia].
    - unfold andThen at 1. rewrite getRecentEnvironmentalData_eq.
      destruct (realBox _ _ defaultRadius); cbn [option_map].
      + match goal with
        | |- context [AlertService.generateAlerts _ _ _ ?th ?data] =>
            destruct (generateAlerts_built th data)
              as (newAlerts & -> & Hlen & _)
        end.
        unfold andThen, succeed, ret. rewrite storeAlerts_adds.
        destruct (storedUntilFailure_length environmentalAlertRow env
                    newAlerts 0) as [Hle _].
        exists (fst (storedUntilFailure environmentalAlertRow env 0
                       newAlerts)).
        split; [| eapply Nat.le_trans; [exact Hle | exact Hlen]].
        destruct (snd (storedUntilFailure environmentalAlertRow env 0
                         newAlerts)); reflexivity.
      + exists []. unfold ret. cbn [snd]. rewrite withAdded_nothing.
        split; [reflexivity | simpl; lia]. }
Qed.

End WithParameters.

End RoutesFurther.

(* ================================================================== *)
(** * The client against the server *)
(* ================================================================== *)

Section PageFacts.
Import AlertService LiveabilityCalculator.




(** X30: Toggling a layer of the map flips the layers with that id and no
    other, keeps ids, names, colours and order, and toggling it a second
    time restores the selection. *)
Theorem layer_toggle_flips_one_layer (layerId : string)
  (selectedLayers : list EnvironmentalMap.MapLayer) :
  let updatedLayers :=
    EnvironmentalMap.handleLayerToggle layerId selectedLayers in
  EnvironmentalMap.handleLayerToggle layerId updatedLayers = selectedLayers
  /\ map EnvironmentalMap.id updatedLayers
     = map EnvironmentalMap.id selectedLayers
  /\ map EnvironmentalMap.name updatedLayers
     = map EnvironmentalMap.name selectedLayers
  /\ map EnvironmentalMap.color updatedLayers
     = map EnvironmentalMap.color selectedLayers
  /\ forall (i : nat) (layer : EnvironmentalMap.MapLayer),
      nth_error selectedLayers i = Some layer ->
      option_map EnvironmentalMap.active (nth_error updatedLayers i)
      = Some (if String.eqb (EnvironmentalMap.id layer) layerId
              then negb (EnvironmentalMap.active layer)
              else EnvironmentalMap.active layer).
Proof.
  unfold EnvironmentalMap.handleLayerToggle. cbv zeta.
  split; [| split; [| split; [| split]]].
  - rewrite map_map. rewrite <- (map_id selectedLayers) at 2.
    apply map_ext. intros [i n a c]. cbn.
    destruct (String.eqb i layerId) eqn:E; cbn; rewrite E;
      [rewrite negb_involutive |]; reflexivity.
  - rewrite map_map. apply map_ext. intros layer.
    destruct (String.eqb _ _); reflexivity.
  - rewrite map_map. apply map_ext. intros layer.
    destruct (String.eqb _ _); reflexivity.
  - rewrite map_map. apply map_ext. intros layer.
    destruct (String.eqb _ _); reflexivity.
  - intros i layer H. rewrite nth_error_map, H. cbn.
    destruct (String.eqb _ _); reflexivity.
Qed.

End PageFacts.

(* ================================================================== *)
(** * Instances on concrete data *)
(* ================================================================== *)

Section Instances.
Import AlertService Storage Routes.

Lemma C3_witness :
  let reading (aqi : number) (stamp : Date) :=
    AirQualityData.mk "r" (Js.int 10) (Js.int 10) aqi None None None None
      None "local" stamp JNull in
  let context := mkData None None None None None None in
  exists level trend : Alert,
    analyzeAirQuality (fun _ _ => None) thresholds
      [reading (Js.int 160) 2; reading (Js.int 90) 1] context
    = Some [level; trend]
    /\ InsertEnvironmentalAlert.type level = "danger"
    /\ InsertEnvironmentalAlert.title level
       = "Unhealthy Air Quality Detected"
    /\ InsertEnvironmentalAlert.type trend = "warning"
    /\ InsertEnvironmentalAlert.title trend
       = "Rapid Air Quality Deterioration".
Proof.
  intros reading context.
  apply (proj1 (C3_rapid_deterioration (fun _ _ => None) (reading (Js.int 160) 2)
                  (reading (Js.int 90) 1) [] context));
    reflexivity.
Defined.

(** A water reading with stress 85 and flood risk 75 raises two danger
    alerts, one per rule. *)
Example water_two_dangers :
  option_map (map (fun a => (InsertEnvironmentalAlert.type a,
                             InsertEnvironmentalAlert.title a)))
    (analyzeWaterSecurity offline thresholds
       [waterReading (Js.int 85) (Some (Js.int 75)) 2] noContext)
  = Some [("danger", "Critical Water Stress Level");
          ("danger", "High Flood Risk Alert")].
Proof. reflexivity. Qed.

(** The alerts of the sample data, with their severities: 160/150*70,
    capped 70/50*40, 85/100*80, 75/100*75 and (15-10)/15*70. *)
Example sample_alerts :
  option_map (map (fun a => (InsertEnvironmentalAlert.title a,
                             InsertEnvironmentalAlert.severity a)))
    (generateAlerts offline offline offline thresholds sampleData)
  = Some [("Unhealthy Air Quality Detected",
           Js.mul (Js.div (Js.int 160) (Js.int 150)) (Js.int 70));
          ("Rapid Air Quality Deterioration", Js.int 56);
          ("Critical Water Stress Level", Js.int 68);
          ("High Flood Risk Alert", Js.dec 5625 2);
          ("Critical Green Space Deficiency",
           Js.mul (Js.div (Js.int 5) (Js.int 15)) (Js.int 70))].
Proof. vm_compute. reflexivity. Qed.

(** What a [real] column gives back: 74.66666666666667 and
    23.333333333333332 come back as 74.666664 and 23.333334, 10.10000001
    as 10.1 and 16777217 as 16777216; 0.1 and 56.25 come back as they
    were written; 1e39 and 1e-50 are refused. *)
Example real_values :
  Pg.real (Js.mul (Js.div (Js.int 160) (Js.int 150)) (Js.int 70))
  = Some (Js.dec 74666664 6)
  /\ Pg.real (Js.mul (Js.div (Js.int 5) (Js.int 15)) (Js.int 70))
     = Some (Js.dec 23333334 6)
  /\ Pg.real (Js.dec 1010000001 8) = Some (Js.dec 101 1)
  /\ Pg.real (Js.int 16777217) = Some (Js.int 16777216)
  /\ Pg.real (Js.dec 1 1) = Some (Js.dec 1 1)
  /\ Pg.real (Js.dec 5625 2) = Some (Js.dec 5625 2)
  /\ Pg.real (Js.int (10 ^ 39)) = None
  /\ Pg.real (Js.dec 1 50) = None.
Proof. vm_compute. repeat split. Qed.

(** The location query on the sample database: both air-quality rows
    lie in the box around (10, 10), and the later one comes first. *)
Example sample_air_query :
  option_map (map AirQualityData.timestamp)
    (getAirQualityDataByLocation (Js.int 10) (Js.int 10) None sampleDatabase)
  = Some [2; 1].
Proof. vm_compute. reflexivity. Qed.

(** A row just outside the box: the latitude 10.2 is above 10 + 0.1. *)
Example outside_box :
  option_map (fun box => inRealBox box (Js.dec 102 1) (Js.int 10))
    (realBox (Js.int 10) (Js.int 10) defaultRadius)
  = Some false.
Proof. vm_compute. reflexivity. Qed.

(** The query at latitude 1e39 raises: the bound is out of the range of
    [real]. *)
Example query_out_of_range :
  getAirQualityDataByLocation (Js.int (10 ^ 39)) (Js.int 10) None
    sampleDatabase
  = None.
Proof. vm_compute. reflexivity. Qed.

(** A reading inserted at latitude 10.10000001 is stored at 10.1, and
    the query around (10, 10) finds it. *)
Example stored_reading_rounds_into_box :
  let reading :=
    InsertAirQualityData.mk (Js.dec 1010000001 8) (Js.int 10) (Js.int 50)
      None None None None None "local" JNull in
  match insertAirQualityData "n" 3 reading emptyDatabase with
  | (Some row, db') =>
      AirQualityData.latitude row = Js.dec 101 1
      /\ getAirQualityDataByLocation (Js.int 10) (Js.int 10) None db'
         = Some [row]
      /\ inBox (Js.int 10) (Js.int 10) defaultRadius (Js.dec 1010000001 8)
               (Js.int 10)
         = false
  | (None, _) => False
  end.
Proof. vm_compute. repeat split. Qed.

(** The score stored at latitude 10 is found from latitude 10.01000001:
    the bound 10.00000001 is 10 as a [real]. *)
Example score_found_across_the_boundary :
  option_map (option_map LiveabilityScore.id)
    (getLivabilityScoreByLocation (Js.dec 1001000001 8) (Js.int 10)
       scoredDatabase)
  = Some (Some "old")
  /\ Js.le (Js.sub (Js.dec 1001000001 8) scoreRadius) (Js.int 10) = false.
Proof. vm_compute. split; reflexivity. Qed.

(** The sample request stores the scores 35, 10 and 20 with the overall
    score round(0.4*35 + 0.35*10 + 0.25*20) = 23. *)
Example sample_livability :
  map (fun s =>
         let v := LiveabilityScore.values s in
         (InsertLivabilityScore.airQualityScore v,
          InsertLivabilityScore.waterSecurityScore v,
          InsertLivabilityScore.greenSpaceScore v,
          InsertLivabilityScore.overallScore v))
    (livabilityScores
       (snd (getLivability (fun _ => Js.int 10) fixedOffset sampleEnvironment
               "10" "10" None sampleDatabase)))
  = [(Js.int 35, Js.int 10, Js.int 20, Js.int 23)].
Proof. vm_compute. reflexivity. Qed.

(** The alerts the generate route answers for the sample database carry
    the severities as the [real] column holds them. *)
Example sample_generated_severities :
  match
    body (fst (postGenerateAlerts (fun _ => Js.int 10) fixedOffset offline
                 offline offline sampleEnvironment "10" "10" None
                 sampleDatabase))
  with
  | AlertsBody alerts =>
      map (fun a => InsertEnvironmentalAlert.severity
                      (EnvironmentalAlert.values a)) alerts
  | _ => []
  end
  = [Js.dec 74666664 6; Js.int 56; Js.int 68; Js.dec 5625 2;
     Js.dec 23333334 6].
Proof. vm_compute. reflexivity. Qed.

Lemma C10_witness :
  forallb binary64_coverage [greenReading (Js.dec 1 1) None 2] = true
  /\ exists alerts : list Alert,
      generateAlerts offline offline offline thresholds sampleData
      = Some alerts
      /\ Forall alert_invariant alerts.
Proof.
  split; [reflexivity |].
  apply (C10_alert_invariant offline offline offline sampleData).
  intros greenData Hg. injection Hg as <-. reflexivity.
Defined.



Lemma NaN_aqi_witness :
  AirQualityData.aqi (airReading Js.NaN 2) = Js.NaN
  /\ analyzeAirQuality offline thresholds
       [airReading Js.NaN 2; airReading (Js.int 90) 1] noContext
     = Some [].
Proof.
  split; [reflexivity |].
  apply (NaN_aqi_is_silent offline (airReading Js.NaN 2)
           [airReading (Js.int 90) 1] noContext).
  reflexivity.
Defined.

Lemma invalid_coordinates_witness :
  getDashboard (fun _ => Js.NaN) fixedOffset sampleEnvironment
    "north" "east" sampleDatabase
  = (data_status_json 400 (DataError "Invalid coordinates"), sampleDatabase).
Proof.
  assert (H := invalid_coordinates_rejected (fun _ => Js.NaN) fixedOffset
                 sampleFetch offline offline offline sampleEnvironment
                 "north" "east" None sampleDatabase eq_refl).
  cbv zeta in H.
  destruct H as (_ & _ & _ & _ & _ & _ & H). exact H.
Defined.

Lemma environmental_data_witness :
  let answer :=
    getEnvironmentalData (fun _ => Js.int 10) sampleFetch sampleEnvironment
      "10" "10" sampleDatabase in
  data_status (fst answer) = 200
  /\ List.length (airQualityData (snd answer)) = 3%nat
  /\ List.length (waterSecurityData (snd answer)) = 2%nat
  /\ List.length (greenSpaceData (snd answer)) = 2%nat.
Proof.
  assert (H := environmental_data_stored (fun _ => Js.int 10) sampleFetch
                 sampleEnvironment "10" "10" sampleDatabase eq_refl).
  cbv zeta in H. destruct H as (H & _).
  cbv zeta. rewrite H. vm_compute. repeat split.
Defined.


Lemma history_routes_witness :
  exists rows,
    getAirQuality (fun _ => Js.int 10) "10" "10" None sampleDatabase
    = (data_json (AirQualityRows rows), sampleDatabase)
    /\ descending AirQualityData.timestamp rows.
Proof.
  assert (H := history_routes_read_the_box (fun _ => Js.int 10) "10" "10"
                 None sampleDatabase).
  cbv zeta in H. specialize (H eq_refl).
  destruct (realBox (Js.int 10) (Js.int 10) (Js.dec 1 1)) as [box |] eqn:Ebox;
    [| vm_compute in Ebox; discriminate Ebox].
  destruct H as ((rows & E & Hs & _) & _).
  exists rows. split; [exact E | exact Hs].
Defined.

Lemma dashboard_witness :
  exists body,
    getDashboard (fun _ => Js.int 10) fixedOffset sampleEnvironment
      "10" "10" sampleDatabase
    = (data_json body, sampleDatabase).
Proof.
  assert (H := dashboard_summary (fun _ => Js.int 10) fixedOffset
                 sampleEnvironment "10" "10" sampleDatabase).
  cbv zeta in H. specialize (H eq_refl).
  destruct (realBox (Js.int 10) (Js.int 10) defaultRadius) as [box |] eqn:Ebox;
    [| vm_compute in Ebox; discriminate Ebox].
  destruct (realBox (Js.int 10) (Js.int 10) scoreRadius) as [scoreBox |]
    eqn:Escore; [| vm_compute in Escore; discriminate Escore].
  destruct H as (air & water & green & score & shown & E & _).
  eexists. exact E.
Defined.

Lemma inserted_score_witness :
  getLivabilityScoreByLocation (Js.int 10) (Js.int 10)
    (snd (insertLivabilityScore "new" 9 (sampleScore (Js.int 40))
            scoredDatabase))
  = Some (Some (LiveabilityScore.mk "new" 9 (sampleScore (Js.int 40)))).
Proof.
  assert (Hold : Forall (fun s => LiveabilityScore.timestamp s < 9)
                   (livabilityScores scoredDatabase)).
  { apply Forall_cons; [reflexivity | apply Forall_nil]. }
  assert (H := inserted_score_is_latest "new" 9 (sampleScore (Js.int 40))
                 (Js.int 10) (Js.int 10) scoredDatabase Hold).
  assert (E : insertLivabilityScore "new" 9 (sampleScore (Js.int 40))
                scoredDatabase
              = (Some (LiveabilityScore.mk "new" 9 (sampleScore (Js.int 40))),
                 withAdded scoredDatabase [] [] []
                   [LiveabilityScore.mk "new" 9 (sampleScore (Js.int 40))]
                   []))
    by (vm_compute; reflexivity).
  rewrite E in H |- *. cbn [snd].
  destruct (realBox (Js.int 10) (Js.int 10) scoreRadius) as [box |] eqn:Ebox;
    [| vm_compute in Ebox; discriminate Ebox].
  rewrite H. vm_compute in Ebox. injection Ebox as <-.
  vm_compute. reflexivity.
Defined.

End Instances.
